(** * git-iterative-blame: a shallow embedding of [git_iterative_blame.py]

    The development follows the layout of the script: a small model of the
    Python run time the script relies on (exceptions, [str] methods, binary64
    floats, insertion-ordered dictionaries), then one module per class
    ([FileDiffLine], [FileDiff], [Commit], [LineBlame], [FileBlame]), the
    matching function [lines_match], and the interactive loop
    [iterative_blame_interactive].  The theorems come after the definitions.

    Conventions.
    - Text is a [string]; each character stands for one code point in the
      range U+0000 .. U+00FF, and the character classes ([isspace],
      [isdigit]) are those of Python 3 on that range.
    - Python integers are [Z]; lengths are [nat].
    - Python floats are IEEE 754 binary64 values, taken from the standard
      library's bit-level specification [spec_float] with [prec = 53] and
      [emax = 1024].
    - A computation that may raise returns a [result]. *)

From Stdlib Require Import List String Ascii ZArith NArith Arith Bool Lia.
From Stdlib Require Import Permutation Sorted.
From Stdlib Require Import Floats.
Import ListNotations.

Local Open Scope string_scope.
Local Open Scope list_scope.

(* ------------------------------------------------------------------ *)
(** ** Exceptions and the error monad *)

(** The key carried by a [KeyError]. *)
Inductive pykey : Type :=
| KInt (n : Z)                              (* [KeyError(line_num)] *)
| KPair (left right : option Z)             (* [KeyError(repr((left_num, right_num)))] *)
| KName (name : option string).             (* a missing dictionary key *)

Inductive exn : Type :=
| AssertionError (msg : string)
| KeyError (k : pykey)
| IndexError
| NameError (name : string)
| ValueError
| TypeError
| ZeroDivisionError
| EOFError
| CalledProcessError.

Inductive result (A : Type) : Type :=
| Ok (a : A)
| Raise (e : exn).

Arguments Ok {A} a.
Arguments Raise {A} e.

Definition bind {A B : Type} (m : result A) (k : A -> result B) : result B :=
  match m with
  | Ok a => k a
  | Raise e => Raise e
  end.

Notation "x <- m ;; k" := (bind m (fun x => k))
  (at level 61, m at next level, right associativity).

Definition assert (b : bool) (msg : string) : result unit :=
  if b then Ok tt else Raise (AssertionError msg).

(* ------------------------------------------------------------------ *)
(** ** [str] methods *)

Module Str.

Definition code (c : ascii) : N := N_of_ascii c.

(** [str.isspace] on one character: U+0009..U+000D, U+001C..U+0020,
    U+0085 and U+00A0 are the white-space code points below U+0100. *)
Definition isspace (c : ascii) : bool :=
  let n := code c in
  ((9 <=? n) && (n <=? 13) || (28 <=? n) && (n <=? 32)
   || (n =? 133) || (n =? 160))%N.

(** The ASCII decimal digits, which [int] and the pattern class [[0-9]]
    accept. *)
Definition is_ascii_digit (c : ascii) : bool :=
  let n := code c in ((48 <=? n) && (n <=? 57))%N.

(** [str.isdigit] on one character: the ASCII digits and the superscript
    digits U+00B2, U+00B3 and U+00B9. *)
Definition isdigit_char (c : ascii) : bool :=
  let n := code c in
  (is_ascii_digit c || (n =? 178) || (n =? 179) || (n =? 185))%N.

Fixpoint forallb (p : ascii -> bool) (s : string) : bool :=
  match s with
  | EmptyString => true
  | String c r => p c && forallb p r
  end.

(** [s.isdigit()]: non-empty and every character is a digit. *)
Definition isdigit (s : string) : bool :=
  match s with
  | EmptyString => false
  | _ => forallb isdigit_char s
  end.

(** [s.startswith(p)] *)
Definition startswith (s p : string) : bool := String.prefix p s.

(** [s[n:]] *)
Fixpoint drop (n : nat) (s : string) : string :=
  match n, s with
  | O, _ => s
  | S _, EmptyString => EmptyString
  | S n', String _ r => drop n' r
  end.

(** [s.lstrip()] *)
Fixpoint lstrip (s : string) : string :=
  match s with
  | EmptyString => EmptyString
  | String c r => if isspace c then lstrip r else s
  end.

(** [s.rstrip()] *)
Fixpoint rstrip (s : string) : string :=
  match s with
  | EmptyString => EmptyString
  | String c r =>
      match rstrip r with
      | EmptyString => if isspace c then EmptyString else String c EmptyString
      | r' => String c r'
      end
  end.

(** [s.strip()] *)
Definition strip (s : string) : string := rstrip (lstrip s).

(** [c in s] for a one-character [c]. *)
Fixpoint contains (c : ascii) (s : string) : bool :=
  match s with
  | EmptyString => false
  | String d r => Ascii.eqb c d || contains c r
  end.

(** [s.split(c)] for a one-character separator: the fields between the
    occurrences of [c] (always at least one field). *)
Fixpoint split (c : ascii) (s : string) : list string :=
  match s with
  | EmptyString => [EmptyString]
  | String d r =>
      if Ascii.eqb c d then EmptyString :: split c r
      else match split c r with
           | [] => [String d EmptyString]
           | f :: fs => String d f :: fs
           end
  end.

(** The longest run of ASCII digits at the head of [s], and the rest. *)
Fixpoint span_digits (s : string) : string * string :=
  match s with
  | EmptyString => (EmptyString, EmptyString)
  | String c r =>
      if is_ascii_digit c
      then let '(d, rest) := span_digits r in (String c d, rest)
      else (EmptyString, s)
  end.

Definition digit_value (c : ascii) : Z := Z.of_N (code c) - 48.

Fixpoint int_acc (acc : Z) (s : string) : Z :=
  match s with
  | EmptyString => acc
  | String c r => int_acc (10 * acc + digit_value c) r
  end.

(** [int(s)] for a string of ASCII digits. *)
Definition int_of_digits (s : string) : Z := int_acc 0 s.

(** The digits of an integer literal body: ASCII digits, with single
    underscores allowed between two digits.  [after_digit] tells whether
    the previous character was a digit. *)
Fixpoint literal_digits (after_digit : bool) (s : string) : option string :=
  match s with
  | EmptyString => if after_digit then Some EmptyString else None
  | String c r =>
      if is_ascii_digit c then
        match literal_digits true r with
        | Some d => Some (String c d)
        | None => None
        end
      else if Ascii.eqb c "_" && after_digit then literal_digits false r
      else None
  end.

(** [int(s)]: white space around the literal is ignored, one sign is
    allowed, and the rest must be a decimal literal, else [ValueError].
    (Digits beyond U+00FF are outside the alphabet.) *)
Definition int (s : string) : result Z :=
  let t := strip s in
  let '(neg, body) :=
    match t with
    | String "-" r => (true, r)
    | String "+" r => (false, r)
    | _ => (false, t)
    end in
  match literal_digits false body with
  | Some d => Ok (if neg then (- int_of_digits d)%Z else int_of_digits d)
  | None => Raise ValueError
  end.

Fixpoint digits_of_pos_fuel (fuel : nat) (n : Z) (acc : string) : string :=
  match fuel with
  | O => acc
  | S f =>
      let d := ascii_of_N (Z.to_N (n mod 10) + 48) in
      if (n <? 10)%Z then String d acc
      else digits_of_pos_fuel f (n / 10)%Z (String d acc)
  end.

(** [str(n)] for a natural number. *)
Definition of_nat (n : nat) : string :=
  digits_of_pos_fuel (S n) (Z.of_nat n) EmptyString.

End Str.

(* ------------------------------------------------------------------ *)
(** ** [os.path.commonprefix]

    The library function, on a two-element list as [lines_match] calls it:
    [s1 = min(m)], [s2 = max(m)], then the characters of [s1] are compared
    with those of [s2] at the same index, and [s1[:i]] is returned at the
    first difference. *)

Module OsPath.

(** [min([a, b])]: the first of the smallest elements. *)
Definition min2 (a b : string) : string := if (b <? a)%string then b else a.

(** [max([a, b])]: the first of the largest elements. *)
Definition max2 (a b : string) : string := if (a <? b)%string then b else a.

(** [for i, c in enumerate(s1): if c != s2[i]: return s1[:i]], then
    [return s1].  [s2[i]] past the end of [s2] is an [IndexError]. *)
Fixpoint scan (s1 s2 : string) : result string :=
  match s1 with
  | EmptyString => Ok EmptyString
  | String c r1 =>
      match s2 with
      | EmptyString => Raise IndexError
      | String d r2 =>
          if Ascii.eqb c d
          then p <- scan r1 r2 ;; Ok (String c p)
          else Ok EmptyString
      end
  end.

Definition commonprefix (a b : string) : result string :=
  scan (min2 a b) (max2 a b).

End OsPath.

(* ------------------------------------------------------------------ *)
(** ** Floats *)

Module PyFloat.

Definition t : Type := spec_float.

(** [float(n)] for an integer [n]: the nearest binary64 value. (Python
    raises [OverflowError] from 2^1024 on, where this gives infinity; no
    length comes near.) *)
Definition of_int (n : Z) : t := binary_normalize prec emax n 0 false.

(** [x / y] on floats. *)
Definition div (x y : t) : result t :=
  match y with
  | S754_zero _ => Raise ZeroDivisionError
  | _ => Ok (SFdiv prec emax x y)
  end.

(** [x > y] *)
Definition gt (x y : t) : bool := SFltb y x.

(** The literals [0.8], [0.9] and [1.0], each the binary64 value nearest
    to the decimal (written in hexadecimal so that it is exact). *)
Definition lit_0_8 : t := Eval vm_compute in Prim2SF 0x1.999999999999ap-1%float.
Definition lit_0_9 : t := Eval vm_compute in Prim2SF 0x1.ccccccccccccdp-1%float.
Definition lit_1_0 : t := Eval vm_compute in Prim2SF 1%float.

(** *** [float(n)] spelled out

    The definitions below describe [of_int n] for [n > 0] without the
    shift registers of [binary_normalize]: with [d] the number of binary
    digits of [n], the integer is scaled to 53 digits ([int_mantissa],
    exponent [d - 53]); the digits that fall off decide the rounding
    ([int_loc], round to nearest, ties to even); a carry out of the 53
    digits moves the exponent up by one ([final_pair]); an exponent above
    971 is an overflow ([pack]).  The theorems show that [of_int] agrees
    with this description. *)

(** Where the dropped low [s] bits of [n] lie relative to one half. *)
Definition low_loc (n s : Z) : location :=
  let lo := (n mod 2 ^ s)%Z in
  if (lo =? 0)%Z then loc_Exact else loc_Inexact (lo ?= 2 ^ (s - 1))%Z.

Definition int_mantissa (n : Z) : Z :=
  let d := Zdigits2 n in
  if (d <=? 53)%Z then (n * 2 ^ (53 - d))%Z else (n / 2 ^ (d - 53))%Z.

Definition int_loc (n : Z) : location :=
  let d := Zdigits2 n in
  if (d <=? 53)%Z then loc_Exact else low_loc n (d - 53).

Definition int_exponent (n : Z) : Z := (Zdigits2 n - 53)%Z.

Definition final_pair (m : Z) (l : location) (e : Z) : Z * Z :=
  let m2 := round_nearest_even m l in
  if (m2 <? 2 ^ 53)%Z then (m2, e) else (2 ^ 52, e + 1)%Z.

Definition pack (m e : Z) : t :=
  if (e <=? 971)%Z then S754_finite false (Z.to_pos m) e
  else S754_infinity false.

Definition finish (m : Z) (l : location) (e : Z) : t :=
  let m2 := round_nearest_even m l in
  if (m2 <? 2 ^ 53)%Z then pack m2 e else pack (2 ^ 52) (e + 1).

(** Mantissa and exponent of [float(n)], [n > 0]. *)
Definition int_pair (n : Z) : Z * Z :=
  final_pair (int_mantissa n) (int_loc n) (int_exponent n).

(** A 53-digit mantissa. *)
Definition normal (m : Z) : Prop := (2 ^ 52 <= m < 2 ^ 53)%Z.

(** The order of positive floats on (mantissa, exponent) pairs. *)
Definition lex_le (a b : Z * Z) : Prop :=
  (snd a < snd b \/ (snd a = snd b /\ fst a <= fst b))%Z.

End PyFloat.

(* ------------------------------------------------------------------ *)
(** ** Dictionaries

    A [dict] keeps its keys in insertion order; assigning to a key that is
    present replaces the value in place. *)

Module Dict.

Section WithKey.
Context {K V : Type}.
Variable eqb : K -> K -> bool.

Definition t : Type := list (K * V).

Fixpoint get (d : t) (k : K) : option V :=
  match d with
  | [] => None
  | (k', v) :: r => if eqb k k' then Some v else get r k
  end.

Fixpoint set (d : t) (k : K) (v : V) : t :=
  match d with
  | [] => [(k, v)]
  | (k', v') :: r => if eqb k k' then (k', v) :: r else (k', v') :: set r k v
  end.

Definition keys (d : t) : list K := map fst d.

End WithKey.

End Dict.

(* ------------------------------------------------------------------ *)
(** ** [sorted]

    [sorted(xs)] for a comparison [lt] that may raise.  The comparisons of
    an insertion sort are made; on a list of two or more elements every
    element takes part in at least one of them, and two elements that end
    up next to each other are compared with each other, as in any sort by
    comparisons. *)

Module Sorting.

Section WithLt.
Context {A : Type}.
Variable lt : A -> A -> result bool.

Fixpoint insert (x : A) (l : list A) : result (list A) :=
  match l with
  | [] => Ok [x]
  | y :: r =>
      b <- lt x y ;;
      if b then Ok (x :: y :: r)
      else r' <- insert x r ;; Ok (y :: r')
  end.

Fixpoint sorted (l : list A) : result (list A) :=
  match l with
  | [] => Ok []
  | x :: r => s <- sorted r ;; insert x s
  end.

End WithLt.

(** [a < b] on file names: [None < 'x'] and ['x' < None] are a
    [TypeError]. *)
Definition name_lt (a b : option string) : result bool :=
  match a, b with
  | Some x, Some y => Ok (x <? y)%string
  | _, _ => Raise TypeError
  end.

(** [(k1, v1) < (k2, v2)] on dictionary items whose values have no
    ordering: the keys decide, and equal keys would compare the values,
    a [TypeError]. *)
Definition item_lt {V : Type} (a b : option string * V) : result bool :=
  match fst a, fst b with
  | Some x, Some y =>
      if String.eqb x y then Raise TypeError else Ok (x <? y)%string
  | None, None => Raise TypeError
  | _, _ => Raise TypeError
  end.

End Sorting.

(* ------------------------------------------------------------------ *)
(** ** [class FileDiffLine] *)

Definition opt_eqb {A : Type} (eqb : A -> A -> bool) (a b : option A) : bool :=
  match a, b with
  | None, None => true
  | Some x, Some y => eqb x y
  | _, _ => false
  end.

Module FileDiffLine.

Record t : Type := make {
  filename : option string;
  left_line_num : option Z;
  right_line_num : option Z;
  line_contents : string
}.

(** [__eq__]: the four attributes, compared in turn. *)
Definition eq (self other : t) : bool :=
  opt_eqb String.eqb (filename self) (filename other)
  && opt_eqb Z.eqb (left_line_num self) (left_line_num other)
  && opt_eqb Z.eqb (right_line_num self) (right_line_num other)
  && String.eqb (line_contents self) (line_contents other).

(** [l1 != l2]: Python 3 derives it from [__eq__]. *)
Definition ne (self other : t) : bool := negb (eq self other).

End FileDiffLine.

(* ------------------------------------------------------------------ *)
(** ** [class FileDiff] *)

Module FileDiff.

Record t : Type := make {
  lines : list FileDiffLine.t;
  filename : option string
}.

(** [re.match(r'^@@ -([0-9]+),[0-9]+ \+([0-9]+),[0-9]+ @@', line)]: the
    two captured groups, converted with [int].  Each [[0-9]+] is followed
    by a character that is not a digit, so the greedy match is the only
    one. *)
Definition expect (p s : string) : option string :=
  if Str.startswith s p then Some (Str.drop (String.length p) s) else None.

Definition number (s : string) : option (Z * string) :=
  match Str.span_digits s with
  | (EmptyString, _) => None
  | (d, rest) => Some (Str.int_of_digits d, rest)
  end.

Definition position_match (line : string) : option (Z * Z) :=
  match expect "@@ -" line with
  | None => None
  | Some s1 =>
  match number s1 with
  | None => None
  | Some (g1, s2) =>
  match expect "," s2 with
  | None => None
  | Some s3 =>
  match number s3 with
  | None => None
  | Some (_, s4) =>
  match expect " +" s4 with
  | None => None
  | Some s5 =>
  match number s5 with
  | None => None
  | Some (g2, s6) =>
  match expect "," s6 with
  | None => None
  | Some s7 =>
  match number s7 with
  | None => None
  | Some (_, s8) =>
  match expect " @@" s8 with
  | None => None
  | Some _ => Some (g1, g2)
  end end end end end end end end end.

(** The locals of [__init__] while it runs.  [counters] is [None] as long
    as [parsing_contents] is [False]; from the first hunk header on it
    holds [left_line_num] and [right_line_num] (which are unbound before
    that). *)
Record state : Type := mk_state {
  st_lines : list FileDiffLine.t;
  st_filename : option string;
  counters : option (Z * Z)
}.

Definition parsing_contents (st : state) : bool :=
  match counters st with Some _ => true | None => false end.

Definition init_state : state := mk_state [] None None.

Definition append (st : state) (l r : option Z) (text : string)
           (counters' : Z * Z) : state :=
  mk_state (st_lines st ++ [FileDiffLine.make (st_filename st) l r text])
           (st_filename st) (Some counters').

(** The fall-through part of the loop body, from the hunk header test
    on. *)
Definition step_body (st : state) (line : string) : result state :=
  match position_match line with
  | Some (l, r) => Ok (mk_state (st_lines st) (st_filename st) (Some (l, r)))
  | None =>
      match counters st with
      | None => Ok st
      | Some (l, r) =>
          let text := Str.rstrip (Str.drop 1 line) in
          if Str.startswith line " " then
            Ok (append st (Some l) (Some r) text (l + 1, r + 1)%Z)
          else if Str.startswith line "-" then
            Ok (append st (Some l) None text (l + 1, r)%Z)
          else if Str.startswith line "+" then
            Ok (append st None (Some r) text (l, r + 1)%Z)
          else Raise (AssertionError ("unrecognized line: " ++ line))
      end
  end.

(** One turn of [for line in lines]. *)
Definition step (st : state) (line : string) : result state :=
  if Str.startswith line "diff" then
    _ <- assert (negb (parsing_contents st)) "" ;; Ok st
  else if Str.startswith line "index" then
    _ <- assert (negb (parsing_contents st)) "" ;; Ok st
  else if (Str.startswith line "--- a/" || Str.startswith line "+++ b/")
          && negb (parsing_contents st) then
    match st_filename st with
    | Some f =>
        _ <- assert (String.eqb f (Str.drop 6 line)) "" ;; Ok st
    | None =>
        Ok (mk_state (st_lines st) (Some (Str.drop 6 line)) (counters st))
    end
  else step_body st line.

Fixpoint run (st : state) (ls : list string) : result state :=
  match ls with
  | [] => Ok st
  | line :: rest => st' <- step st line ;; run st' rest
  end.

(** [FileDiff(lines)] *)
Definition init (ls : list string) : result t :=
  st <- run init_state ls ;;
  Ok (make (st_lines st) (st_filename st)).

(** [get_line(left_num, right_num)] *)
Fixpoint find_line (ls : list FileDiffLine.t) (left_num right_num : option Z)
  : option FileDiffLine.t :=
  match ls with
  | [] => None
  | l :: rest =>
      if opt_eqb Z.eqb (FileDiffLine.left_line_num l) left_num
         && opt_eqb Z.eqb (FileDiffLine.right_line_num l) right_num
      then Some l
      else find_line rest left_num right_num
  end.

Definition get_line (self : t) (left_num right_num : option Z)
  : result FileDiffLine.t :=
  match find_line (lines self) left_num right_num with
  | Some l => Ok l
  | None => Raise (KeyError (KPair left_num right_num))
  end.

End FileDiff.

(* ------------------------------------------------------------------ *)
(** ** Output streams

    What is written to a stream, one constructor per write (or pair of
    writes) of the script; the formatting of the text (margins, colours) is
    left out, the arguments are kept. *)

Inductive event : Type :=
| WriteHeader (hash : string) (author date : option string) (message : string)
| WriteBlankDiff                       (* '(diff is blank; may be a binary file)' *)
| WriteLine (label : option string) (l : FileDiffLine.t)
| WriteNewline                         (* the line after each file *)
| WriteBlame (commit_hash : string) (filename : option string)   (* '... blame' *)
| WriteShow (commit_hash : string)                               (* '... show' *)
| WritePrompt (n_matches : nat)
| WriteSeparator.                      (* three rows of '=' *)

Definition is_some {A : Type} (a : option A) : bool :=
  match a with Some _ => true | None => false end.

Definition is_empty (s : string) : bool :=
  match s with EmptyString => true | _ => false end.

Definition is_empty_list {A : Type} (l : list A) : bool :=
  match l with [] => true | _ => false end.

(** Keys of the highlight dictionaries. *)
Definition pos_key : Type := option Z * option Z.
Definition match_key : Type := option string * option Z * option Z.

Definition pos_eqb (a b : pos_key) : bool :=
  opt_eqb Z.eqb (fst a) (fst b) && opt_eqb Z.eqb (snd a) (snd b).

Definition match_eqb (a b : match_key) : bool :=
  opt_eqb String.eqb (fst (fst a)) (fst (fst b))
  && opt_eqb Z.eqb (snd (fst a)) (snd (fst b))
  && opt_eqb Z.eqb (snd a) (snd b).

Module FileDiffPrint.

(** [(a is not None) and (b is not None) and abs(a - b) < ctx] *)
Definition near (ctx : Z) (a b : option Z) : bool :=
  match a, b with
  | Some x, Some y => (Z.abs (x - y) <? ctx)%Z
  | _, _ => false
  end.

(** The loop over [highlight_lines.items()] that sets [should_show_line]. *)
Definition should_show_line (ctx : option Z)
           (highlight_lines : @Dict.t pos_key string)
           (l : FileDiffLine.t) : bool :=
  match ctx with
  | Some n =>
      fold_left
        (fun shown (entry : pos_key * string) =>
           let '((left_num, right_num), _) := entry in
           let shown1 :=
             if near n (FileDiffLine.left_line_num l) left_num
             then true else shown in
           if near n (FileDiffLine.right_line_num l) right_num
           then true else shown1)
        highlight_lines false
  | None => true
  end.

(** [get_margin_data] formats one of the two numbers with [%5d]; it
    raises [TypeError] on a line that has neither. *)
Definition margin_ok (l : FileDiffLine.t) : bool :=
  is_some (FileDiffLine.left_line_num l)
  || is_some (FileDiffLine.right_line_num l).

(** [highlight_lines.get((l.left_line_num, l.right_line_num))], used as a
    label when it is a non-empty string. *)
Definition label_of (highlight_lines : @Dict.t pos_key string)
           (l : FileDiffLine.t) : option string :=
  match Dict.get pos_eqb highlight_lines
          (FileDiffLine.left_line_num l, FileDiffLine.right_line_num l) with
  | Some s => if is_empty s then None else Some s
  | None => None
  end.

(** [FileDiff.print_stream] *)
Definition print_stream (self : FileDiff.t)
           (highlight_lines : @Dict.t pos_key string)
           (context_around_highlights : option Z) : result (list event) :=
  match FileDiff.lines self with
  | [] => Ok [WriteBlankDiff]
  | ls =>
      if forallb margin_ok ls then
        Ok (flat_map
              (fun l =>
                 if should_show_line context_around_highlights
                      highlight_lines l
                 then [WriteLine (label_of highlight_lines l) l]
                 else [])
              ls)
      else Raise TypeError
  end.

End FileDiffPrint.

(* ------------------------------------------------------------------ *)
(** ** [class Commit] *)

Module Commit.

Record t : Type := make {
  hash : string;
  author : option string;
  date : option string;
  file_diffs : @Dict.t (option string) FileDiff.t;
  commit_message : string
}.

(** The locals of [__init__] while it reads the output of [git show]. *)
Record state : Type := mk_state {
  st_author : option string;
  st_date : option string;
  st_message : list string;
  file_diff_contents : list (list string)
}.

Definition newline : string := String (ascii_of_nat 10) EmptyString.

(** [file_diff_contents[-1].append(line)] *)
Fixpoint append_last (cs : list (list string)) (line : string)
  : list (list string) :=
  match cs with
  | [] => []
  | [c] => [c ++ [line]]
  | c :: r => c :: append_last r line
  end.

(** One turn of the loop over the lines of [git show]. *)
Definition step (h : string) (st : state) (line : string) : result state :=
  if is_empty line then Ok st
  else if Str.startswith line "commit" then
    _ <- assert (String.eqb h (Str.drop 7 line)) "" ;; Ok st
  else if Str.startswith line "Author:" then
    Ok (mk_state (Some (Str.strip (Str.drop 7 line))) (st_date st)
                 (st_message st) (file_diff_contents st))
  else if Str.startswith line "Date:" then
    Ok (mk_state (st_author st) (Some (Str.strip (Str.drop 5 line)))
                 (st_message st) (file_diff_contents st))
  else
    let cs := if Str.startswith line "diff"
              then file_diff_contents st ++ [[]]
              else file_diff_contents st in
    match cs with
    | [] =>
        _ <- assert (4 <=? String.length line)%nat "bad message line" ;;
        Ok (mk_state (st_author st) (st_date st)
                     (st_message st ++ [Str.drop 4 line]) cs)
    | _ =>
        Ok (mk_state (st_author st) (st_date st) (st_message st)
                     (append_last cs line))
    end.

Fixpoint run (h : string) (st : state) (ls : list string) : result state :=
  match ls with
  | [] => Ok st
  | line :: rest => st' <- step h st line ;; run h st' rest
  end.

(** [for this_diff_contents in file_diff_contents: d = FileDiff(...);
    self.file_diffs[d.filename] = d] *)
Fixpoint collect (cs : list (list string))
         (acc : @Dict.t (option string) FileDiff.t)
  : result (@Dict.t (option string) FileDiff.t) :=
  match cs with
  | [] => Ok acc
  | c :: r =>
      d <- FileDiff.init c ;;
      collect r (Dict.set (opt_eqb String.eqb) acc (FileDiff.filename d) d)
  end.

(** [Commit(h)], given the resolved hash and the lines that [git show]
    prints for it. *)
Definition init (h : string) (show_lines : list string) : result t :=
  st <- run h (mk_state None None [] []) show_lines ;;
  ds <- collect (file_diff_contents st) [] ;;
  Ok (make h (st_author st) (st_date st) ds
           (String.concat newline (st_message st))).

(** The highlights of one file: the entries of [highlight_lines] whose
    file name is [d.filename], keyed by the two line numbers. *)
Definition this_file_highlight_lines (d : FileDiff.t)
           (highlight_lines : @Dict.t match_key string)
  : @Dict.t pos_key string :=
  fold_left
    (fun this (entry : match_key * string) =>
       let '((filename, left_num, right_num), highlight_char) := entry in
       if opt_eqb String.eqb filename (FileDiff.filename d)
       then Dict.set pos_eqb this (left_num, right_num) highlight_char
       else this)
    highlight_lines [].

(** The body of the loop over the sorted file diffs. *)
Definition print_file (d : FileDiff.t)
           (highlight_lines : @Dict.t match_key string)
           (context_around_highlights : option Z) : result (list event) :=
  let this := this_file_highlight_lines d highlight_lines in
  if is_some context_around_highlights && is_empty_list this then Ok []
  else
    evs <- FileDiffPrint.print_stream d this context_around_highlights ;;
    Ok (evs ++ [WriteNewline]).

Fixpoint print_files (items : list (option string * FileDiff.t))
         (highlight_lines : @Dict.t match_key string)
         (context_around_highlights : option Z) : result (list event) :=
  match items with
  | [] => Ok []
  | (_, d) :: rest =>
      evs <- print_file d highlight_lines context_around_highlights ;;
      more <- print_files rest highlight_lines context_around_highlights ;;
      Ok (evs ++ more)
  end.

(** [Commit.print_stream] *)
Definition print_stream (self : t)
           (highlight_lines : @Dict.t match_key string)
           (context_around_highlights : option Z) : result (list event) :=
  items <- Sorting.sorted Sorting.item_lt (file_diffs self) ;;
  evs <- print_files items highlight_lines context_around_highlights ;;
  Ok (WriteHeader (hash self) (author self) (date self) (commit_message self)
      :: evs).

(** [__eq__] *)
Definition eq (self other : t) : bool := String.eqb (hash self) (hash other).

End Commit.

(* ------------------------------------------------------------------ *)
(** ** [class LineBlame] and [class FileBlame] *)

Module LineBlame.

Record t : Type := make {
  filename : string;
  orig_line_number : Z;
  current_line_number : Z;
  commit_hash : string;
  line_contents : string
}.

End LineBlame.

Module FileBlame.

Record t : Type := make {
  commit_hash : option string;
  filename : string;
  lines : list LineBlame.t
}.

(** [for line in self.lines: if line.<field> == line_num: return line] *)
Fixpoint first_with (field : LineBlame.t -> Z) (ls : list LineBlame.t)
         (line_num : Z) : option LineBlame.t :=
  match ls with
  | [] => None
  | line :: rest =>
      if Z.eqb (field line) line_num then Some line
      else first_with field rest line_num
  end.

Definition get_line_orig (self : t) (line_num : Z) : result LineBlame.t :=
  match first_with LineBlame.orig_line_number (lines self) line_num with
  | Some line => Ok line
  | None => Raise (KeyError (KInt line_num))
  end.

Definition get_line_current (self : t) (line_num : Z) : result LineBlame.t :=
  match first_with LineBlame.current_line_number (lines self) line_num with
  | Some line => Ok line
  | None => Raise (KeyError (KInt line_num))
  end.

End FileBlame.

(* ------------------------------------------------------------------ *)
(** ** Matching functions *)

(** The [params] dictionary of [lines_match]: option name to float. *)
Definition match_params : Type := @Dict.t string PyFloat.t.

(** [params.get('min_prefix_length', 0.8)] *)
Definition min_prefix_length (params : match_params) : PyFloat.t :=
  match Dict.get String.eqb params "min_prefix_length" with
  | Some p => p
  | None => PyFloat.lit_0_8
  end.

(** [float(len(prefix)) / len(s) > p] *)
Definition ratio_exceeds (prefix_len len : nat) (p : PyFloat.t) : result bool :=
  q <- PyFloat.div (PyFloat.of_int (Z.of_nat prefix_len))
                   (PyFloat.of_int (Z.of_nat len)) ;;
  Ok (PyFloat.gt q p).

Definition lines_match (l1 l2 : FileDiffLine.t) (params : match_params)
  : result bool :=
  let l1_strip := Str.strip (FileDiffLine.line_contents l1) in
  let l2_strip := Str.strip (FileDiffLine.line_contents l2) in
  if is_empty l1_strip && is_empty l2_strip then Ok true
  else if is_empty l1_strip || is_empty l2_strip then Ok false
  else
    prefix <- OsPath.commonprefix l1_strip l2_strip ;;
    r1 <- ratio_exceeds (String.length prefix) (String.length l1_strip)
                        (min_prefix_length params) ;;
    if r1 then Ok true
    else
      r2 <- ratio_exceeds (String.length prefix) (String.length l2_strip)
                          (min_prefix_length params) ;;
      if r2 then Ok true else Ok false.

(* ------------------------------------------------------------------ *)
(** ** Name resolution

    A name that is not local to a function is looked up among the globals
    of the module and then among the builtins of Python 3, the interpreter
    the script names on its first line. *)

Module Names.

Definition module_globals : list string :=
  [ "__name__"; "__doc__"; "__file__"; "__builtins__";
    "argparse"; "os"; "re"; "readline"; "subprocess"; "sys";
    "terminal_code_for_name"; "terminal_escape"; "complete_filenames";
    "Commit"; "FileDiffLine"; "FileDiff"; "LineBlame"; "FileBlame";
    "lines_match"; "iterative_blame_interactive";
    "parser"; "args"; "base_dir"; "current_dir"; "extra_dirs";
    "target_filename"; "target_file_position" ].

(** The functions, types and constants of the [builtins] module, and the
    exception classes the script names. *)
Definition builtins : list string :=
  [ "abs"; "aiter"; "all"; "anext"; "any"; "ascii"; "bin"; "bool";
    "breakpoint"; "bytearray"; "bytes"; "callable"; "chr"; "classmethod";
    "compile"; "complex"; "delattr"; "dict"; "dir"; "divmod"; "enumerate";
    "eval"; "exec"; "filter"; "float"; "format"; "frozenset"; "getattr";
    "globals"; "hasattr"; "hash"; "help"; "hex"; "id"; "input"; "int";
    "isinstance"; "issubclass"; "iter"; "len"; "list"; "locals"; "map";
    "max"; "memoryview"; "min"; "next"; "object"; "oct"; "open"; "ord";
    "pow"; "print"; "property"; "range"; "repr"; "reversed"; "round";
    "set"; "setattr"; "slice"; "sorted"; "staticmethod"; "str"; "sum";
    "super"; "tuple"; "type"; "vars"; "zip"; "__import__";
    "True"; "False"; "None"; "Ellipsis"; "NotImplemented"; "__debug__";
    "IndexError"; "KeyError"; "ValueError"; "AssertionError" ].

Definition bound (name : string) : bool :=
  existsb (String.eqb name) module_globals
  || existsb (String.eqb name) builtins.

(** Evaluating a global name. *)
Definition lookup (name : string) : result unit :=
  if bound name then Ok tt else Raise (NameError name).

End Names.

(* ------------------------------------------------------------------ *)
(** ** Interactive interface *)

(** The console: what is still to be read from standard input, one string
    per call of [input()], and what has been written to standard output. *)
Record console : Type := mk_console {
  stdin : list string;
  stdout : list event
}.

(** Computations that read and write the console and may raise. *)
Definition io (A : Type) : Type := console -> result A * console.

Definition ret {A : Type} (a : A) : io A := fun con => (Ok a, con).

Definition io_bind {A B : Type} (m : io A) (k : A -> io B) : io B :=
  fun con =>
    match m con with
    | (Ok a, con') => k a con'
    | (Raise e, con') => (Raise e, con')
    end.

Notation "x <~ m ;; k" := (io_bind m (fun x => k))
  (at level 61, m at next level, right associativity).

Definition lift {A : Type} (r : result A) : io A := fun con => (r, con).

Definition write (evs : list event) : io unit :=
  fun con => (Ok tt, mk_console (stdin con) (stdout con ++ evs)).

(** Python truth of an optional integer: [None] and [0] are false. *)
Definition truthy (n : option Z) : bool :=
  match n with
  | Some z => negb (Z.eqb z 0)
  | None => false
  end.

(** [l[i]] on a list, with Python's negative indices. *)
Definition py_index {A : Type} (l : list A) (i : Z) : result A :=
  let n := Z.of_nat (List.length l) in
  let j := if (i <? 0)%Z then (i + n)%Z else i in
  if (j <? 0)%Z then Raise IndexError
  else match nth_error l (Z.to_nat j) with
       | Some a => Ok a
       | None => Raise IndexError
       end.

(** The value of [choice] when the input loop ends. *)
Inductive choice_value : Type :=
| ChoiceInt (k : Z)
| ChoiceTuple (fn : string) (line : Z).

(** How the input loop ends: with a choice, or by [return 0]. *)
Inductive loop_exit : Type :=
| Chosen (c : choice_value)
| Return (code : Z).

(** The trace cursor: the three variables the outer loop carries from one
    turn to the next. *)
Record cursor : Type := mk_cursor {
  target_filename : option string;
  target_line_num : option Z;
  commit_hash : string
}.

Section Interactive.

(** The repository, as the two queries the script makes of it:
    [FileBlame(filename, commit_hash=...)] and [Commit(h)]. *)
Variable file_blame : option string -> string -> result FileBlame.t.
Variable commit : string -> result Commit.t.

Variable match_params_ : match_params.
Variable full_diffs : bool.

(** The loop over the lines of one file diff: a matching line is
    appended to [all_matches] and labelled with its number. *)
Fixpoint scan_lines (d_filename : option string)
         (target_line : FileDiffLine.t) (ls : list FileDiffLine.t)
         (acc : list match_key * @Dict.t match_key string)
  : result (list match_key * @Dict.t match_key string) :=
  match ls with
  | [] => Ok acc
  | l :: rest =>
      m <- lines_match l target_line match_params_ ;;
      if m && FileDiffLine.ne l target_line
         && is_some (FileDiffLine.left_line_num l)
      then
        let match_ := (d_filename, FileDiffLine.left_line_num l,
                       FileDiffLine.right_line_num l) in
        let all_matches := fst acc ++ [match_] in
        scan_lines d_filename target_line rest
          (all_matches,
           Dict.set match_eqb (snd acc) match_
             (Str.of_nat (List.length all_matches)))
      else scan_lines d_filename target_line rest acc
  end.

(** The loop over the sorted file diffs. *)
Fixpoint scan_files (target_line : FileDiffLine.t)
         (items : list (option string * FileDiff.t))
         (acc : list match_key * @Dict.t match_key string)
  : result (list match_key * @Dict.t match_key string) :=
  match items with
  | [] => Ok acc
  | (_, d) :: rest =>
      acc' <- scan_lines (FileDiff.filename d) target_line
                (FileDiff.lines d) acc ;;
      scan_files target_line rest acc'
  end.

(** [for _, d in sorted(c.file_diffs.items()): for l in d.lines: ...] *)
Definition scan_commit (c : Commit.t) (target_line : FileDiffLine.t)
           (acc : list match_key * @Dict.t match_key string)
  : result (list match_key * @Dict.t match_key string) :=
  items <- Sorting.sorted Sorting.item_lt (Commit.file_diffs c) ;;
  scan_files target_line items acc.

(** [all_matches] and [highlight_lines] for a target line: the part of
    the loop body between [Commit(...)] and the first [print_stream]. *)
Definition find_matches (c : Commit.t) (target_filename_ : option string)
           (line_target_filename : string) (orig_line_number : Z)
  : result (list match_key * @Dict.t match_key string) :=
  match Dict.get (opt_eqb String.eqb) (Commit.file_diffs c)
          target_filename_ with
  | None => Raise (KeyError (KName target_filename_))
  | Some d =>
      target_line <- FileDiff.get_line d None (Some orig_line_number) ;;
      scan_commit c target_line
        ([], [((Some line_target_filename, None, Some orig_line_number),
               "target")])
  end.

(** [None if (full_diffs or not highlight_lines) else 10] *)
Definition context_around_highlights
           (highlight_lines : @Dict.t match_key string) : option Z :=
  if full_diffs || is_empty_list highlight_lines then None else Some 10%Z.

(** The loop [while choice is None], one turn per string read. *)
Fixpoint choose (c : Commit.t) (highlight_lines : @Dict.t match_key string)
         (n_matches : nat) (inputs : list string) (out : list event)
  : result loop_exit * console :=
  let out := out ++ [WritePrompt n_matches] in
  match inputs with
  | [] => (Raise EOFError, mk_console [] out)
  | choice :: rest =>
      if Str.isdigit choice then
        match Str.int choice with
        | Raise e => (Raise e, mk_console rest out)
        | Ok k =>
            if (k <? 1)%Z || (Z.of_nat n_matches <? k)%Z
            then choose c highlight_lines n_matches rest out
            else (Ok (Chosen (ChoiceInt k)), mk_console rest out)
        end
      else if String.eqb choice "q" then
        (Ok (Return 0), mk_console rest out)
      else if String.eqb choice "f" then
        match Commit.print_stream c highlight_lines None with
        | Raise e => (Raise e, mk_console rest out)
        | Ok evs => choose c highlight_lines n_matches rest (out ++ evs)
        end
      else if Str.contains ":" choice then
        match Str.split ":" choice with
        | [fn; line] =>
            match Str.int line with
            | Ok n => (Ok (Chosen (ChoiceTuple fn n)), mk_console rest out)
            | Raise _ => choose c highlight_lines n_matches rest out
            end
        | _ => choose c highlight_lines n_matches rest out
        end
      else choose c highlight_lines n_matches rest out
  end.

(** The statements after the input loop: the new file and line, by the
    type of [choice]. *)
Definition select (all_matches : list match_key) (choice : choice_value)
  : result (option string * option Z) :=
  match choice with
  | ChoiceTuple fn line =>          (* [isinstance(choice, tuple)] *)
      Ok (Some fn, Some line)
  | ChoiceInt k =>                  (* [isinstance(choice, (int, long))] *)
      _ <- Names.lookup "isinstance" ;;
      _ <- Names.lookup "int" ;;
      _ <- Names.lookup "long" ;;
      m1 <- py_index all_matches (k - 1) ;;
      m2 <- py_index all_matches (k - 1) ;;
      Ok (fst (fst m1), snd (fst m2))
  end.

(** One turn of [while True]: the exit code when the function returns,
    else the cursor of the next turn. *)
Definition turn (cur : cursor) : io (Z + cursor) :=
  _ <~ write [WriteBlame (commit_hash cur) (target_filename cur)] ;;
  b <~ lift (file_blame (target_filename cur) (commit_hash cur)) ;;
  blame_target_line <~
    (if truthy (target_line_num cur) then
       match target_line_num cur with
       | Some n =>
           l <~ lift (FileBlame.get_line_current b n) ;; ret (Some l)
       | None => ret None
       end
     else ret None) ;;
  let target_filename_ :=
    match blame_target_line with
    | Some l => Some (LineBlame.filename l)
    | None => target_filename cur
    end in
  let target_commit_hash :=
    match blame_target_line with
    | Some l => LineBlame.commit_hash l
    | None => commit_hash cur
    end in
  let target_commit_hash :=
    if Str.startswith target_commit_hash "^"
    then Str.drop 1 target_commit_hash else target_commit_hash in
  _ <~ write [WriteShow target_commit_hash] ;;
  c <~ lift (commit target_commit_hash) ;;
  found <~
    lift (match blame_target_line with
          | Some l =>
              find_matches c target_filename_ (LineBlame.filename l)
                (LineBlame.orig_line_number l)
          | None => Ok ([], [])
          end) ;;
  let '(all_matches, highlight_lines) := found in
  evs <~ lift (Commit.print_stream c highlight_lines
                 (context_around_highlights highlight_lines)) ;;
  _ <~ write evs ;;
  _ <~ lift (Sorting.sorted Sorting.name_lt
               (Dict.keys (Commit.file_diffs c))) ;;
  ex <~ (fun con =>
           choose c highlight_lines (List.length all_matches)
                  (stdin con) (stdout con)) ;;
  match ex with
  | Return code => ret (inl code)
  | Chosen choice =>
      sel <~ lift (select all_matches choice) ;;
      _ <~ write [WriteSeparator] ;;
      ret (inr (mk_cursor (fst sel) (snd sel) (Commit.hash c ++ "^")))
  end.

(** [iterative_blame_interactive]: the loop [while True].  Every turn
    reads from standard input before it goes on, so [fuel] beyond the
    number of strings to read is never used up; [None] is a run cut short
    by [fuel]. *)
Fixpoint iterative_blame_interactive (fuel : nat) (cur : cursor)
         (con : console) : option (result Z * console) :=
  match fuel with
  | O => None
  | S fuel' =>
      match turn cur con with
      | (Raise e, con') => Some (Raise e, con')
      | (Ok (inl code), con') => Some (Ok code, con')
      | (Ok (inr cur'), con') => iterative_blame_interactive fuel' cur' con'
      end
  end.

End Interactive.

(* ------------------------------------------------------------------ *)
(** ** The specification's vocabulary

    Definitions that follow the words of the specification rather than
    the script; the theorems relate them to the definitions above. *)

Module Spec.

(** The longest common prefix of two texts. *)
Fixpoint longest_common_prefix (a b : string) : string :=
  match a, b with
  | String c a', String d b' =>
      if Ascii.eqb c d then String c (longest_common_prefix a' b')
      else EmptyString
  | _, _ => EmptyString
  end.

(** "[n] divided by [m] exceeds [p]", the division and the comparison
    being those of binary64. *)
Definition exceeds (n m : nat) (p : PyFloat.t) : bool :=
  SFltb p (SFdiv prec emax (PyFloat.of_int (Z.of_nat n))
                           (PyFloat.of_int (Z.of_nat m))).

(** The similarity test, read as a predicate on two lines. *)
Definition similar (params : match_params) (l1 l2 : FileDiffLine.t) : bool :=
  match lines_match l1 l2 params with
  | Ok b => b
  | Raise _ => false
  end.

(** A line of the change-set is a candidate for [reference] when it is
    similar to it, not equal to it, and has a pre-image line number. *)
Definition is_candidate (params : match_params) (reference l : FileDiffLine.t)
  : bool :=
  similar params l reference
  && negb (FileDiffLine.eq l reference)
  && is_some (FileDiffLine.left_line_num l).

(** How a candidate is recorded: file, pre-image and post-image number. *)
Definition position (d : FileDiff.t) (l : FileDiffLine.t) : match_key :=
  (FileDiff.filename d, FileDiffLine.left_line_num l,
   FileDiffLine.right_line_num l).

(** The candidates of a change-set whose files are listed in [items]:
    file after file, in diff order within each file. *)
Definition candidates (params : match_params) (reference : FileDiffLine.t)
           (items : list (option string * FileDiff.t)) : list match_key :=
  flat_map
    (fun item : option string * FileDiff.t =>
       map (position (snd item))
           (filter (is_candidate params reference)
                   (FileDiff.lines (snd item))))
    items.

(** Numbering the matches [ms] with [n + 1], [n + 2], ... in the
    highlight dictionary. *)
Fixpoint number_from (n : nat) (ms : list match_key)
         (hl : @Dict.t match_key string) : @Dict.t match_key string :=
  match ms with
  | [] => hl
  | m :: rest =>
      number_from (S n) rest (Dict.set match_eqb hl m (Str.of_nat (S n)))
  end.

(** The order of dictionary items by file name. *)
Definition name_before {V : Type} (a b : option string * V) : Prop :=
  match fst a, fst b with
  | Some x, Some y => (x <? y)%string = true
  | _, _ => False
  end.

(** The pre-image numbers of the lines that have one, and likewise the
    post-image numbers. *)
Definition lefts (ls : list FileDiffLine.t) : list Z :=
  flat_map (fun l => match FileDiffLine.left_line_num l with
                     | Some n => [n] | None => [] end) ls.

Definition rights (ls : list FileDiffLine.t) : list Z :=
  flat_map (fun l => match FileDiffLine.right_line_num l with
                     | Some n => [n] | None => [] end) ls.

(** [start, start + 1, ..., start + len - 1] *)
Fixpoint zseq (start : Z) (len : nat) : list Z :=
  match len with
  | O => []
  | S len' => start :: zseq (start + 1) len'
  end.

(** A body line of a hunk: it begins with a space, a minus or a plus. *)
Definition is_body_line (line : string) : bool :=
  Str.startswith line " " || Str.startswith line "-"
  || Str.startswith line "+".

(** Two line numbers are farther apart than [ctx]; a number that is
    absent is far from everything. *)
Definition far (ctx : Z) (a b : option Z) : Prop :=
  match a, b with
  | Some x, Some y => (ctx < Z.abs (x - y))%Z
  | _, _ => True
  end.

(** A line is far from a highlighted position in both numberings. *)
Definition far_from (ctx : Z) (l : FileDiffLine.t) (h : match_key) : Prop :=
  far ctx (FileDiffLine.left_line_num l) (snd (fst h))
  /\ far ctx (FileDiffLine.right_line_num l) (snd h).

(** The highlighted positions that lie in the file of [d]. *)
Definition highlights_of (d : FileDiff.t)
           (highlight_lines : @Dict.t match_key string) : list match_key :=
  filter (fun h : match_key =>
            opt_eqb String.eqb (fst (fst h)) (FileDiff.filename d))
         (Dict.keys highlight_lines).

(** A console computation that, when it returns, has read at least [k]
    strings from standard input. *)
Definition consumes {A : Type} (k : nat) (m : io A) : Prop :=
  forall con a con',
    m con = (Ok a, con') ->
    (List.length (stdin con') + k <= List.length (stdin con))%nat.

End Spec.

(* ------------------------------------------------------------------ *)
(** ** More [str] methods and [os.path.join] *)

Module Text.

(** [s.find(c)] for a one-character [c]: the index of its first
    occurrence, or [-1]. *)
Fixpoint find_from (c : ascii) (s : string) (i : Z) : Z :=
  match s with
  | EmptyString => (-1)%Z
  | String d r => if Ascii.eqb c d then i else find_from c r (i + 1)%Z
  end.

Definition find (c : ascii) (s : string) : Z := find_from c s 0.

Fixpoint take (n : nat) (s : string) : string :=
  match n, s with
  | O, _ => EmptyString
  | S _, EmptyString => EmptyString
  | S n', String c r => String c (take n' r)
  end.

(** [s[:k]]: a negative [k] counts from the end. *)
Definition slice_to (s : string) (k : Z) : string :=
  let n := Z.of_nat (String.length s) in
  let k' := if (k <? 0)%Z then Z.max 0 (k + n) else k in
  take (Z.to_nat k') s.

(** [s[k:]]: a negative [k] counts from the end. *)
Definition slice_from (s : string) (k : Z) : string :=
  let n := Z.of_nat (String.length s) in
  let k' := if (k <? 0)%Z then Z.max 0 (k + n) else k in
  Str.drop (Z.to_nat k') s.

(** [s.split()]: the fields between runs of white space, none empty. *)
Fixpoint split_ws (s : string) : list string :=
  match s with
  | EmptyString => []
  | String c r =>
      if Str.isspace c then split_ws r
      else
        match r with
        | EmptyString => [String c EmptyString]
        | String d _ =>
            if Str.isspace d then String c EmptyString :: split_ws r
            else match split_ws r with
                 | [] => [String c EmptyString]
                 | f :: fs => String c f :: fs
                 end
        end
  end.

(** [s.lstrip(c)], [s.rstrip(c)] and [s.strip(c)] for a one-character
    set. *)
Fixpoint lstrip_char (c : ascii) (s : string) : string :=
  match s with
  | EmptyString => EmptyString
  | String d r => if Ascii.eqb c d then lstrip_char c r else s
  end.

Fixpoint rstrip_char (c : ascii) (s : string) : string :=
  match s with
  | EmptyString => EmptyString
  | String d r =>
      match rstrip_char c r with
      | EmptyString => if Ascii.eqb c d then EmptyString else String d EmptyString
      | r' => String d r'
      end
  end.

Definition strip_char (c : ascii) (s : string) : string :=
  rstrip_char c (lstrip_char c s).

(** [s.endswith(c)] for a one-character [c]. *)
Fixpoint endswith_char (s : string) (c : ascii) : bool :=
  match s with
  | EmptyString => false
  | String d EmptyString => Ascii.eqb c d
  | String _ r => endswith_char r c
  end.

(** One step of [posixpath.join]: a component that begins with [/]
    replaces the path; otherwise it is appended, after a [/] unless the
    path is empty or ends with one. *)
Definition join_step (path b : string) : string :=
  if Str.startswith b "/" then b
  else if is_empty path || endswith_char path "/" then (path ++ b)%string
  else (path ++ "/" ++ b)%string.

(** [os.path.join(a, *p)] *)
Definition join (a : string) (p : list string) : string :=
  fold_left join_step p a.

End Text.

(* ------------------------------------------------------------------ *)
(** ** [complete_filenames] *)

(** [matches[state]], or [None] on [IndexError]. *)
Definition complete_filenames (text : string) (state : Z)
           (filenames : list string) (suffix : string) : option string :=
  let matches :=
    map (fun s => (s ++ suffix)%string)
        (filter (fun s => Str.startswith s text) filenames) in
  match py_index matches state with
  | Ok m => Some m
  | Raise _ => None
  end.

(* ------------------------------------------------------------------ *)
(** ** [FileBlame.__init__]

    The constructor, given the lines that [git blame -slfn] prints. *)

Module FileBlameInit.

(** The body of the loop: one line of output to one [LineBlame]. *)
Definition parse_line (line : string) : result LineBlame.t :=
  let close_paren := Text.find ")" line in
  match Text.split_ws (Str.strip (Text.slice_to line close_paren)) with
  | [commit_hash; filename; orig_line_number; current_line_number] =>
      orig <- Str.int orig_line_number ;;
      current <- Str.int current_line_number ;;
      Ok (LineBlame.make filename orig current commit_hash
            (Text.slice_from line (close_paren + 2)))
  | _ => Raise ValueError
  end.

Fixpoint parse_lines (ls : list string) : result (list LineBlame.t) :=
  match ls with
  | [] => Ok []
  | line :: rest =>
      l <- parse_line line ;;
      more <- parse_lines rest ;;
      Ok (l :: more)
  end.

(** [FileBlame(filename, commit_hash=commit_hash)] *)
Definition init (filename : string) (commit_hash : option string)
           (blame_lines : list string) : result FileBlame.t :=
  ls <- parse_lines blame_lines ;;
  Ok (FileBlame.make commit_hash filename ls).

End FileBlameInit.

(* ------------------------------------------------------------------ *)
(** ** Entry point

    The part of the [__main__] block that turns the working directory and
    the [target_position] argument into the file and line to trace. *)

Module Main.

(** [if ':' in args.target_position: ... else: ...] *)
Definition parse_target_position (target_position : string)
  : result (string * option Z) :=
  if Str.contains ":" target_position then
    match Str.split ":" target_position with
    | [target_filename; target_file_position] =>
        n <- Str.int target_file_position ;;
        Ok (target_filename, Some n)
    | _ => Raise ValueError
    end
  else Ok (target_position, None).

(** [current_dir[len(base_dir):].strip('/').split('/')] *)
Definition extra_dirs (base_dir current_dir : string) : list string :=
  Str.split "/"
    (Text.strip_char "/" (Str.drop (String.length base_dir) current_dir)).

(** [os.path.join] applied to the components [extra_dirs + [target_filename]]. *)
Definition join_all (parts : list string) : string :=
  match parts with
  | [] => EmptyString
  | a :: p => Text.join a p
  end.

(** The file and line handed to [iterative_blame_interactive]. *)
Definition target (base_dir current_dir target_position : string)
  : result (string * option Z) :=
  _ <- assert (Str.startswith current_dir base_dir) "" ;;
  parsed <- parse_target_position target_position ;;
  Ok (join_all (extra_dirs base_dir current_dir ++ [fst parsed]), snd parsed).

End Main.

(* ------------------------------------------------------------------ *)
(** ** Shapes of input

    Predicates on the text the script reads (what is typed at the prompt,
    the output of [git show] and of [git blame], the working directory)
    and on the state of its parsers, used to state the further
    properties. *)

(** An entry at the prompt that is none of the recognised forms. *)
Definition unrecognised (s : string) : Prop :=
  Str.isdigit s = false /\ s <> "q" /\ s <> "f" /\ Str.contains ":" s = false.

(** What [FileDiff.__init__] keeps true of its state: every line read so
    far carries the file name and has a number, and no line is read before
    the first hunk header. *)
Definition parser_invariant (st : FileDiff.state) : Prop :=
  Forall (fun l => FileDiffLine.filename l = FileDiff.st_filename st
                   /\ FileDiffPrint.margin_ok l = true)
         (FileDiff.st_lines st)
  /\ (FileDiff.counters st = None -> FileDiff.st_lines st = []).

(** The pair of numbers under which [get_line] finds a line. *)
Definition line_position (l : FileDiffLine.t) : pos_key :=
  (FileDiffLine.left_line_num l, FileDiffLine.right_line_num l).

(** The numbers of a line are not below the counters [l] and [r]. *)
Definition at_or_after (l r : Z) (x : FileDiffLine.t) : Prop :=
  (forall a, FileDiffLine.left_line_num x = Some a -> (l <= a)%Z)
  /\ (forall b, FileDiffLine.right_line_num x = Some b -> (r <= b)%Z).

(** What [Commit.__init__] keeps true of [file_diffs]: the names are
    pairwise different, every diff is stored under its own name, and its
    lines carry that name and have a number. *)
Definition well_keyed (ds : @Dict.t (option string) FileDiff.t) : Prop :=
  NoDup (Dict.keys ds)
  /\ Forall (fun kd : option string * FileDiff.t =>
               fst kd = FileDiff.filename (snd kd)
               /\ Forall (fun l => FileDiffLine.filename l = fst kd
                                   /\ FileDiffPrint.margin_ok l = true)
                         (FileDiff.lines (snd kd))) ds.

(** A message line as [git show] prints it. *)
Definition indent (m : string) : string := ("    " ++ m)%string.

(** A line of a file diff after its first: not empty, and not taken for a
    header line or for the start of the next diff. *)
Definition continuation (line : string) : bool :=
  negb (is_empty line)
  && negb (Str.startswith line "commit")
  && negb (Str.startswith line "Author:")
  && negb (Str.startswith line "Date:")
  && negb (Str.startswith line "diff").

(** The lines of one file diff in the output of [git show]: a line that
    begins with [diff], then continuation lines. *)
Definition chunk_ok (chunk : list string) : Prop :=
  match chunk with
  | [] => False
  | first :: body =>
      Str.startswith first "diff" = true
      /\ Forall (fun line => continuation line = true) body
  end.

(** A field of a line of [git blame]: not empty, no white space, no
    closing parenthesis. *)
Definition field (s : string) : Prop :=
  s <> EmptyString
  /\ Str.forallb (fun c => negb (Str.isspace c)) s = true
  /\ Str.contains ")" s = false.

(** A run of white space between two fields. *)
Definition blank (s : string) : Prop :=
  s <> EmptyString /\ Str.forallb Str.isspace s = true.

(** A record of [git blame] as [git blame -slfn] prints it, and the
    records for which the line is read back: the hash and the file name
    are fields, the numbers are not negative. *)
Definition blame_text (b : LineBlame.t) : string :=
  (LineBlame.commit_hash b ++ " " ++ LineBlame.filename b ++ " "
   ++ Str.of_nat (Z.to_nat (LineBlame.orig_line_number b)) ++ " "
   ++ Str.of_nat (Z.to_nat (LineBlame.current_line_number b)) ++ ") "
   ++ LineBlame.line_contents b)%string.

Definition blame_ok (b : LineBlame.t) : Prop :=
  field (LineBlame.commit_hash b) /\ field (LineBlame.filename b)
  /\ (0 <= LineBlame.orig_line_number b)%Z
  /\ (0 <= LineBlame.current_line_number b)%Z.

(** A directory name: not empty and without a slash. *)
Definition component (s : string) : Prop :=
  s <> EmptyString /\ Str.contains "/" s = false.

(** The working directory [dirs] below the top of the repository. *)
Definition below (base_dir : string) (dirs : list string) : string :=
  (base_dir ++ String.concat "" (map (fun d => "/" ++ d) dirs))%string.

(* ------------------------------------------------------------------ *)
(** ** A small repository

    One revision that changes one line of one file, as [git show] and
    [git blame] print it and as the constructors read it; the properties
    are instantiated on it. *)

Module Sample.

Definition diff_text : list string :=
  ["diff --git a/a.txt b/a.txt"; "index 83db48f..bf269f4 100644";
   "--- a/a.txt"; "+++ b/a.txt"; "@@ -4,2 +4,2 @@ def f():";
   " one"; "-old"; "+new"].

Definition diff_lines : list FileDiffLine.t :=
  [FileDiffLine.make (Some "a.txt") (Some 4%Z) (Some 4%Z) "one";
   FileDiffLine.make (Some "a.txt") (Some 5%Z) None "old";
   FileDiffLine.make (Some "a.txt") None (Some 5%Z) "new"].

Definition diff : FileDiff.t := FileDiff.make diff_lines (Some "a.txt").

Definition binary_text : list string :=
  ["diff --git a/x.png b/x.png"; "index 1f2e3d4..5a6b7c8 100644";
   "Binary files a/x.png and b/x.png differ"].

Definition binary_diff : FileDiff.t := FileDiff.make [] None.

Definition show_text : list string :=
  ["commit 7d3e9f"; "Author: A. Hacker <a@example.org>";
   "Date:   Mon Jan 1 00:00:00 2024 +0000"; ""; "    change one line"; ""]
  ++ diff_text.

Definition commit : Commit.t :=
  Commit.make "7d3e9f" (Some "A. Hacker <a@example.org>")
    (Some "Mon Jan 1 00:00:00 2024 +0000") [(Some "a.txt", diff)]
    "change one line".

Definition file_blame (_ : option string) (_ : string)
  : result FileBlame.t :=
  Ok (FileBlame.make (Some "HEAD") "a.txt"
        [LineBlame.make "a.txt" 5 5 "7d3e9f" "new"]).

Definition commit_of (_ : string) : result Commit.t := Ok commit.

End Sample.

(* ================================================================== *)
(** * Theorems *)

(* ------------------------------------------------------------------ *)
(** ** Text *)

Lemma ascii_eqb_refl (c : ascii) : Ascii.eqb c c = true.
Proof. apply Ascii.eqb_eq. reflexivity. Qed.

Lemma ascii_compare_refl (c : ascii) : Ascii.compare c c = Eq.
Proof. unfold Ascii.compare. apply N.compare_refl. Qed.

Lemma string_compare_refl (s : string) : String.compare s s = Eq.
Proof.
  induction s as [|c s IH]; [reflexivity|].
  cbn [String.compare]. now rewrite ascii_compare_refl.
Qed.

Lemma string_ltb_irrefl (s : string) : (s <? s)%string = false.
Proof. unfold String.ltb. now rewrite string_compare_refl. Qed.

Lemma string_ltb_asym (a b : string) :
  (a <? b)%string = true -> (b <? a)%string = false.
Proof.
  unfold String.ltb. rewrite (String.compare_antisym b a).
  destruct (String.compare a b); cbn; congruence.
Qed.

Lemma string_ltb_total (a b : string) :
  (a <? b)%string = false -> (b <? a)%string = false -> a = b.
Proof.
  unfold String.ltb. rewrite (String.compare_antisym b a).
  destruct (String.compare a b) eqn:E; cbn; try congruence.
  intros _ _. now apply String.compare_eq_iff.
Qed.

(** [longest_common_prefix] is a prefix of both texts ... *)
Lemma lcp_prefix_l (a b : string) :
  String.prefix (Spec.longest_common_prefix a b) a = true.
Proof.
  revert b. induction a as [|c a IH]; intros [|d b]; try reflexivity.
  cbn [Spec.longest_common_prefix].
  destruct (Ascii.eqb c d); [|reflexivity].
  cbn [String.prefix]. destruct (ascii_dec c c); [apply IH|congruence].
Qed.

Lemma lcp_sym (a b : string) :
  Spec.longest_common_prefix a b = Spec.longest_common_prefix b a.
Proof.
  revert b. induction a as [|c a IH]; intros [|d b]; try reflexivity.
  cbn [Spec.longest_common_prefix]. rewrite (Ascii.eqb_sym d c).
  destruct (Ascii.eqb_spec c d) as [->|]; [now rewrite IH|reflexivity].
Qed.

Lemma lcp_prefix_r (a b : string) :
  String.prefix (Spec.longest_common_prefix a b) b = true.
Proof. rewrite lcp_sym. apply lcp_prefix_l. Qed.

(** ... and every common prefix is a prefix of it. *)
Lemma lcp_longest (p a b : string) :
  String.prefix p a = true -> String.prefix p b = true ->
  String.prefix p (Spec.longest_common_prefix a b) = true.
Proof.
  revert a b. induction p as [|c p IH]; intros a b Ha Hb.
  - now destruct (Spec.longest_common_prefix a b).
  - destruct a as [|x a]; [discriminate|]. destruct b as [|y b]; [discriminate|].
    cbn [String.prefix] in Ha, Hb.
    destruct (ascii_dec c x) as [<-|]; [|discriminate].
    destruct (ascii_dec c y) as [<-|]; [|discriminate].
    cbn [Spec.longest_common_prefix]. rewrite ascii_eqb_refl.
    cbn [String.prefix]. destruct (ascii_dec c c); [|congruence].
    now apply IH.
Qed.

Lemma lcp_length_l (a b : string) :
  (String.length (Spec.longest_common_prefix a b) <= String.length a)%nat.
Proof.
  revert b. induction a as [|c a IH]; intros [|d b]; cbn; try lia.
  destruct (Ascii.eqb c d); cbn; [specialize (IH b)|]; lia.
Qed.

Lemma lcp_length_r (a b : string) :
  (String.length (Spec.longest_common_prefix a b) <= String.length b)%nat.
Proof. rewrite lcp_sym. apply lcp_length_l. Qed.

(** The scan of [commonprefix] computes the longest common prefix, and
    does not run past the end of [s2], when [s1] is not above [s2]. *)
Lemma scan_lcp (s1 s2 : string) :
  String.compare s1 s2 <> Gt ->
  OsPath.scan s1 s2 = Ok (Spec.longest_common_prefix s1 s2).
Proof.
  revert s2. induction s1 as [|c s1 IH]; intros s2 H.
  - now destruct s2.
  - destruct s2 as [|d s2]; [now cbn in H|].
    cbn [OsPath.scan Spec.longest_common_prefix].
    destruct (Ascii.eqb_spec c d) as [->|Hne]; [|reflexivity].
    cbn [String.compare] in H. rewrite ascii_compare_refl in H.
    now rewrite (IH s2 H).
Qed.

Lemma commonprefix_lcp (a b : string) :
  OsPath.commonprefix a b = Ok (Spec.longest_common_prefix a b).
Proof.
  unfold OsPath.commonprefix, OsPath.min2, OsPath.max2.
  destruct (b <? a)%string eqn:Eba.
  - rewrite (string_ltb_asym b a Eba). rewrite (lcp_sym a b).
    apply scan_lcp. unfold String.ltb in Eba.
    destruct (String.compare b a); congruence.
  - destruct (a <? b)%string eqn:Eab.
    + apply scan_lcp. unfold String.ltb in Eab.
      destruct (String.compare a b); congruence.
    + rewrite <- (string_ltb_total a b Eab Eba).
      apply scan_lcp. now rewrite string_compare_refl.
Qed.

Lemma is_empty_true (s : string) : is_empty s = true <-> s = EmptyString.
Proof. destruct s; cbn; split; congruence. Qed.

Lemma is_empty_false (s : string) :
  is_empty s = false <-> (0 < String.length s)%nat.
Proof. destruct s; cbn; split; intros; try congruence; lia. Qed.

(* ------------------------------------------------------------------ *)
(** ** Binary64 arithmetic

    What the matching function needs of the floats: [float(n)] of a
    positive integer is never zero, it grows with [n], and the quotient
    [float(n) / float(m)] with [n <= m] never exceeds [1.0]. *)

Section Binary64.

Local Open Scope Z_scope.

(** Binary digits. *)
Lemma digits2_pos_size (p : positive) : digits2_pos p = Pos.size p.
Proof. induction p; simpl; congruence. Qed.

Lemma digits2_pos_bounds (p : positive) :
2 ^ (Zpos (digits2_pos p) - 1) <= Zpos p < 2 ^ Zpos (digits2_pos p).
Proof.
induction p as [p IH|p IH|]; cbn [digits2_pos].
- rewrite Pos2Z.inj_succ. replace (Z.succ (Zpos (digits2_pos p)) - 1) with (Zpos (digits2_pos p)) by lia.
  rewrite Z.pow_succ_r by lia.
  assert (H : 2 ^ Zpos (digits2_pos p) = 2 * 2 ^ (Zpos (digits2_pos p) - 1)).
  { rewrite <- Z.pow_succ_r by lia. f_equal. lia. }
  lia.
- rewrite Pos2Z.inj_succ. replace (Z.succ (Zpos (digits2_pos p)) - 1) with (Zpos (digits2_pos p)) by lia.
  rewrite Z.pow_succ_r by lia.
  assert (H : 2 ^ Zpos (digits2_pos p) = 2 * 2 ^ (Zpos (digits2_pos p) - 1)).
  { rewrite <- Z.pow_succ_r by lia. f_equal. lia. }
  lia.
- simpl. lia.
Qed.

Lemma Zdigits2_bounds (m : Z) : 0 < m ->
2 ^ (Zdigits2 m - 1) <= m < 2 ^ Zdigits2 m.
Proof. destruct m; try lia. intros _. apply digits2_pos_bounds. Qed.

Lemma Zdigits2_nonneg (m : Z) : 0 <= Zdigits2 m.
Proof. destruct m; simpl; lia. Qed.

Lemma Zdigits2_unique (m d : Z) : 2 ^ (d - 1) <= m < 2 ^ d -> 0 < d -> Zdigits2 m = d.
Proof.
intros [H1 H2] Hd.
assert (Hm : 0 < m) by (pose proof (Z.pow_pos_nonneg 2 (d - 1)); lia).
pose proof (Zdigits2_bounds m Hm) as [H3 H4].
pose proof (Zdigits2_nonneg m) as H0.
destruct (Z.lt_trichotomy (Zdigits2 m) d) as [H|[H|H]]; [|exact H|].
- assert (2 ^ Zdigits2 m <= 2 ^ (d - 1)) by (apply Z.pow_le_mono_r; lia). lia.
- assert (2 ^ d <= 2 ^ (Zdigits2 m - 1)) by (apply Z.pow_le_mono_r; lia). lia.
Qed.

Lemma Zdigits2_le_of_lt (m k : Z) : 0 <= m -> 0 <= k -> m < 2 ^ k -> Zdigits2 m <= k.
Proof.
intros Hm Hk H.
destruct (Z.eq_dec m 0) as [->|Hne]; [simpl; lia|].
pose proof (Zdigits2_bounds m ltac:(lia)) as [H3 H4].
destruct (Z_le_gt_dec (Zdigits2 m) k) as [|Hgt]; [assumption|].
assert (2 ^ k <= 2 ^ (Zdigits2 m - 1)) by (apply Z.pow_le_mono_r; lia). lia.
Qed.

(** Iterated right shifts. *)
Lemma iter_pos_nat {A} (f : A -> A) (p : positive) (x : A) :
iter_pos f p x = Nat.iter (Pos.to_nat p) f x.
Proof.
revert x. induction p as [p IH|p IH|]; intros x; cbn [iter_pos].
- rewrite !IH. rewrite Pos2Nat.inj_xI. 
  replace (S (2 * Pos.to_nat p))%nat with (Pos.to_nat p + (Pos.to_nat p + 1))%nat by lia.
  rewrite !Nat.iter_add. simpl. reflexivity.
- rewrite !IH. rewrite Pos2Nat.inj_xO.
  replace (2 * Pos.to_nat p)%nat with (Pos.to_nat p + Pos.to_nat p)%nat by lia.
  rewrite Nat.iter_add. reflexivity.
- reflexivity.
Qed.

Lemma shr_1_m (mrs : shr_record) : 0 <= shr_m mrs -> shr_m (shr_1 mrs) = shr_m mrs / 2.
Proof.
destruct mrs as [m r s]. cbn [shr_m]. intros Hm.
destruct m as [|[p|p|]|p]; cbn [shr_1 shr_m]; try lia.
- reflexivity.
- rewrite Pos2Z.inj_xI. apply Z.div_unique with 1; lia.
- rewrite Pos2Z.inj_xO. apply Z.div_unique with 0; lia.
- reflexivity.
Qed.

Lemma shr_iter_m (n : nat) (mrs : shr_record) : 0 <= shr_m mrs ->
shr_m (Nat.iter n shr_1 mrs) = shr_m mrs / 2 ^ Z.of_nat n.
Proof.
intros Hm. induction n as [|n IH].
- simpl. now rewrite Z.div_1_r.
- rewrite Nat.iter_succ. rewrite shr_1_m.
  + rewrite IH. rewrite Nat2Z.inj_succ, Z.pow_succ_r by lia.
    rewrite Z.div_div by (pose proof (Z.pow_pos_nonneg 2 (Z.of_nat n)); lia).
    f_equal. lia.
  + rewrite IH. apply Z.div_pos; [lia|]. apply Z.pow_pos_nonneg; lia.
Qed.

Lemma fexp_eq (e : Z) : fexp prec emax e = Z.max (e - 53) (-1074).
Proof. reflexivity. Qed.

Lemma round_bounds (m : Z) (l : location) :
m <= round_nearest_even m l <= m + 1.
Proof.
destruct l as [|[| |]]; cbn [round_nearest_even]; try lia.
destruct (Z.even m); lia.
Qed.

Lemma shr_record_of_loc_m (m : Z) (l : location) : shr_m (shr_record_of_loc m l) = m.
Proof. destruct l as [|[| |]]; reflexivity. Qed.

Lemma shr_spec_m (mrs : shr_record) (e n : Z) : 0 <= shr_m mrs ->
shr_m (fst (shr mrs e n)) = shr_m mrs / 2 ^ Z.max n 0
/\ snd (shr mrs e n) = e + Z.max n 0.
Proof.
intros Hm. destruct n as [|p|p]; cbn [shr fst snd].
- rewrite Z.max_id. simpl. rewrite Z.div_1_r. lia.
- rewrite iter_pos_nat, shr_iter_m by assumption.
  rewrite positive_nat_Z. rewrite Z.max_l by lia. lia.
- rewrite Z.max_r by lia. simpl. rewrite Z.div_1_r. lia.
Qed.

Lemma shr_fexp_spec (m e : Z) (l : location) : 0 <= m ->
let s := Z.max (fexp prec emax (Zdigits2 m + e) - e) 0 in
shr_m (fst (shr_fexp prec emax m e l)) = m / 2 ^ s
/\ snd (shr_fexp prec emax m e l) = e + s.
Proof.
intros Hm s. unfold shr_fexp.
pose proof (shr_spec_m (shr_record_of_loc m l) e (fexp prec emax (Zdigits2 m + e) - e)) as H.
rewrite shr_record_of_loc_m in H. apply H. assumption.
Qed.

Lemma pow2_pos (k : Z) : 0 <= k -> 0 < 2 ^ k.
Proof. intros. apply Z.pow_pos_nonneg; lia. Qed.

Lemma div_pow2_lt (m a b : Z) : 0 <= m -> 0 <= b -> b <= a -> m < 2 ^ a -> m / 2 ^ b < 2 ^ (a - b).
Proof.
intros Hm Hb Hab H.
apply Z.div_lt_upper_bound; [apply pow2_pos; lia|].
rewrite <- Z.pow_add_r by lia. replace (b + (a - b)) with a by lia. assumption.
Qed.

Lemma div_pow2_le (m a b : Z) : 0 <= m -> 0 <= b -> b <= a -> m <= 2 ^ a -> m / 2 ^ b <= 2 ^ (a - b).
Proof.
intros Hm Hb Hab H.
replace (2 ^ a) with (2 ^ (a - b) * 2 ^ b) in H
  by (rewrite <- Z.pow_add_r by lia; f_equal; lia).
apply Z.div_le_upper_bound; [apply pow2_pos; lia|]. lia.
Qed.

Lemma Zdigits2_le_of_le (m k : Z) : 0 <= m -> 0 <= k -> m <= 2 ^ k -> Zdigits2 m <= k + 1.
Proof.
intros Hm Hk H. apply Zdigits2_le_of_lt; try lia.
replace (k + 1) with (Z.succ k) by lia.
rewrite Z.pow_succ_r by lia. pose proof (pow2_pos k Hk). lia.
Qed.

Lemma bra_le_one (mx ex : Z) (lx : location) :
0 <= mx -> ex <= -52 -> mx < 2 ^ (- ex) ->
SFltb PyFloat.lit_1_0 (binary_round_aux prec emax false mx ex lx) = false.
Proof.
intros Hmx Hex Hlt. unfold binary_round_aux.
pose proof (shr_fexp_spec mx ex lx Hmx) as [Hm1 He1]. cbv zeta in Hm1, He1.
destruct (shr_fexp prec emax mx ex lx) as [mrs1 e1]. cbn [fst snd] in Hm1, He1.
pose proof (fexp_eq (Zdigits2 mx + ex)) as Hf1.
set (f1 := fexp prec emax (Zdigits2 mx + ex)) in *.
assert (Hd : Zdigits2 mx <= - ex) by (apply Zdigits2_le_of_lt; lia).
assert (He1' : e1 <= -52) by lia.
assert (Hm1' : 0 <= shr_m mrs1 < 2 ^ (- e1)).
{ rewrite Hm1. split.
  - apply Z.div_pos; [lia|apply pow2_pos; lia].
  - replace (- e1) with (- ex - Z.max (f1 - ex) 0) by lia.
    apply div_pow2_lt; lia. }
pose proof (round_bounds (shr_m mrs1) (loc_of_shr_record mrs1)) as Hr.
set (m2 := round_nearest_even (shr_m mrs1) (loc_of_shr_record mrs1)) in *.
assert (Hm2 : 0 <= m2 <= 2 ^ (- e1)) by lia.
pose proof (shr_fexp_spec m2 e1 loc_Exact (proj1 Hm2)) as [Hm3 He3]. cbv zeta in Hm3, He3.
destruct (shr_fexp prec emax m2 e1 loc_Exact) as [mrs2 e2]. cbn [fst snd] in Hm3, He3.
pose proof (fexp_eq (Zdigits2 m2 + e1)) as Hf2.
set (f2 := fexp prec emax (Zdigits2 m2 + e1)) in *.
assert (Hd2 : Zdigits2 m2 <= - e1 + 1) by (apply Zdigits2_le_of_le; lia).
assert (He2 : e2 <= -52) by lia.
assert (Hm3' : 0 <= shr_m mrs2 <= 2 ^ (- e2)).
{ rewrite Hm3. split.
  - apply Z.div_pos; [lia|apply pow2_pos; lia].
  - replace (- e2) with (- e1 - Z.max (f2 - e1) 0) by lia.
    apply div_pow2_le; lia. }
destruct (shr_m mrs2) as [|m3|m3] eqn:E3; [reflexivity| |reflexivity].
replace (e2 <=? emax - prec) with true
  by (symmetry; apply Z.leb_le; unfold emax, prec; lia).
unfold SFltb, PyFloat.lit_1_0, SFcompare.
destruct (Z.compare_spec (-52) e2) as [Heq|Hl|Hg]; [|exfalso; clear - He2 Hl; lia|reflexivity].
rewrite <- Heq in Hm3'. change (- -52) with 52 in Hm3'.
rewrite Pos.compare_cont_spec. cbn [Pos.switch_Eq].
destruct (Pos.compare_spec 4503599627370496 m3) as [?|Hl|?]; try reflexivity.
change (2 ^ 52) with 4503599627370496 in Hm3'. exfalso; clear - Hm3' Hl; lia.
Qed.

Lemma loc_of_shr_record_of_loc (m : Z) (l : location) :
loc_of_shr_record (shr_record_of_loc m l) = l.
Proof. destruct l as [|[| |]]; reflexivity. Qed.

Lemma shr_fexp_id (m e : Z) (l : location) :
2 ^ 52 <= m < 2 ^ 53 -> -1074 <= e ->
shr_fexp prec emax m e l = (shr_record_of_loc m l, e).
Proof.
intros Hm He. unfold shr_fexp.
rewrite (Zdigits2_unique m 53) by (change (53 - 1) with 52; lia).
rewrite fexp_eq. replace (Z.max (53 + e - 53) (-1074) - e) with 0 by lia.
reflexivity.
Qed.

Lemma finish_correct (mx ex : Z) (lx : location) (mrs : shr_record) (e : Z) :
shr_fexp prec emax mx ex lx = (mrs, e) ->
2 ^ 52 <= shr_m mrs < 2 ^ 53 -> -1074 <= e ->
binary_round_aux prec emax false mx ex lx = PyFloat.finish (shr_m mrs) (loc_of_shr_record mrs) e.
Proof.
intros E Hm He. unfold binary_round_aux. rewrite E. unfold PyFloat.finish.
pose proof (round_bounds (shr_m mrs) (loc_of_shr_record mrs)) as Hr.
set (m2 := round_nearest_even (shr_m mrs) (loc_of_shr_record mrs)) in *.
destruct (Z.ltb_spec m2 (2 ^ 53)) as [Hlt|Hge].
- rewrite shr_fexp_id by lia. cbn [shr_record_of_loc shr_m].
  unfold PyFloat.pack. destruct m2 as [|p|p] eqn:E2.
  + exfalso. pose proof (pow2_pos 52). lia.
  + reflexivity.
  + exfalso. pose proof (pow2_pos 52). lia.
- assert (m2 = 2 ^ 53) as -> by lia.
  unfold shr_fexp. rewrite (Zdigits2_unique (2 ^ 53) 54) by (cbn; lia).
  rewrite fexp_eq. replace (Z.max (54 + e - 53) (-1074) - e) with 1 by lia.
  cbn [shr shr_record_of_loc iter_pos]. 
  change (shr_m (shr_1 {| shr_m := 2 ^ 53; shr_r := false; shr_s := false |})) with (2 ^ 52).
  unfold PyFloat.pack. reflexivity.
Qed.

Lemma shr_1_r (mrs : shr_record) : 0 <= shr_m mrs -> shr_r (shr_1 mrs) = Z.odd (shr_m mrs).
Proof.
destruct mrs as [m r s]. cbn [shr_m]. intros Hm.
destruct m as [|[p|p|]|p]; try reflexivity; lia.
Qed.

Lemma shr_1_s (mrs : shr_record) : shr_s (shr_1 mrs) = shr_r mrs || shr_s mrs.
Proof. destruct mrs as [m r s]. destruct m as [|[p|p|]|[p|p|]]; reflexivity. Qed.

Lemma mod_pow2_succ (n k : Z) : 0 <= k ->
n mod 2 ^ (k + 1) = n mod 2 ^ k + 2 ^ k * ((n / 2 ^ k) mod 2).
Proof.
intros Hk. rewrite Z.pow_add_r by lia. change (2 ^ 1) with 2.
apply Z.rem_mul_r; [|lia]. pose proof (pow2_pos k Hk). lia.
Qed.

Lemma odd_mod2 (m : Z) : Z.odd m = negb (m mod 2 =? 0).
Proof.
rewrite Zmod_odd. destruct (Z.odd m); reflexivity.
Qed.

Lemma shr_iter_rs (k : nat) (n : Z) : 0 <= n ->
let mrs := Nat.iter (S k) shr_1 (Build_shr_record n false false) in
shr_r mrs = Z.odd (n / 2 ^ Z.of_nat k)
/\ shr_s mrs = negb (n mod 2 ^ Z.of_nat k =? 0).
Proof.
intros Hn. induction k as [|k IH]; cbv zeta in *.
- cbn [Nat.iter nat_rect]. rewrite shr_1_r, shr_1_s by (cbn; lia). cbn [shr_m shr_r shr_s].
  change (2 ^ Z.of_nat 0) with 1. rewrite Z.div_1_r, Z.mod_1_r. split; reflexivity.
- rewrite Nat.iter_succ. destruct IH as [IHr IHs].
  set (mrs := Nat.iter (S k) shr_1 _) in *.
  assert (Hm : shr_m mrs = n / 2 ^ Z.of_nat (S k)).
  { unfold mrs. rewrite shr_iter_m by (cbn; lia). reflexivity. }
  assert (Hpos : 0 <= shr_m mrs).
  { rewrite Hm. apply Z.div_pos; [lia|apply pow2_pos; lia]. }
  rewrite shr_1_r, shr_1_s by assumption. split.
  + now rewrite Hm.
  + rewrite IHr, IHs.
    replace (Z.of_nat (S k)) with (Z.of_nat k + 1) by lia.
    rewrite mod_pow2_succ by lia. rewrite odd_mod2.
    pose proof (Z.mod_pos_bound n (2 ^ Z.of_nat k) (pow2_pos _ (Nat2Z.is_nonneg k))) as Hb.
    pose proof (Z.mod_pos_bound (n / 2 ^ Z.of_nat k) 2 ltac:(lia)) as Hb2.
    pose proof (pow2_pos _ (Nat2Z.is_nonneg k)) as Hp.
    set (lo := n mod 2 ^ Z.of_nat k) in *.
    set (b := (n / 2 ^ Z.of_nat k) mod 2) in *.
    set (P := 2 ^ Z.of_nat k) in *.
    destruct (Z.eqb_spec b 0) as [E0|E0];
      destruct (Z.eqb_spec lo 0) as [E1|E1];
      destruct (Z.eqb_spec (lo + P * b) 0) as [E2|E2];
      try reflexivity; exfalso; nia.
Qed.

Lemma shr_iter_loc (s : Z) (n : Z) : 0 <= n -> 0 < s ->
loc_of_shr_record (Nat.iter (Z.to_nat s) shr_1 (Build_shr_record n false false))
= PyFloat.low_loc n s.
Proof.
intros Hn Hs.
destruct (Z.to_nat s) as [|k] eqn:Ek; [lia|].
assert (Hk : s = Z.of_nat k + 1) by lia.
pose proof (shr_iter_rs k n Hn) as [Hr Hst]. cbv zeta in Hr, Hst.
destruct (Nat.iter (S k) shr_1 _) as [m r st]. cbn [shr_r shr_s] in Hr, Hst.
cbn [loc_of_shr_record]. unfold PyFloat.low_loc. subst s.
replace (Z.of_nat k + 1 - 1) with (Z.of_nat k) by lia.
rewrite mod_pow2_succ by lia.
rewrite odd_mod2 in Hr.
pose proof (Z.mod_pos_bound n (2 ^ Z.of_nat k) (pow2_pos _ (Nat2Z.is_nonneg k))) as Hb.
pose proof (Z.mod_pos_bound (n / 2 ^ Z.of_nat k) 2 ltac:(lia)) as Hb2.
pose proof (pow2_pos _ (Nat2Z.is_nonneg k)) as Hp.
set (lo := n mod 2 ^ Z.of_nat k) in *.
set (b := (n / 2 ^ Z.of_nat k) mod 2) in *.
set (P := 2 ^ Z.of_nat k) in *.
assert (Hb01 : b = 0 \/ b = 1) by lia.
destruct Hb01 as [Eb|Eb]; rewrite Eb in *; cbn in Hr; subst r.
- replace (lo + P * 0) with lo by lia.
  destruct (Z.eqb_spec lo 0) as [E|E]; cbn in Hst; subst st.
  + reflexivity.
  + f_equal. symmetry. apply Z.compare_lt_iff. lia.
- replace (lo + P * 1) with (lo + P) by lia.
  destruct (Z.eqb_spec (lo + P) 0) as [E|E]; [lia|].
  destruct (Z.eqb_spec lo 0) as [E'|E']; cbn in Hst; subst st.
  + f_equal. symmetry. apply Z.compare_eq_iff. lia.
  + f_equal. symmetry. apply Z.compare_gt_iff. lia.
Qed.

Lemma nat_iter_xO (j : nat) (p : positive) :
Zpos (Nat.iter j xO p) = Zpos p * 2 ^ Z.of_nat j.
Proof.
induction j as [|j IH].
- simpl. lia.
- rewrite Nat2Z.inj_succ, Z.pow_succ_r by lia.
  change (Nat.iter (S j) xO p) with (xO (Nat.iter j xO p)).
  rewrite Pos2Z.inj_xO, IH. lia.
Qed.

Lemma pos_iter_xO (p k : positive) : Zpos (Pos.iter xO p k) = Zpos p * 2 ^ Zpos k.
Proof.
pose proof (nat_iter_xO (Pos.to_nat k) p) as H. unfold Nat.iter in H.
now rewrite Pos2Nat.inj_iter, H, positive_nat_Z.
Qed.

Lemma int_mantissa_normal (n : Z) : 0 < n -> 2 ^ 52 <= PyFloat.int_mantissa n < 2 ^ 53.
Proof.
intros Hn. unfold PyFloat.int_mantissa.
pose proof (Zdigits2_bounds n Hn) as [Hlo Hhi].
assert (Hd : 0 < Zdigits2 n) by (destruct n; simpl; lia).
set (d := Zdigits2 n) in *.
destruct (Z.leb_spec d 53) as [Hle|Hgt].
- replace (2 ^ 52) with (2 ^ (d - 1) * 2 ^ (53 - d))
    by (rewrite <- Z.pow_add_r by lia; f_equal; lia).
  replace (2 ^ 53) with (2 ^ d * 2 ^ (53 - d))
    by (rewrite <- Z.pow_add_r by lia; f_equal; lia).
  pose proof (pow2_pos (53 - d) ltac:(lia)). nia.
- split.
  + apply Z.div_le_lower_bound; [apply pow2_pos; lia|].
    rewrite <- Z.pow_add_r by lia. replace (d - 53 + 52) with (d - 1) by lia. assumption.
  + replace 53 with (d - (d - 53)) at 2 by lia. apply div_pow2_lt; lia.
Qed.

Lemma of_int_finish (n : Z) : 0 < n ->
PyFloat.of_int n = PyFloat.finish (PyFloat.int_mantissa n) (PyFloat.int_loc n) (PyFloat.int_exponent n).
Proof.
intros Hn. pose proof (int_mantissa_normal n Hn) as Hnorm.
destruct n as [|p|p]; try lia.
unfold PyFloat.of_int, binary_normalize, binary_round.
unfold PyFloat.int_mantissa, PyFloat.int_loc, PyFloat.int_exponent in *. cbn [Zdigits2] in *.
rewrite fexp_eq.
pose proof (digits2_pos_bounds p) as [Hlo Hhi].
remember (Zpos (digits2_pos p)) as d eqn:Heqd.
assert (Hd : 0 < d) by lia.
unfold shl_align.
replace (Z.max (d + 0 - 53) (-1074) - 0) with (d - 53) by lia.
replace (Z.max (d + 0 - 53) (-1074)) with (d - 53) by lia.
destruct (Z.leb_spec d 53) as [Hle|Hgt].
- assert (E : exists M, (let (mz, ez) := match d - 53 with
            | Z.neg k => (Pos.iter xO p k, d - 53)
            | _ => (p, 0) end in
            binary_round_aux prec emax false (Z.pos mz) ez loc_Exact)
          = binary_round_aux prec emax false M (d - 53) loc_Exact
          /\ M = Zpos p * 2 ^ (53 - d)).
  { destruct (d - 53) as [|k|k] eqn:Ed; try lia.
    - exists (Zpos p). split; [reflexivity|]. replace (53 - d) with 0 by lia. rewrite Z.pow_0_r. lia.
    - exists (Zpos (Pos.iter xO p k)). split; [reflexivity|].
      rewrite pos_iter_xO. f_equal. f_equal. lia. }
  destruct E as [M [-> ->]].
  assert (He : -1074 <= d - 53) by lia.
  rewrite (finish_correct _ _ _ _ _ (shr_fexp_id _ _ loc_Exact Hnorm He)).
  + rewrite loc_of_shr_record_of_loc, shr_record_of_loc_m. reflexivity.
  + rewrite shr_record_of_loc_m. exact Hnorm.
  + lia.
- destruct (d - 53) as [|k|k] eqn:Ed; try lia.
  assert (Es : shr_fexp prec emax (Zpos p) 0 loc_Exact
               = (iter_pos shr_1 k (Build_shr_record (Zpos p) false false), Zpos k)).
  { unfold shr_fexp. rewrite fexp_eq. cbn [Zdigits2]. rewrite <- Heqd.
    replace (Z.max (d + 0 - 53) (-1074) - 0) with (Zpos k) by lia. reflexivity. }
  assert (Hm : shr_m (iter_pos shr_1 k (Build_shr_record (Zpos p) false false))
               = Zpos p / 2 ^ Zpos k).
  { rewrite iter_pos_nat, shr_iter_m by (cbn; lia). now rewrite positive_nat_Z. }
  rewrite (finish_correct _ _ _ _ _ Es).
  + rewrite Hm. f_equal.
    rewrite iter_pos_nat. rewrite <- (Z2Nat.inj_pos k). apply shr_iter_loc; lia.
  + rewrite Hm. exact Hnorm.
  + lia.
Qed.

Lemma finish_pack (m : Z) (l : location) (e : Z) :
PyFloat.finish m l e = PyFloat.pack (fst (PyFloat.final_pair m l e)) (snd (PyFloat.final_pair m l e)).
Proof. unfold PyFloat.finish, PyFloat.final_pair. now destruct (_ <? _). Qed.

Lemma of_int_pack (n : Z) : 0 < n ->
PyFloat.of_int n = PyFloat.pack (fst (PyFloat.int_pair n)) (snd (PyFloat.int_pair n)).
Proof. intros Hn. rewrite of_int_finish by assumption. apply finish_pack. Qed.

Lemma final_pair_normal (m : Z) (l : location) (e : Z) :
PyFloat.normal m -> PyFloat.normal (fst (PyFloat.final_pair m l e)).
Proof.
unfold PyFloat.normal, PyFloat.final_pair. intros Hm.
pose proof (round_bounds m l).
destruct (Z.ltb_spec (round_nearest_even m l) (2 ^ 53)); cbn [fst]; lia.
Qed.

Lemma int_pair_normal (n : Z) : 0 < n -> PyFloat.normal (fst (PyFloat.int_pair n)).
Proof. intros Hn. apply final_pair_normal, int_mantissa_normal, Hn. Qed.

Lemma Zdigits2_mono (n m : Z) : 0 < n -> n <= m -> Zdigits2 n <= Zdigits2 m.
Proof.
intros Hn Hnm.
pose proof (Zdigits2_bounds n Hn) as [H1 _].
pose proof (Zdigits2_bounds m ltac:(lia)) as [_ H2].
pose proof (Zdigits2_nonneg m).
destruct (Z_le_gt_dec (Zdigits2 n) (Zdigits2 m)) as [|Hgt]; [assumption|].
assert (2 ^ Zdigits2 m <= 2 ^ (Zdigits2 n - 1)) by (apply Z.pow_le_mono_r; lia).
lia.
Qed.

Lemma round_low_mono (q n m s : Z) : 0 < s ->
n mod 2 ^ s <= m mod 2 ^ s ->
round_nearest_even q (PyFloat.low_loc n s) <= round_nearest_even q (PyFloat.low_loc m s).
Proof.
intros Hs Hlo. unfold PyFloat.low_loc.
destruct (Z.eqb_spec (n mod 2 ^ s) 0); destruct (Z.eqb_spec (m mod 2 ^ s) 0);
  destruct (Z.compare_spec (n mod 2 ^ s) (2 ^ (s - 1)));
  destruct (Z.compare_spec (m mod 2 ^ s) (2 ^ (s - 1)));
  cbn [round_nearest_even]; destruct (Z.even q);
  pose proof (pow2_pos (s - 1) ltac:(lia)); lia.
Qed.

Lemma int_pair_mono (n m : Z) : 0 < n -> n <= m -> PyFloat.lex_le (PyFloat.int_pair n) (PyFloat.int_pair m).
Proof.
intros Hn Hnm. assert (Hm : 0 < m) by lia.
pose proof (Zdigits2_mono n m Hn Hnm) as Hd.
pose proof (int_mantissa_normal n Hn) as Nn.
pose proof (int_mantissa_normal m Hm) as Nm.
unfold PyFloat.int_pair, PyFloat.final_pair, PyFloat.lex_le.
pose proof (round_bounds (PyFloat.int_mantissa n) (PyFloat.int_loc n)) as Rn.
pose proof (round_bounds (PyFloat.int_mantissa m) (PyFloat.int_loc m)) as Rm.
assert (Hsame : Zdigits2 n = Zdigits2 m ->
        round_nearest_even (PyFloat.int_mantissa n) (PyFloat.int_loc n)
        <= round_nearest_even (PyFloat.int_mantissa m) (PyFloat.int_loc m)).
{ intros E. unfold PyFloat.int_mantissa, PyFloat.int_loc in *. rewrite <- E in *.
  set (d := Zdigits2 n) in *.
  destruct (Z.leb_spec d 53) as [Hle|Hgt].
  - cbn [round_nearest_even]. pose proof (pow2_pos (53 - d) ltac:(lia)). nia.
  - set (P := 2 ^ (d - 53)) in *.
    assert (HP : 0 < P) by (apply pow2_pos; lia).
    pose proof (Z.div_mod n P ltac:(lia)) as En.
    pose proof (Z.div_mod m P ltac:(lia)) as Em.
    pose proof (Z.mod_pos_bound n P HP). pose proof (Z.mod_pos_bound m P HP).
    assert (Hq : n / P <= m / P) by (apply Z.div_le_mono; lia).
    destruct (Z.eq_dec (n / P) (m / P)) as [Eq|Ne].
    + rewrite <- Eq in *. apply round_low_mono; [lia|]. fold P. lia.
    + lia. }
unfold PyFloat.int_exponent.
destruct (Z.ltb_spec (round_nearest_even (PyFloat.int_mantissa n) (PyFloat.int_loc n)) (2 ^ 53));
  destruct (Z.ltb_spec (round_nearest_even (PyFloat.int_mantissa m) (PyFloat.int_loc m)) (2 ^ 53));
  cbn [fst snd];
  destruct (Z.eq_dec (Zdigits2 n) (Zdigits2 m)) as [E|E];
  try specialize (Hsame E); unfold PyFloat.normal in *; lia.
Qed.

Lemma div_eucl_eq (a b q r : Z) : Z.div_eucl a b = (q, r) -> q = a / b /\ r = a mod b.
Proof. intros E. unfold Z.div, Z.modulo. rewrite E. split; reflexivity. Qed.

Lemma core_shift (m s : Z) : 0 <= s ->
match s with Z.pos _ => Z.shiftl m s | 0 => m | Z.neg _ => 0 end = m * 2 ^ s.
Proof.
intros Hs. destruct s as [|p|p]; [lia| |lia].
apply Z.shiftl_mul_pow2. lia.
Qed.

Lemma new_location_0 (n : Z) : new_location n 0 = loc_Exact.
Proof. unfold new_location. destruct (Z.even n); reflexivity. Qed.

Lemma div_self_le_one (m : positive) (e : Z) : PyFloat.normal (Zpos m) ->
SFltb PyFloat.lit_1_0 (SFdiv prec emax (S754_finite false m e) (S754_finite false m e)) = false.
Proof.
intros Hn. unfold PyFloat.normal in Hn. unfold SFdiv, SFdiv_core_binary.
rewrite (Zdigits2_unique (Zpos m) 53) by (change (53 - 1) with 52; lia).
rewrite fexp_eq.
replace (53 + e - (53 + e) - 53) with (-53) by lia.
replace (e - e) with 0 by lia.
change (Z.min (Z.max (-53) (-1074)) 0) with (-53).
change (0 - -53) with 53.
rewrite (core_shift (Zpos m) 53) by lia.
destruct (Z.div_eucl (Z.pos m * 2 ^ 53) (Z.pos m)) as [q r] eqn:E.
apply div_eucl_eq in E. destruct E as [Eq Er].
rewrite Z.mul_comm in Eq, Er. rewrite Z.div_mul in Eq by lia. rewrite Z.mod_mul in Er by lia.
subst q r. rewrite new_location_0. reflexivity.
Qed.

Lemma div_lt_le_one (mx my : positive) (ex ey : Z) :
PyFloat.normal (Zpos mx) -> PyFloat.normal (Zpos my) ->
ex < ey \/ (ex = ey /\ Zpos mx < Zpos my) ->
SFltb PyFloat.lit_1_0 (SFdiv prec emax (S754_finite false mx ex) (S754_finite false my ey)) = false.
Proof.
intros Hx Hy Hlt. unfold PyFloat.normal in *. unfold SFdiv, SFdiv_core_binary.
rewrite (Zdigits2_unique (Zpos mx) 53) by (change (53 - 1) with 52; lia).
rewrite (Zdigits2_unique (Zpos my) 53) by (change (53 - 1) with 52; lia).
rewrite fexp_eq.
remember (Z.min (Z.max (53 + ex - (53 + ey) - 53) (-1074)) (ex - ey)) as e' eqn:He'.
assert (Hs : 0 <= ex - ey - e') by lia.
rewrite (core_shift (Zpos mx) (ex - ey - e')) by lia.
remember (ex - ey - e') as s eqn:Es.
destruct (Z.div_eucl (Z.pos mx * 2 ^ s) (Z.pos my)) as [q r] eqn:E.
apply div_eucl_eq in E. destruct E as [Eq _].
cbn [xorb].
pose proof (pow2_pos s Hs) as Hp.
apply bra_le_one.
- subst q. apply Z.div_pos; lia.
- lia.
- subst q. apply Z.div_lt_upper_bound; [lia|].
  destruct Hlt as [Hlt|[He Hm]].
  + assert (Hpow : 2 ^ (s + 1) <= 2 ^ (- e')) by (apply Z.pow_le_mono_r; lia).
    replace (s + 1) with (Z.succ s) in Hpow by lia.
    rewrite Z.pow_succ_r in Hpow by lia.
    change (2 ^ 53) with (2 * 2 ^ 52) in Hx. nia.
  + replace (- e') with s by lia. nia.
Qed.

Lemma pack_le (a b : Z * Z) : 0 < fst a -> 0 < fst b -> PyFloat.lex_le a b ->
SFleb (PyFloat.pack (fst a) (snd a)) (PyFloat.pack (fst b) (snd b)) = true.
Proof.
destruct a as [ma ea], b as [mb eb]. unfold PyFloat.lex_le. cbn [fst snd]. intros Ha Hb H.
destruct ma as [|pa|pa]; try lia. destruct mb as [|pb|pb]; try lia.
unfold PyFloat.pack.
destruct (Z.leb_spec ea 971); destruct (Z.leb_spec eb 971); try reflexivity.
- cbn [Z.to_pos]. unfold SFleb, SFcompare.
  destruct (Z.compare_spec ea eb) as [E|L|G]; try reflexivity.
  + rewrite Pos.compare_cont_spec. cbn [Pos.switch_Eq].
    destruct (Pos.compare_spec pa pb); try reflexivity. exfalso. lia.
  + exfalso. lia.
- exfalso. lia.
Qed.

Lemma of_int_le (n m : Z) : 0 < n -> n <= m -> SFleb (PyFloat.of_int n) (PyFloat.of_int m) = true.
Proof.
intros Hn Hnm. rewrite !of_int_pack by lia.
apply pack_le.
- pose proof (int_pair_normal n Hn) as H. unfold PyFloat.normal in H. lia.
- pose proof (int_pair_normal m ltac:(lia)) as H. unfold PyFloat.normal in H. lia.
- apply int_pair_mono; assumption.
Qed.

Lemma of_int_pos_nonzero (n : Z) : 0 < n -> forall s, PyFloat.of_int n <> S754_zero s.
Proof.
intros Hn s. rewrite of_int_pack by assumption. unfold PyFloat.pack.
destruct (_ <=? _); discriminate.
Qed.

(** The quotient of the floats of two integers [0 <= n <= m], [0 < m],
  is never above [1.0]. *)
Lemma div_of_int_le_one (n m : Z) : 0 <= n -> n <= m -> 0 < m ->
SFltb PyFloat.lit_1_0 (SFdiv prec emax (PyFloat.of_int n) (PyFloat.of_int m)) = false.
Proof.
intros Hn Hnm Hm.
destruct (Z.eq_dec n 0) as [->|Hn0].
- rewrite (of_int_pack m Hm). unfold PyFloat.pack. destruct (_ <=? _); reflexivity.
- assert (Hn' : 0 < n) by lia.
  pose proof (int_pair_mono n m Hn' Hnm) as Hlex.
  pose proof (int_pair_normal n Hn') as Nn.
  pose proof (int_pair_normal m Hm) as Nm.
  rewrite (of_int_pack n Hn'), (of_int_pack m Hm).
  destruct (PyFloat.int_pair n) as [mn en], (PyFloat.int_pair m) as [mm em].
  unfold PyFloat.lex_le in Hlex. cbn [fst snd] in *.
  destruct mn as [|pn|pn]; try (unfold PyFloat.normal in Nn; lia).
  destruct mm as [|pm|pm]; try (unfold PyFloat.normal in Nm; lia).
  unfold PyFloat.pack. cbn [Z.to_pos].
  destruct (Z.leb_spec en 971); destruct (Z.leb_spec em 971); try reflexivity.
  + destruct (Z.eq_dec en em) as [Ee|Ee].
    * destruct (Z.eq_dec (Zpos pn) (Zpos pm)) as [Em|Em].
      -- inversion Em; subst. apply div_self_le_one; assumption.
      -- apply div_lt_le_one; try assumption. right. lia.
    * apply div_lt_le_one; try assumption. left. lia.
  + exfalso. lia.
Qed.

End Binary64.

(* ------------------------------------------------------------------ *)
(** ** The similarity test *)

(** The division in [ratio_exceeds] never raises on a non-empty text. *)
Lemma ratio_exceeds_ok (n m : nat) (p : PyFloat.t) :
  (0 < m)%nat -> ratio_exceeds n m p = Ok (Spec.exceeds n m p).
Proof.
  intros Hm. unfold ratio_exceeds, PyFloat.div, Spec.exceeds, PyFloat.gt.
  pose proof (of_int_pos_nonzero (Z.of_nat m) ltac:(lia)) as Hnz.
  destruct (PyFloat.of_int (Z.of_nat m)) as [s| | |] eqn:E; try reflexivity.
  exfalso. exact (Hnz s eq_refl).
Qed.

(** [lines_match] always returns, and its value is the one the
    specification describes. *)
Lemma lines_match_value (l1 l2 : FileDiffLine.t) (params : match_params) :
  let a := Str.strip (FileDiffLine.line_contents l1) in
  let b := Str.strip (FileDiffLine.line_contents l2) in
  let p := min_prefix_length params in
  let k := String.length (Spec.longest_common_prefix a b) in
  lines_match l1 l2 params
  = Ok (if is_empty a && is_empty b then true
        else if is_empty a || is_empty b then false
        else Spec.exceeds k (String.length a) p
             || Spec.exceeds k (String.length b) p).
Proof.
  intros a b p k. unfold lines_match. fold a b p.
  destruct (is_empty a) eqn:Ea; destruct (is_empty b) eqn:Eb; try reflexivity.
  cbn [andb orb]. rewrite commonprefix_lcp. cbn [bind]. fold k.
  apply is_empty_false in Ea, Eb.
  rewrite !ratio_exceeds_ok by assumption. cbn [bind].
  destruct (Spec.exceeds k (String.length a) p); [reflexivity|].
  cbn [bind orb]. now destruct (Spec.exceeds k (String.length b) p).
Qed.

(** C2. The similarity test returns for every two lines and every
    parameter dictionary, and it succeeds exactly when both trimmed texts
    are empty, or both are non-empty and the length of their longest
    common prefix divided by the length of one of them exceeds
    [min_prefix_length] (0.8 when the dictionary does not set it).  On
    "foobar" and "foobaz" the common prefix is "fooba"; the test succeeds
    at 0.8 and fails at 0.9.  Two empty texts match; an empty text and "x"
    do not. *)
Theorem lines_match_characterization :
  (forall (l1 l2 : FileDiffLine.t) (params : match_params),
      let a := Str.strip (FileDiffLine.line_contents l1) in
      let b := Str.strip (FileDiffLine.line_contents l2) in
      let p := min_prefix_length params in
      let k := String.length (Spec.longest_common_prefix a b) in
      (exists r, lines_match l1 l2 params = Ok r)
      /\ (lines_match l1 l2 params = Ok true <->
          (a = EmptyString /\ b = EmptyString)
          \/ (a <> EmptyString /\ b <> EmptyString
              /\ (Spec.exceeds k (String.length a) p = true
                  \/ Spec.exceeds k (String.length b) p = true))))
  /\ min_prefix_length [] = PyFloat.lit_0_8
  /\ Spec.longest_common_prefix "foobar" "foobaz" = "fooba"
  /\ (forall f1 n1 m1 f2 n2 m2,
         let line1 := FileDiffLine.make f1 n1 m1 in
         let line2 := FileDiffLine.make f2 n2 m2 in
         lines_match (line1 "foobar") (line2 "foobaz") [] = Ok true
         /\ lines_match (line1 "foobar") (line2 "foobaz")
              [("min_prefix_length", PyFloat.lit_0_8)] = Ok true
         /\ lines_match (line1 "foobar") (line2 "foobaz")
              [("min_prefix_length", PyFloat.lit_0_9)] = Ok false
         /\ lines_match (line1 "") (line2 "") [] = Ok true
         /\ lines_match (line1 "") (line2 "x") [] = Ok false).
Proof.
  split; [|split; [reflexivity|split; [reflexivity|]]].
  - intros l1 l2 params a b p k.
    pose proof (lines_match_value l1 l2 params) as V. cbv zeta in V.
    fold a b p k in V. rewrite V. split; [eexists; reflexivity|].
    destruct (is_empty a) eqn:Ea; destruct (is_empty b) eqn:Eb; cbn [andb orb].
    + apply is_empty_true in Ea, Eb. split; [intros _; left; now split|reflexivity].
    + apply is_empty_true in Ea. split; [discriminate|].
      intros [[_ Hb]|[Ha _]]; [|contradiction].
      rewrite Hb in Eb. discriminate.
    + apply is_empty_true in Eb. split; [discriminate|].
      intros [[Ha _]|[_ [Hb _]]]; [|contradiction].
      rewrite Ha in Ea. discriminate.
    + assert (Ha : a <> EmptyString) by (intros E; rewrite E in Ea; discriminate).
      assert (Hb : b <> EmptyString) by (intros E; rewrite E in Eb; discriminate).
      split.
      * intros H. injection H as H. apply orb_true_iff in H. right. now repeat split.
      * intros [[E _]|[_ [_ H]]]; [contradiction|].
        f_equal. now apply orb_true_iff.
  - intros f1 n1 m1 f2 n2 m2 line1 line2. repeat split; vm_compute; reflexivity.
Qed.

(** C8. The similarity test is symmetric in its two lines. *)
Theorem lines_match_symmetric (l1 l2 : FileDiffLine.t) (params : match_params) :
  lines_match l1 l2 params = lines_match l2 l1 params.
Proof.
  rewrite !lines_match_value. cbv zeta.
  rewrite (lcp_sym (Str.strip (FileDiffLine.line_contents l2))).
  set (a := Str.strip (FileDiffLine.line_contents l1)).
  set (b := Str.strip (FileDiffLine.line_contents l2)).
  rewrite (andb_comm (is_empty b)), (orb_comm (is_empty b)).
  now rewrite (orb_comm (Spec.exceeds _ (String.length b) _)).
Qed.

(** With the threshold [1.0] no quotient of a prefix length by a text
    length exceeds it. *)
Lemma exceeds_one_false (k n : nat) :
  (k <= n)%nat -> (0 < n)%nat -> Spec.exceeds k n PyFloat.lit_1_0 = false.
Proof.
  intros Hk Hn. unfold Spec.exceeds. apply div_of_int_le_one; lia.
Qed.

(** C10. When [min_prefix_length] is [1.0], the similarity test fails on
    every two lines whose trimmed texts are both non-empty, in particular
    on a non-blank line and itself, and it still succeeds on two blank
    lines. *)
Theorem lines_match_threshold_one
        (l1 l2 : FileDiffLine.t) (params : match_params)
        (Hp : min_prefix_length params = PyFloat.lit_1_0) :
  let a := Str.strip (FileDiffLine.line_contents l1) in
  let b := Str.strip (FileDiffLine.line_contents l2) in
  (a <> EmptyString -> b <> EmptyString -> lines_match l1 l2 params = Ok false)
  /\ (a <> EmptyString -> lines_match l1 l1 params = Ok false)
  /\ (a = EmptyString -> b = EmptyString -> lines_match l1 l2 params = Ok true).
Proof.
  intros a b.
  assert (main : forall x y : FileDiffLine.t,
             Str.strip (FileDiffLine.line_contents x) <> EmptyString ->
             Str.strip (FileDiffLine.line_contents y) <> EmptyString ->
             lines_match x y params = Ok false).
  { intros x y Hx Hy. rewrite lines_match_value. cbv zeta. rewrite Hp.
    destruct (is_empty (Str.strip (FileDiffLine.line_contents x))) eqn:Ex;
      [apply is_empty_true in Ex; contradiction|].
    destruct (is_empty (Str.strip (FileDiffLine.line_contents y))) eqn:Ey;
      [apply is_empty_true in Ey; contradiction|].
    apply is_empty_false in Ex, Ey. cbn [andb orb].
    rewrite !exceeds_one_false;
      auto using lcp_length_l, lcp_length_r. }
  repeat split.
  - apply main.
  - intros Ha. now apply main.
  - intros Ha Hb. rewrite lines_match_value. cbv zeta. fold a b.
    now rewrite Ha, Hb.
Qed.

Lemma lines_match_threshold_one_witness :
  lines_match (FileDiffLine.make (Some "a.txt") (Some 5%Z) None "  return x")
              (FileDiffLine.make (Some "a.txt") None (Some 5%Z) "return x  ")
              [("min_prefix_length", PyFloat.lit_1_0)] = Ok false.
Proof.
  refine (proj1 (lines_match_threshold_one
                   (FileDiffLine.make (Some "a.txt") (Some 5%Z) None "  return x")
                   (FileDiffLine.make (Some "a.txt") None (Some 5%Z) "return x  ")
                   [("min_prefix_length", PyFloat.lit_1_0)] eq_refl) _ _);
    vm_compute; discriminate.
Defined.

(* ------------------------------------------------------------------ *)
(** ** Lookups in a file annotation *)

Lemma first_with_absent (field : LineBlame.t -> Z) (ls : list LineBlame.t)
      (n : Z) :
  (forall l, In l ls -> field l <> n) ->
  FileBlame.first_with field ls n = None.
Proof.
  induction ls as [|x ls IH]; intros H; [reflexivity|].
  cbn [FileBlame.first_with].
  destruct (Z.eqb_spec (field x) n) as [E|_].
  - exfalso. apply (H x); [now left|exact E].
  - apply IH. intros l Hl. apply H. now right.
Qed.

(** A lookup that succeeds returns the first line with that number. *)
Lemma first_with_present (field : LineBlame.t -> Z) (ls : list LineBlame.t)
      (n : Z) (l : LineBlame.t) :
  FileBlame.first_with field ls n = Some l -> In l ls /\ field l = n.
Proof.
  induction ls as [|x ls IH]; [discriminate|].
  cbn [FileBlame.first_with].
  destruct (Z.eqb_spec (field x) n) as [E|_].
  - intros [= <-]. split; [now left|exact E].
  - intros H. destruct (IH H) as [Hin Hf]. split; [now right|exact Hf].
Qed.

(** C6. Looking up a line number that no entry of the annotation carries
    raises [KeyError], by current line number and by original line number
    alike; no value is returned in its place. *)
Theorem get_line_absent_raises (b : FileBlame.t) (n : Z) :
  ((forall l, In l (FileBlame.lines b) -> LineBlame.current_line_number l <> n) ->
   FileBlame.get_line_current b n = Raise (KeyError (KInt n)))
  /\ ((forall l, In l (FileBlame.lines b) -> LineBlame.orig_line_number l <> n) ->
      FileBlame.get_line_orig b n = Raise (KeyError (KInt n))).
Proof.
  split; intros H.
  - unfold FileBlame.get_line_current. now rewrite first_with_absent.
  - unfold FileBlame.get_line_orig. now rewrite first_with_absent.
Qed.

Lemma get_line_absent_raises_witness :
  let b := FileBlame.make (Some "HEAD") "a.txt"
             [LineBlame.make "a.txt" 1 1 "1f2e3d4c" "first";
              LineBlame.make "a.txt" 3 2 "5a6b7c8d" "second"] in
  FileBlame.get_line_current b 3 = Raise (KeyError (KInt 3))
  /\ FileBlame.get_line_orig b 2 = Raise (KeyError (KInt 2)).
Proof.
  intros b. split.
  - refine (proj1 (get_line_absent_raises b 3) _).
    intros l [<-|[<-|[]]]; cbn; lia.
  - refine (proj2 (get_line_absent_raises b 2) _).
    intros l [<-|[<-|[]]]; cbn; lia.
Defined.

(* ------------------------------------------------------------------ *)
(** ** Equality of commits *)

(** C9. Two commits are equal exactly when their hashes are equal; the
    author, the date, the message and the file diffs play no part. *)
Theorem commit_eq_hash :
  (forall c1 c2 : Commit.t,
      Commit.eq c1 c2 = true <-> Commit.hash c1 = Commit.hash c2)
  /\ (forall h a1 d1 f1 m1 a2 d2 f2 m2,
         Commit.eq (Commit.make h a1 d1 f1 m1) (Commit.make h a2 d2 f2 m2)
         = true).
Proof.
  split.
  - intros c1 c2. unfold Commit.eq. apply String.eqb_eq.
  - intros. unfold Commit.eq. cbn. apply String.eqb_refl.
Qed.

(* ------------------------------------------------------------------ *)
(** ** The change-set parser *)

Lemma startswith_head (c d : ascii) (p r : string) :
  Str.startswith (String d r) (String c p)
  = if Ascii.eqb c d then Str.startswith r p else false.
Proof.
  unfold Str.startswith. cbn [String.prefix].
  destruct (ascii_dec c d) as [->|Hne].
  - now rewrite ascii_eqb_refl.
  - apply Ascii.eqb_neq in Hne. now rewrite Hne.
Qed.

Lemma startswith_nil (s : string) : Str.startswith s EmptyString = true.
Proof. now destruct s. Qed.

Lemma startswith_empty (p : string) :
  Str.startswith EmptyString p = is_empty p.
Proof. now destruct p. Qed.

(** A text that begins with the character [c]. *)
Lemma startswith_char (line : string) (c : ascii) :
  Str.startswith line (String c EmptyString) = true ->
  exists r, line = String c r.
Proof.
  destruct line as [|d r]; [discriminate|].
  rewrite startswith_head. destruct (Ascii.eqb_spec c d) as [->|]; [|discriminate].
  intros _. now exists r.
Qed.

Lemma position_match_head (line : string) (a b : Z) :
  FileDiff.position_match line = Some (a, b) -> exists r, line = String "@" r.
Proof.
  unfold FileDiff.position_match, FileDiff.expect.
  destruct (Str.startswith line "@@ -") eqn:E; [|discriminate].
  intros _. destruct line as [|d r]; [discriminate|].
  rewrite startswith_head in E.
  destruct (Ascii.eqb_spec "@" d) as [<-|]; [|discriminate]. now exists r.
Qed.

Lemma expect_app (p s : string) : FileDiff.expect p (p ++ s) = Some s.
Proof.
  unfold FileDiff.expect.
  assert (H : Str.startswith (p ++ s) p = true /\ Str.drop (String.length p) (p ++ s) = s).
  { induction p as [|c p [IH1 IH2]]; [now destruct s|].
    cbn [append String.length Str.drop]. rewrite startswith_head, ascii_eqb_refl.
    now split. }
  destruct H as [-> ->]. reflexivity.
Qed.

(** The digits of a header number are read back as written. *)
Lemma span_digits_app (d rest : string) :
  Str.forallb Str.is_ascii_digit d = true ->
  (forall c r, rest = String c r -> Str.is_ascii_digit c = false) ->
  Str.span_digits (d ++ rest) = (d, rest).
Proof.
  intros Hd Hrest. induction d as [|c d IH].
  - cbn [append]. destruct rest as [|c r]; [reflexivity|].
    cbn [Str.span_digits]. now rewrite (Hrest c r eq_refl).
  - cbn [Str.forallb] in Hd. apply andb_true_iff in Hd as [Hc Hd].
    cbn [append Str.span_digits]. rewrite Hc, (IH Hd). reflexivity.
Qed.

Lemma number_app (d rest : string) :
  d <> EmptyString -> Str.forallb Str.is_ascii_digit d = true ->
  (forall c r, rest = String c r -> Str.is_ascii_digit c = false) ->
  FileDiff.number (d ++ rest) = Some (Str.int_of_digits d, rest).
Proof.
  intros Hne Hd Hrest. unfold FileDiff.number.
  rewrite span_digits_app by assumption.
  destruct d; [contradiction|reflexivity].
Qed.

(** A hunk header [@@ -a,b +c,d @@ ...] yields its two start values. *)
Lemma position_match_header (d1 d2 d3 d4 rest : string) :
  d1 <> EmptyString -> d2 <> EmptyString ->
  d3 <> EmptyString -> d4 <> EmptyString ->
  Str.forallb Str.is_ascii_digit d1 = true ->
  Str.forallb Str.is_ascii_digit d2 = true ->
  Str.forallb Str.is_ascii_digit d3 = true ->
  Str.forallb Str.is_ascii_digit d4 = true ->
  FileDiff.position_match
    ("@@ -" ++ d1 ++ "," ++ d2 ++ " +" ++ d3 ++ "," ++ d4 ++ " @@" ++ rest)
  = Some (Str.int_of_digits d1, Str.int_of_digits d3).
Proof.
  intros N1 N2 N3 N4 D1 D2 D3 D4.
  unfold FileDiff.position_match.
  rewrite expect_app.
  rewrite (number_app d1) by (try assumption; intros c r [= <- _]; reflexivity).
  rewrite expect_app.
  rewrite (number_app d2) by (try assumption; intros c r [= <- _]; reflexivity).
  rewrite expect_app.
  rewrite (number_app d3) by (try assumption; intros c r [= <- _]; reflexivity).
  rewrite expect_app.
  rewrite (number_app d4) by (try assumption; intros c r [= <- _]; reflexivity).
  rewrite expect_app.
  reflexivity.
Qed.

(** The three kinds of body line, once a hunk header has been seen. *)
Lemma step_body_line (st : FileDiff.state) (c : ascii) (rest : string)
      (l r : Z) :
  FileDiff.counters st = Some (l, r) ->
  c = " "%char \/ c = "-"%char \/ c = "+"%char ->
  FileDiff.step st (String c rest) = FileDiff.step_body st (String c rest)
  /\ FileDiff.position_match (String c rest) = None.
Proof.
  intros Hc Hkind. split.
  - unfold FileDiff.step, FileDiff.parsing_contents.
    rewrite Hc, !startswith_head. cbn [negb]. rewrite andb_false_r.
    destruct Hkind as [-> | [-> | ->]]; cbv [Ascii.eqb Bool.eqb]; reflexivity.
  - unfold FileDiff.position_match, FileDiff.expect.
    rewrite startswith_head.
    destruct Hkind as [-> | [-> | ->]]; reflexivity.
Qed.

Lemma step_context (st : FileDiff.state) (line : string) (l r : Z) :
  FileDiff.counters st = Some (l, r) ->
  Str.startswith line " " = true ->
  FileDiff.step st line
  = Ok (FileDiff.append st (Some l) (Some r) (Str.rstrip (Str.drop 1 line))
          (l + 1, r + 1)%Z).
Proof.
  intros Hc Hs. apply startswith_char in Hs as [rest ->].
  destruct (step_body_line st " " rest l r Hc ltac:(tauto)) as [-> Hp].
  unfold FileDiff.step_body. rewrite Hp, Hc, !startswith_head, !startswith_nil.
  reflexivity.
Qed.

Lemma step_deletion (st : FileDiff.state) (line : string) (l r : Z) :
  FileDiff.counters st = Some (l, r) ->
  Str.startswith line "-" = true ->
  FileDiff.step st line
  = Ok (FileDiff.append st (Some l) None (Str.rstrip (Str.drop 1 line))
          (l + 1, r)%Z).
Proof.
  intros Hc Hs. apply startswith_char in Hs as [rest ->].
  destruct (step_body_line st "-" rest l r Hc ltac:(tauto)) as [-> Hp].
  unfold FileDiff.step_body. rewrite Hp, Hc, !startswith_head, !startswith_nil.
  reflexivity.
Qed.

Lemma step_addition (st : FileDiff.state) (line : string) (l r : Z) :
  FileDiff.counters st = Some (l, r) ->
  Str.startswith line "+" = true ->
  FileDiff.step st line
  = Ok (FileDiff.append st None (Some r) (Str.rstrip (Str.drop 1 line))
          (l, r + 1)%Z).
Proof.
  intros Hc Hs. apply startswith_char in Hs as [rest ->].
  destruct (step_body_line st "+" rest l r Hc ltac:(tauto)) as [-> Hp].
  unfold FileDiff.step_body. rewrite Hp, Hc, !startswith_head, !startswith_nil.
  reflexivity.
Qed.

Lemma step_header (st : FileDiff.state) (line : string) (a b : Z) :
  FileDiff.position_match line = Some (a, b) ->
  FileDiff.step st line
  = Ok (FileDiff.mk_state (FileDiff.st_lines st) (FileDiff.st_filename st)
          (Some (a, b))).
Proof.
  intros Hp. destruct (position_match_head line a b Hp) as [rest ->].
  unfold FileDiff.step. rewrite !startswith_head. cbn [Ascii.eqb Bool.eqb orb andb].
  unfold FileDiff.step_body. now rewrite Hp.
Qed.

Lemma step_other (st : FileDiff.state) (line : string) (l r : Z) :
  FileDiff.counters st = Some (l, r) ->
  Spec.is_body_line line = false ->
  FileDiff.position_match line = None ->
  exists msg, FileDiff.step st line = Raise (AssertionError msg).
Proof.
  intros Hc Hb Hp. unfold Spec.is_body_line in Hb.
  apply orb_false_iff in Hb as [Hb Hplus]. apply orb_false_iff in Hb as [Hsp Hmi].
  unfold FileDiff.step, FileDiff.parsing_contents. rewrite Hc. cbn [negb andb].
  destruct (Str.startswith line "diff"); [now eexists|].
  destruct (Str.startswith line "index"); [now eexists|].
  rewrite andb_false_r.
  unfold FileDiff.step_body. rewrite Hp, Hc, Hsp, Hmi, Hplus. now eexists.
Qed.

(** C4. A hunk header sets the two counters to its start values.  After
    it, a line that begins with a space yields a [FileDiffLine] with both
    counters and advances both; a line that begins with [-] yields one
    with the pre-image counter only and advances that counter; a line that
    begins with [+] yields one with the post-image counter only and
    advances that counter; any other line that is not a hunk header makes
    the parser fail with [AssertionError].  The patch of the
    specification (header [-10,3 +10,4], one addition) parses to the four
    lines expected. *)
Theorem hunk_body_step :
  (forall (st : FileDiff.state) (line : string),
      (forall a b,
          FileDiff.position_match line = Some (a, b) ->
          FileDiff.step st line
          = Ok (FileDiff.mk_state (FileDiff.st_lines st)
                  (FileDiff.st_filename st) (Some (a, b))))
      /\ (forall l r,
             FileDiff.counters st = Some (l, r) ->
             let text := Str.rstrip (Str.drop 1 line) in
             let emit left right :=
               FileDiff.st_lines st
               ++ [FileDiffLine.make (FileDiff.st_filename st) left right text] in
             (Str.startswith line " " = true ->
              FileDiff.step st line
              = Ok (FileDiff.mk_state (emit (Some l) (Some r))
                      (FileDiff.st_filename st) (Some (l + 1, r + 1)%Z)))
             /\ (Str.startswith line "-" = true ->
                 FileDiff.step st line
                 = Ok (FileDiff.mk_state (emit (Some l) None)
                         (FileDiff.st_filename st) (Some (l + 1, r)%Z)))
             /\ (Str.startswith line "+" = true ->
                 FileDiff.step st line
                 = Ok (FileDiff.mk_state (emit None (Some r))
                         (FileDiff.st_filename st) (Some (l, r + 1)%Z)))
             /\ (Spec.is_body_line line = false ->
                 FileDiff.position_match line = None ->
                 exists msg,
                   FileDiff.step st line = Raise (AssertionError msg))))
  /\ (forall d1 d2 d3 d4 rest,
         d1 <> EmptyString -> d2 <> EmptyString ->
         d3 <> EmptyString -> d4 <> EmptyString ->
         Str.forallb Str.is_ascii_digit (d1 ++ d2 ++ d3 ++ d4) = true ->
         FileDiff.position_match
           ("@@ -" ++ d1 ++ "," ++ d2 ++ " +" ++ d3 ++ "," ++ d4 ++ " @@" ++ rest)
         = Some (Str.int_of_digits d1, Str.int_of_digits d3))
  /\ FileDiff.init
       ["diff --git a/a.txt b/a.txt"; "index 83db48f..bf269f4 100644";
        "--- a/a.txt"; "+++ b/a.txt"; "@@ -10,3 +10,4 @@ def f():";
        " one"; "+new"; " two"; " three"]
     = Ok (FileDiff.make
             [FileDiffLine.make (Some "a.txt") (Some 10%Z) (Some 10%Z) "one";
              FileDiffLine.make (Some "a.txt") None (Some 11%Z) "new";
              FileDiffLine.make (Some "a.txt") (Some 11%Z) (Some 12%Z) "two";
              FileDiffLine.make (Some "a.txt") (Some 12%Z) (Some 13%Z) "three"]
             (Some "a.txt")).
Proof.
  split; [|split].
  - intros st line. split.
    + intros a b. apply step_header.
    + intros l r Hc text emit. repeat split.
      * intros H. now rewrite (step_context st line l r Hc H).
      * intros H. now rewrite (step_deletion st line l r Hc H).
      * intros H. now rewrite (step_addition st line l r Hc H).
      * now apply step_other with (l := l) (r := r).
  - intros d1 d2 d3 d4 rest N1 N2 N3 N4 D.
    assert (Happ : forall x y, Str.forallb Str.is_ascii_digit (x ++ y) = true ->
                     Str.forallb Str.is_ascii_digit x = true
                     /\ Str.forallb Str.is_ascii_digit y = true).
    { induction x as [|c x IH]; intros y H; [now split|].
      cbn [append Str.forallb] in *. apply andb_true_iff in H as [Hc H].
      destruct (IH y H) as [Hx Hy]. now rewrite Hc, Hx. }
    apply Happ in D as [D1 D]. apply Happ in D as [D2 D]. apply Happ in D as [D3 D4].
    now apply position_match_header.
  - vm_compute. reflexivity.
Qed.

Lemma hunk_body_step_witness :
  let st := FileDiff.mk_state [] (Some "a.txt") (Some (10, 10)%Z) in
  FileDiff.step st "+new  "
  = Ok (FileDiff.mk_state
          [FileDiffLine.make (Some "a.txt") None (Some 10%Z) "new"]
          (Some "a.txt") (Some (10, 11)%Z))
  /\ (exists msg, FileDiff.step st "\ No newline at end of file"
                  = Raise (AssertionError msg))
  /\ FileDiff.position_match "@@ -10,3 +10,4 @@" = Some (10, 10)%Z.
Proof.
  intros st.
  pose proof (proj1 hunk_body_step st "+new  ") as [_ Hplus].
  pose proof (proj1 hunk_body_step st "\ No newline at end of file") as [_ Hother].
  split; [|split].
  - exact (proj1 (proj2 (proj2 (Hplus 10%Z 10%Z eq_refl))) eq_refl).
  - exact (proj2 (proj2 (proj2 (Hother 10%Z 10%Z eq_refl))) eq_refl eq_refl).
  - refine (proj1 (proj2 hunk_body_step) "10" "3" "10" "4" "" _ _ _ _ eq_refl);
      discriminate.
Defined.

(** Within a hunk: what one successful step can have done. *)
Lemma step_in_hunk (st st1 : FileDiff.state) (line : string) (l r : Z) :
  FileDiff.counters st = Some (l, r) ->
  FileDiff.position_match line = None ->
  FileDiff.step st line = Ok st1 ->
  exists x,
    FileDiff.st_lines st1 = FileDiff.st_lines st ++ [x]
    /\ FileDiff.counters st1
       = Some ((l + Z.of_nat (List.length (Spec.lefts [x])))%Z,
               (r + Z.of_nat (List.length (Spec.rights [x])))%Z)
    /\ Spec.lefts [x] = Spec.zseq l (List.length (Spec.lefts [x]))
    /\ Spec.rights [x] = Spec.zseq r (List.length (Spec.rights [x])).
Proof.
  intros Hc Hp Hstep.
  destruct (Spec.is_body_line line) eqn:Hb.
  - unfold Spec.is_body_line in Hb.
    apply orb_true_iff in Hb as [Hb|Hplus];
      [apply orb_true_iff in Hb as [Hsp|Hmi]|].
    + rewrite (step_context st line l r Hc Hsp) in Hstep. injection Hstep as <-.
      eexists. split; [reflexivity|]. cbn. repeat split; repeat f_equal; lia.
    + rewrite (step_deletion st line l r Hc Hmi) in Hstep. injection Hstep as <-.
      eexists. split; [reflexivity|]. cbn. repeat split; repeat f_equal; lia.
    + rewrite (step_addition st line l r Hc Hplus) in Hstep. injection Hstep as <-.
      eexists. split; [reflexivity|]. cbn. repeat split; repeat f_equal; lia.
  - destruct (step_other st line l r Hc Hb Hp) as [msg E].
    rewrite E in Hstep. discriminate.
Qed.

Lemma lefts_app (a b : list FileDiffLine.t) :
  Spec.lefts (a ++ b) = Spec.lefts a ++ Spec.lefts b.
Proof. unfold Spec.lefts. apply flat_map_app. Qed.

Lemma rights_app (a b : list FileDiffLine.t) :
  Spec.rights (a ++ b) = Spec.rights a ++ Spec.rights b.
Proof. unfold Spec.rights. apply flat_map_app. Qed.

Lemma zseq_app (start : Z) (n m : nat) :
  Spec.zseq start (n + m)
  = Spec.zseq start n ++ Spec.zseq (start + Z.of_nat n)%Z m.
Proof.
  revert start. induction n as [|n IH]; intros start.
  - cbn. f_equal. lia.
  - cbn [Nat.add Spec.zseq app]. rewrite IH. do 3 f_equal. lia.
Qed.

(** C7. Within one hunk (the counters are set and no further header
    intervenes), the lines that a successful parse appends carry, among
    those that have a pre-image number, the numbers [l, l+1, l+2, ...] in
    order, and among those that have a post-image number, the numbers
    [r, r+1, r+2, ...]: each numbering goes up by exactly one from one line
    that has it to the next. *)
Theorem hunk_numbers_consecutive
        (body : list string) (st st' : FileDiff.state) (l r : Z)
        (Hcounters : FileDiff.counters st = Some (l, r))
        (Hhunk : Forall (fun line => FileDiff.position_match line = None) body)
        (Hrun : FileDiff.run st body = Ok st') :
  exists new,
    FileDiff.st_lines st' = FileDiff.st_lines st ++ new
    /\ Spec.lefts new = Spec.zseq l (List.length (Spec.lefts new))
    /\ Spec.rights new = Spec.zseq r (List.length (Spec.rights new))
    /\ FileDiff.counters st'
       = Some ((l + Z.of_nat (List.length (Spec.lefts new)))%Z,
               (r + Z.of_nat (List.length (Spec.rights new)))%Z).
Proof.
  revert st l r Hcounters Hrun.
  induction Hhunk as [|line body Hp _ IH]; intros st l r Hc Hrun.
  - cbn in Hrun. injection Hrun as <-. exists [].
    cbn. rewrite app_nil_r, Hc. repeat split. f_equal. f_equal; lia.
  - cbn [FileDiff.run] in Hrun.
    destruct (FileDiff.step st line) as [st1|e] eqn:E1; [|discriminate].
    cbn [bind] in Hrun.
    destruct (step_in_hunk st st1 line l r Hc Hp E1) as (x & Hl1 & Hc1 & Hx1 & Hx2).
    destruct (IH st1 _ _ Hc1 Hrun) as (new & Hl & Hlefts & Hrights & Hc').
    exists (x :: new). change (x :: new) with ([x] ++ new).
    rewrite lefts_app, rights_app, !length_app, !zseq_app.
    rewrite Hl, Hl1, <- app_assoc. repeat split.
    + now rewrite <- Hx1, <- Hlefts.
    + now rewrite <- Hx2, <- Hrights.
    + rewrite Hc'. f_equal. f_equal; lia.
Qed.

(** A hunk made of body lines only is always parsed. *)
Lemma hunk_run_total (body : list string) (st : FileDiff.state) (l r : Z) :
  FileDiff.counters st = Some (l, r) ->
  Forall (fun line => Spec.is_body_line line = true) body ->
  exists st', FileDiff.run st body = Ok st'.
Proof.
  intros Hc Hb. revert st l r Hc.
  induction Hb as [|line body Hline _ IH]; intros st l r Hc.
  - now exists st.
  - cbn [FileDiff.run]. unfold Spec.is_body_line in Hline.
    apply orb_true_iff in Hline as [Hline|Hplus];
      [apply orb_true_iff in Hline as [Hsp|Hmi]|].
    + rewrite (step_context st line l r Hc Hsp). cbn [bind]. now eapply IH.
    + rewrite (step_deletion st line l r Hc Hmi). cbn [bind]. now eapply IH.
    + rewrite (step_addition st line l r Hc Hplus). cbn [bind]. now eapply IH.
Qed.

Lemma hunk_numbers_consecutive_witness :
  exists new,
    new = [FileDiffLine.make (Some "a.txt") (Some 10%Z) (Some 10%Z) "one";
           FileDiffLine.make (Some "a.txt") None (Some 11%Z) "new";
           FileDiffLine.make (Some "a.txt") (Some 11%Z) None "old";
           FileDiffLine.make (Some "a.txt") (Some 12%Z) (Some 12%Z) "two"]
    /\ Spec.lefts new = [10; 11; 12]%Z
    /\ Spec.rights new = [10; 11; 12]%Z.
Proof.
  destruct (hunk_numbers_consecutive
              [" one"; "+new"; "-old"; " two"]
              (FileDiff.mk_state [] (Some "a.txt") (Some (10, 10)%Z))
              (FileDiff.mk_state
                 [FileDiffLine.make (Some "a.txt") (Some 10%Z) (Some 10%Z) "one";
                  FileDiffLine.make (Some "a.txt") None (Some 11%Z) "new";
                  FileDiffLine.make (Some "a.txt") (Some 11%Z) None "old";
                  FileDiffLine.make (Some "a.txt") (Some 12%Z) (Some 12%Z) "two"]
                 (Some "a.txt") (Some (13, 13)%Z))
              10%Z 10%Z eq_refl
              ltac:(repeat constructor)
              eq_refl)
    as (new & Hl & Hlefts & Hrights & _).
  cbn [FileDiff.st_lines app] in Hl. subst new.
  eexists. split; [reflexivity|]. split; reflexivity.
Defined.

(* ------------------------------------------------------------------ *)
(** ** Rendering *)

Lemma opt_Z_eqb_eq (a b : option Z) : opt_eqb Z.eqb a b = true <-> a = b.
Proof.
  destruct a as [x|], b as [y|]; cbn; split; try congruence.
  - intros H. apply Z.eqb_eq in H. now subst.
  - intros [= ->]. apply Z.eqb_refl.
Qed.

Lemma opt_string_eqb_eq (a b : option string) :
  opt_eqb String.eqb a b = true <-> a = b.
Proof.
  destruct a as [x|], b as [y|]; cbn; split; try congruence.
  - intros H. apply String.eqb_eq in H. now subst.
  - intros [= ->]. apply String.eqb_refl.
Qed.

Lemma pos_eqb_eq (a b : pos_key) : pos_eqb a b = true <-> a = b.
Proof.
  destruct a as [a1 a2], b as [b1 b2]. unfold pos_eqb. cbn [fst snd].
  rewrite andb_true_iff, !opt_Z_eqb_eq. split; [intros [-> ->]|intros [= -> ->]]; auto.
Qed.

Lemma match_eqb_eq (a b : match_key) : match_eqb a b = true <-> a = b.
Proof.
  destruct a as [[a0 a1] a2], b as [[b0 b1] b2]. unfold match_eqb. cbn [fst snd].
  rewrite !andb_true_iff, !opt_Z_eqb_eq, opt_string_eqb_eq.
  split; [intros [[-> ->] ->]|intros [= -> -> ->]]; auto.
Qed.

(** The keys of a dictionary after an assignment. *)
Lemma dict_set_keys {K V : Type} (eqb : K -> K -> bool)
      (d : @Dict.t K V) (k k0 : K) (v : V) :
  In k0 (Dict.keys (Dict.set eqb d k v)) -> In k0 (Dict.keys d) \/ k0 = k.
Proof.
  induction d as [|[k' v'] d IH]; cbn.
  - intros [<-|[]]. now right.
  - destruct (eqb k k'); cbn.
    + intros [<-|H]; left; [now left|now right].
    + intros [<-|H]; [left; now left|].
      destruct (IH H) as [H'|H']; [left; now right|now right].
Qed.

(** A line is shown exactly when it is nearer than the context distance
    to some highlighted position, in one of the two numberings. *)
Lemma should_show_line_spec (n : Z) (hl : @Dict.t pos_key string)
      (l : FileDiffLine.t) :
  FileDiffPrint.should_show_line (Some n) hl l
  = existsb (fun entry : pos_key * string =>
               FileDiffPrint.near n (FileDiffLine.left_line_num l) (fst (fst entry))
               || FileDiffPrint.near n (FileDiffLine.right_line_num l) (snd (fst entry)))
            hl.
Proof.
  unfold FileDiffPrint.should_show_line.
  assert (G : forall acc,
             fold_left
               (fun shown (entry : pos_key * string) =>
                  let '((left_num, right_num), _) := entry in
                  let shown1 :=
                    if FileDiffPrint.near n (FileDiffLine.left_line_num l) left_num
                    then true else shown in
                  if FileDiffPrint.near n (FileDiffLine.right_line_num l) right_num
                  then true else shown1) hl acc
             = acc || existsb
                 (fun entry : pos_key * string =>
                    FileDiffPrint.near n (FileDiffLine.left_line_num l) (fst (fst entry))
                    || FileDiffPrint.near n (FileDiffLine.right_line_num l) (snd (fst entry)))
                 hl).
  { induction hl as [|[[a b] v] hl IH]; intros acc; cbn [fold_left existsb fst snd].
    - now rewrite orb_false_r.
    - rewrite IH.
      destruct (FileDiffPrint.near n (FileDiffLine.left_line_num l) a);
        destruct (FileDiffPrint.near n (FileDiffLine.right_line_num l) b);
        destruct acc; reflexivity. }
  apply G.
Qed.

Lemma near_not_far (n : Z) (a b : option Z) :
  FileDiffPrint.near n a b = true -> Spec.far n a b -> False.
Proof.
  destruct a as [x|], b as [y|]; cbn; try discriminate.
  intros H F. apply Z.ltb_lt in H. lia.
Qed.

(** The highlights handed to one file are highlights of that file. *)
Lemma this_file_keys (d : FileDiff.t) (hl : @Dict.t match_key string)
      (k : pos_key) :
  In k (Dict.keys (Commit.this_file_highlight_lines d hl)) ->
  exists h, In h (Spec.highlights_of d hl) /\ (snd (fst h), snd h) = k.
Proof.
  unfold Commit.this_file_highlight_lines, Spec.highlights_of.
  assert (G : forall acc,
             In k (Dict.keys
                     (fold_left
                        (fun this (entry : match_key * string) =>
                           let '((filename, left_num, right_num), highlight_char) := entry in
                           if opt_eqb String.eqb filename (FileDiff.filename d)
                           then Dict.set pos_eqb this (left_num, right_num) highlight_char
                           else this) hl acc)) ->
             In k (Dict.keys acc)
             \/ exists h,
                 In h (filter (fun h : match_key =>
                                 opt_eqb String.eqb (fst (fst h)) (FileDiff.filename d))
                              (Dict.keys hl))
                 /\ (snd (fst h), snd h) = k).
  { induction hl as [|[[[f a] b] v] hl IH]; intros acc H; cbn [fold_left] in H.
    - now left.
    - cbn [Dict.keys map filter fst snd].
      destruct (opt_eqb String.eqb f (FileDiff.filename d)) eqn:Ef.
      + destruct (IH _ H) as [H'|[h [Hh Hk]]].
        * apply dict_set_keys in H' as [H' | ->]; [now left|].
          right. exists (f, a, b). split; [now left|reflexivity].
        * right. exists h. split; [now right|exact Hk].
      + destruct (IH _ H) as [H'|[h [Hh Hk]]]; [now left|].
        right. now exists h. }
  intros H. destruct (G [] H) as [[]|H']. exact H'.
Qed.

Lemma this_file_empty (d : FileDiff.t) (hl : @Dict.t match_key string) :
  Spec.highlights_of d hl = [] -> Commit.this_file_highlight_lines d hl = [].
Proof.
  intros H. destruct (Commit.this_file_highlight_lines d hl) as [|[k v] rest] eqn:E;
    [reflexivity|].
  destruct (this_file_keys d hl k) as [h [Hh _]].
  - rewrite E. now left.
  - rewrite H in Hh. destruct Hh.
Qed.

(** What one file contributes to the display under clipping. *)
Lemma print_file_clipped (d : FileDiff.t) (hl : @Dict.t match_key string)
      (n : Z) (part : list event) :
  Commit.print_file d hl (Some n) = Ok part ->
  (forall l,
      (forall h, In h (Spec.highlights_of d hl) -> Spec.far_from n l h) ->
      forall lab, ~ In (WriteLine lab l) part)
  /\ (Spec.highlights_of d hl = [] -> part = []).
Proof.
  unfold Commit.print_file. intros Hprint. split.
  - intros l Hfar lab Hin. cbn [is_some andb] in Hprint.
    destruct (is_empty_list (Commit.this_file_highlight_lines d hl)).
    { injection Hprint as <-. destruct Hin. }
    unfold FileDiffPrint.print_stream in Hprint.
    destruct (FileDiff.lines d) as [|x ls] eqn:El.
    { cbn in Hprint. injection Hprint as <-. cbn in Hin.
      destruct Hin as [H|[H|[]]]; discriminate. }
    destruct (forallb FileDiffPrint.margin_ok (x :: ls)); [|discriminate].
    remember (flat_map _ (x :: ls)) as shown eqn:Eshown in Hprint.
    cbn [bind] in Hprint. injection Hprint as <-.
    apply in_app_or in Hin as [Hin|[H|[]]]; [|discriminate].
    rewrite Eshown in Hin.
    apply in_flat_map in Hin as [l' [_ Hin]].
    destruct (FileDiffPrint.should_show_line (Some n)
                (Commit.this_file_highlight_lines d hl) l') eqn:Eshow;
      [|destruct Hin].
    destruct Hin as [[= _ <-]|[]].
    rewrite should_show_line_spec in Eshow.
    apply existsb_exists in Eshow as [[k v] [Hk Hnear]]. cbn [fst snd] in Hnear.
    destruct (this_file_keys d hl k) as [h [Hh Ek]].
    { apply in_map_iff. exists (k, v). now split. }
    destruct (Hfar h Hh) as [Fl Fr]. subst k. cbn [fst snd] in Hnear.
    apply orb_true_iff in Hnear as [N|N]; eapply near_not_far; eassumption.
  - intros H. rewrite (this_file_empty d hl H) in Hprint. cbn in Hprint.
    now injection Hprint as <-.
Qed.

Lemma print_files_parts (items : list (option string * FileDiff.t))
      (hl : @Dict.t match_key string) (ctx : option Z) (evs : list event) :
  Commit.print_files items hl ctx = Ok evs ->
  exists parts,
    evs = List.concat parts
    /\ Forall2 (fun item part => Commit.print_file (snd item) hl ctx = Ok part)
               items parts.
Proof.
  revert evs. induction items as [|[k d] items IH]; intros evs H.
  - cbn in H. injection H as <-. exists []. split; [reflexivity|constructor].
  - cbn [Commit.print_files] in H.
    destruct (Commit.print_file d hl ctx) as [part|] eqn:Ep; [|discriminate].
    cbn [bind] in H.
    destruct (Commit.print_files items hl ctx) as [more|]; [|discriminate].
    cbn [bind] in H. injection H as <-.
    destruct (IH more eq_refl) as [parts [-> F]].
    exists (part :: parts). split; [reflexivity|]. constructor; [exact Ep|exact F].
Qed.

(** C5. When some line is highlighted and full diffs were not asked for,
    the context distance is 10, and the display of a revision is its
    header followed by one part per file, file by file, such that: no line
    of a file is written that is farther than 10 from every highlighted
    position of that file in both numberings; and a file without any
    highlighted position contributes nothing at all. *)
Theorem rendering_clips_to_context
        (c : Commit.t) (hl : @Dict.t match_key string) (full_diffs : bool)
        (evs : list event)
        (Hsome : hl <> [])
        (Hclip : full_diffs = false)
        (Hprint : Commit.print_stream c hl (context_around_highlights full_diffs hl)
                  = Ok evs) :
  context_around_highlights full_diffs hl = Some 10%Z
  /\ exists items parts,
      Sorting.sorted Sorting.item_lt (Commit.file_diffs c) = Ok items
      /\ evs = WriteHeader (Commit.hash c) (Commit.author c) (Commit.date c)
                 (Commit.commit_message c) :: List.concat parts
      /\ Forall2
           (fun (item : option string * FileDiff.t) (part : list event) =>
              let d := snd item in
              Commit.print_file d hl (Some 10%Z) = Ok part
              /\ (forall l,
                     (forall h, In h (Spec.highlights_of d hl) ->
                                Spec.far_from 10 l h) ->
                     forall lab, ~ In (WriteLine lab l) part)
              /\ (Spec.highlights_of d hl = [] -> part = []))
           items parts.
Proof.
  assert (Hctx : context_around_highlights full_diffs hl = Some 10%Z).
  { unfold context_around_highlights. rewrite Hclip.
    destruct hl; [contradiction|reflexivity]. }
  split; [exact Hctx|]. rewrite Hctx in Hprint.
  unfold Commit.print_stream in Hprint.
  destruct (Sorting.sorted Sorting.item_lt (Commit.file_diffs c)) as [items|];
    [|discriminate].
  cbn [bind] in Hprint.
  destruct (Commit.print_files items hl (Some 10%Z)) as [evs'|] eqn:Ef;
    [|discriminate].
  cbn [bind] in Hprint. injection Hprint as <-.
  destruct (print_files_parts items hl (Some 10%Z) evs' Ef) as [parts [-> F]].
  exists items, parts. repeat split.
  clear Ef. induction F as [|item part items parts Hp _ IH].
  - constructor.
  - constructor; [|exact IH].
    cbv zeta. split; [exact Hp|]. now apply print_file_clipped.
Qed.

Lemma rendering_clips_to_context_witness :
  let near_line := FileDiffLine.make (Some "a.txt") (Some 5%Z) (Some 5%Z) "x = 1" in
  let edge_line := FileDiffLine.make (Some "a.txt") (Some 15%Z) (Some 15%Z) "w = 4" in
  let far_line := FileDiffLine.make (Some "a.txt") (Some 40%Z) (Some 41%Z) "y = 2" in
  let other := FileDiffLine.make (Some "b.txt") (Some 5%Z) (Some 5%Z) "z = 3" in
  let c := Commit.make "0a1b2c" (Some "A") (Some "D")
             [(Some "b.txt", FileDiff.make [other] (Some "b.txt"));
              (Some "a.txt",
               FileDiff.make [near_line; edge_line; far_line] (Some "a.txt"))]
             "msg" in
  let hl : @Dict.t match_key string :=
    [((Some "a.txt", Some 5%Z, Some 5%Z), "1")] in
  let evs := [WriteHeader "0a1b2c" (Some "A") (Some "D") "msg";
              WriteLine (Some "1") near_line; WriteNewline] in
  Commit.print_stream c hl (context_around_highlights false hl) = Ok evs
  /\ context_around_highlights false hl = Some 10%Z.
Proof.
  intros near_line edge_line far_line other c hl evs.
  split; [reflexivity|].
  exact (proj1 (rendering_clips_to_context c hl false evs
                  ltac:(discriminate) eq_refl eq_refl)).
Defined.

(* ------------------------------------------------------------------ *)
(** ** Candidate matches *)

(** [sorted] on dictionary items whose keys are present and distinct:
    it returns, with the same items, in strictly increasing key order. *)
Lemma item_lt_some {V : Type} (kx ky : string) (vx vy : V) :
  Sorting.item_lt (Some kx, vx) (Some ky, vy)
  = if String.eqb kx ky then Raise TypeError else Ok (kx <? ky)%string.
Proof. reflexivity. Qed.

Lemma insert_sorted {V : Type} (x : option string * V)
      (l : list (option string * V)) :
  is_some (fst x) = true ->
  Forall (fun y => is_some (fst y) = true /\ fst y <> fst x) l ->
  Sorted Spec.name_before l ->
  exists l',
    Sorting.insert Sorting.item_lt x l = Ok l'
    /\ Permutation (x :: l) l'
    /\ Sorted Spec.name_before l'
    /\ (forall y, HdRel Spec.name_before y l ->
                  Spec.name_before y x -> HdRel Spec.name_before y l').
Proof.
  intros Hx. induction l as [|y l IH]; intros Hall Hs.
  - exists [x]. repeat split; auto.
  - inversion Hall as [|? ? [Hy Hne] Hall']; subst.
    inversion Hs as [|? ? Hs' Hhd]; subst.
    destruct x as [[kx|] vx]; [|discriminate].
    destruct y as [[ky|] vy]; [|discriminate]. cbn [fst] in *.
    cbn [Sorting.insert]. rewrite item_lt_some.
    destruct (String.eqb_spec kx ky) as [->|Hk]; [congruence|].
    cbn [bind]. destruct (kx <? ky)%string eqn:Elt.
    + eexists. repeat split.
      * apply Permutation_refl.
      * constructor; [exact Hs|]. constructor. exact Elt.
      * intros z _ Hz. constructor. exact Hz.
    + destruct (IH Hall' Hs') as (l' & -> & Hperm & Hsorted & Hhd').
      cbn [bind]. eexists. repeat split.
      * rewrite perm_swap. now constructor.
      * constructor; [exact Hsorted|]. apply Hhd'; [exact Hhd|].
        unfold Spec.name_before. cbn [fst].
        destruct (ky <? kx)%string eqn:Egt; [reflexivity|].
        exfalso. apply Hk. now apply string_ltb_total.
      * intros z Hz _. inversion Hz; subst. now constructor.
Qed.

Lemma sorted_items_ok {V : Type} (d : list (option string * V)) :
  Forall (fun y => is_some (fst y) = true) d ->
  NoDup (map fst d) ->
  exists items,
    Sorting.sorted Sorting.item_lt d = Ok items
    /\ Permutation d items
    /\ Sorted Spec.name_before items.
Proof.
  induction d as [|x d IH]; intros Hall Hnd.
  - exists []. repeat split; constructor.
  - inversion Hall as [|? ? Hx Hall']; subst.
    cbn [map] in Hnd. inversion Hnd as [|? ? Hnotin Hnd']; subst.
    destruct (IH Hall' Hnd') as (items & E & Hperm & Hsorted).
    cbn [Sorting.sorted]. rewrite E. cbn [bind].
    destruct (insert_sorted x items Hx) as (l' & El & Hp & Hs & _).
    + apply Forall_forall. intros y Hy.
      apply (Permutation_in _ (Permutation_sym Hperm)) in Hy. split.
      * rewrite Forall_forall in Hall'. now apply Hall'.
      * intros Heq. apply Hnotin. rewrite <- Heq. now apply in_map.
    + exact Hsorted.
    + exists l'. repeat split; [exact El| |exact Hs].
      eapply Permutation_trans; [|exact Hp]. now constructor.
Qed.

(** Whenever [sorted] returns on dictionary items, it returns the same
    items in strictly increasing key order. *)
Lemma insert_ok_sorted {V : Type} (x : option string * V)
      (l l' : list (option string * V)) :
  Sorting.insert Sorting.item_lt x l = Ok l' ->
  Sorted Spec.name_before l ->
  Permutation (x :: l) l'
  /\ Sorted Spec.name_before l'
  /\ (forall y, HdRel Spec.name_before y l ->
                Spec.name_before y x -> HdRel Spec.name_before y l').
Proof.
  revert l'. induction l as [|y l IH]; intros l' E Hs.
  - cbn in E. injection E as <-. repeat split; auto.
  - inversion Hs as [|? ? Hs' Hhd]; subst.
    cbn [Sorting.insert] in E.
    destruct x as [[kx|] vx], y as [[ky|] vy];
      try (unfold Sorting.item_lt at 1 in E; cbn [fst bind] in E; discriminate).
    rewrite item_lt_some in E.
    destruct (String.eqb_spec kx ky) as [->|Hk]; [discriminate|].
    cbn [bind] in E. destruct (kx <? ky)%string eqn:Elt.
    + injection E as <-. repeat split.
      * apply Permutation_refl.
      * constructor; [exact Hs|]. constructor. exact Elt.
      * intros z _ Hz. constructor. exact Hz.
    + destruct (Sorting.insert Sorting.item_lt (Some kx, vx) l) as [r'|] eqn:Er;
        [|discriminate].
      cbn [bind] in E. injection E as <-.
      destruct (IH r' eq_refl Hs') as (Hperm & Hsorted & Hhd').
      repeat split.
      * rewrite perm_swap. now constructor.
      * constructor; [exact Hsorted|]. apply Hhd'; [exact Hhd|].
        unfold Spec.name_before. cbn [fst].
        destruct (ky <? kx)%string eqn:Egt; [reflexivity|].
        exfalso. apply Hk. now apply string_ltb_total.
      * intros z Hz _. inversion Hz; subst. now constructor.
Qed.

Lemma sorted_ok_sorted {V : Type} (d items : list (option string * V)) :
  Sorting.sorted Sorting.item_lt d = Ok items ->
  Permutation d items /\ Sorted Spec.name_before items.
Proof.
  revert items. induction d as [|x d IH]; intros items E.
  - cbn in E. injection E as <-. split; constructor.
  - cbn [Sorting.sorted] in E.
    destruct (Sorting.sorted Sorting.item_lt d) as [s|]; [|discriminate].
    cbn [bind] in E. destruct (IH s eq_refl) as [Hperm Hsorted].
    destruct (insert_ok_sorted x s items E Hsorted) as (Hp & Hs & _).
    split; [|exact Hs].
    eapply Permutation_trans; [|exact Hp]. now constructor.
Qed.

(** Dictionary lookups after assignments. *)
Lemma dict_get_set_same (d : @Dict.t match_key string) (k : match_key)
      (v : string) :
  Dict.get match_eqb (Dict.set match_eqb d k v) k = Some v.
Proof.
  induction d as [|[k' v'] d IH]; cbn.
  - now rewrite (proj2 (match_eqb_eq k k) eq_refl).
  - destruct (match_eqb k k') eqn:E; cbn; rewrite E; [reflexivity|exact IH].
Qed.

Lemma dict_get_set_other (d : @Dict.t match_key string) (k k0 : match_key)
      (v : string) :
  k0 <> k ->
  Dict.get match_eqb (Dict.set match_eqb d k v) k0 = Dict.get match_eqb d k0.
Proof.
  intros Hne. induction d as [|[k' v'] d IH]; cbn.
  - destruct (match_eqb k0 k) eqn:E; [|reflexivity].
    apply match_eqb_eq in E. contradiction.
  - destruct (match_eqb k k') eqn:E; cbn.
    + apply match_eqb_eq in E. subst k'.
      destruct (match_eqb k0 k) eqn:E0; [|reflexivity].
      apply match_eqb_eq in E0. contradiction.
    + now rewrite IH.
Qed.

Lemma number_from_app (n : nat) (a b : list match_key)
      (hl : @Dict.t match_key string) :
  Spec.number_from n (a ++ b) hl
  = Spec.number_from (n + List.length a) b (Spec.number_from n a hl).
Proof.
  revert n hl. induction a as [|m a IH]; intros n hl; cbn [app Spec.number_from List.length].
  - now rewrite Nat.add_0_r.
  - rewrite IH. f_equal. lia.
Qed.

Lemma number_from_other (n : nat) (ms : list match_key)
      (hl : @Dict.t match_key string) (m : match_key) :
  ~ In m ms ->
  Dict.get match_eqb (Spec.number_from n ms hl) m = Dict.get match_eqb hl m.
Proof.
  revert n hl. induction ms as [|x ms IH]; intros n hl Hnot; [reflexivity|].
  cbn [Spec.number_from]. rewrite IH by (intros H; apply Hnot; now right).
  apply dict_get_set_other. intros ->. apply Hnot. now left.
Qed.

(** The label of a match is its 1-based position (the last one, should
    the same position be recorded twice). *)
Lemma number_from_label (n : nat) (ms : list match_key)
      (hl : @Dict.t match_key string) (k : nat) (m : match_key) :
  nth_error ms k = Some m -> ~ In m (skipn (S k) ms) ->
  Dict.get match_eqb (Spec.number_from n ms hl) m = Some (Str.of_nat (n + S k)).
Proof.
  revert n hl k. induction ms as [|x ms IH]; intros n hl k Hk Hlast.
  - destruct k; discriminate.
  - destruct k as [|k]; cbn [nth_error skipn Spec.number_from] in *.
    + injection Hk as ->. rewrite number_from_other by exact Hlast.
      rewrite dict_get_set_same. do 2 f_equal. lia.
    + rewrite (IH (S n) _ k Hk Hlast). do 2 f_equal. lia.
Qed.

(** The two loops that collect the matches. *)
Lemma scan_lines_spec (params : match_params) (f : option string)
      (reference : FileDiffLine.t) (ls : list FileDiffLine.t)
      (all : list match_key) (hl : @Dict.t match_key string) :
  let new := map (fun l => (f, FileDiffLine.left_line_num l,
                            FileDiffLine.right_line_num l))
                 (filter (Spec.is_candidate params reference) ls) in
  scan_lines params f reference ls (all, hl)
  = Ok (all ++ new, Spec.number_from (List.length all) new hl).
Proof.
  revert all hl. induction ls as [|l ls IH]; intros all hl; cbv zeta.
  - cbn. now rewrite app_nil_r.
  - assert (E : lines_match l reference params
                = Ok (Spec.similar params l reference)).
    { unfold Spec.similar. now rewrite lines_match_value. }
    cbn [scan_lines filter]. rewrite E. cbn [bind].
    change (Spec.similar params l reference && FileDiffLine.ne l reference
            && is_some (FileDiffLine.left_line_num l))
      with (Spec.is_candidate params reference l).
    destruct (Spec.is_candidate params reference l).
    + cbn [fst snd]. rewrite IH. cbv zeta. cbn [map Spec.number_from].
      rewrite <- app_assoc, length_app. cbn [List.length app].
      replace (List.length all + 1)%nat with (S (List.length all)) by lia.
      reflexivity.
    + apply IH.
Qed.

Lemma scan_files_spec (params : match_params) (reference : FileDiffLine.t)
      (items : list (option string * FileDiff.t))
      (all : list match_key) (hl : @Dict.t match_key string) :
  scan_files params reference items (all, hl)
  = Ok (all ++ Spec.candidates params reference items,
        Spec.number_from (List.length all)
          (Spec.candidates params reference items) hl).
Proof.
  revert all hl. induction items as [|[k d] items IH]; intros all hl.
  - cbn. now rewrite app_nil_r.
  - cbn [scan_files]. rewrite scan_lines_spec. cbv zeta. cbn [bind].
    rewrite IH. unfold Spec.candidates. cbn [flat_map snd].
    fold (Spec.position d).
    rewrite number_from_app, <- app_assoc, length_app. reflexivity.
Qed.

Lemma candidates_have_left (params : match_params) (reference : FileDiffLine.t)
      (items : list (option string * FileDiff.t)) :
  Forall (fun m : match_key => is_some (snd (fst m)) = true)
         (Spec.candidates params reference items).
Proof.
  apply Forall_forall. intros m Hm. unfold Spec.candidates in Hm.
  apply in_flat_map in Hm as [item [_ Hm]].
  apply in_map_iff in Hm as [l [<- Hl]].
  apply filter_In in Hl as [_ Hl]. unfold Spec.is_candidate in Hl.
  apply andb_true_iff in Hl as [_ Hl]. exact Hl.
Qed.

Lemma file_diff_line_eq_refl (l : FileDiffLine.t) : FileDiffLine.eq l l = true.
Proof.
  unfold FileDiffLine.eq.
  rewrite (proj2 (opt_string_eqb_eq _ _) eq_refl),
    !(proj2 (opt_Z_eqb_eq _ _) eq_refl), String.eqb_refl.
  reflexivity.
Qed.

(** C3. For a change-set whose file names are present and distinct (a
    dictionary keyed by file name), the scan for matches returns.  Whenever
    it returns, the files were taken in increasing order of file name and
    the list of matches is, file after file and in diff order within each
    file, the position of every line that passes the similarity test
    against the reference line, is not equal to the reference line, and
    has a pre-image line number.  The reference line is never a candidate
    for itself, every match has a pre-image number, and the label written
    for the match at (0-based) index [k] is the number [k + 1]. *)
Theorem candidates_of_change_set
        (c : Commit.t) (reference : FileDiffLine.t) (params : match_params)
        (hl0 : @Dict.t match_key string) :
  (Forall (fun item => is_some (fst item) = true) (Commit.file_diffs c) ->
   NoDup (Dict.keys (Commit.file_diffs c)) ->
   exists found, scan_commit params c reference ([], hl0) = Ok found)
  /\ (forall all hl,
         scan_commit params c reference ([], hl0) = Ok (all, hl) ->
         exists items,
           Sorting.sorted Sorting.item_lt (Commit.file_diffs c) = Ok items
           /\ Permutation (Commit.file_diffs c) items
           /\ Sorted Spec.name_before items
           /\ all = Spec.candidates params reference items
           /\ Forall (fun m : match_key => is_some (snd (fst m)) = true) all
           /\ (forall k m,
                  nth_error all k = Some m -> ~ In m (skipn (S k) all) ->
                  Dict.get match_eqb hl m = Some (Str.of_nat (S k))))
  /\ Spec.is_candidate params reference reference = false.
Proof.
  split; [|split].
  - intros Hpresent Hnodup.
    destruct (sorted_items_ok (Commit.file_diffs c) Hpresent Hnodup)
      as (items & E & _).
    unfold scan_commit. rewrite E. cbn [bind]. rewrite scan_files_spec.
    eexists. reflexivity.
  - intros all hl H. unfold scan_commit in H.
    destruct (Sorting.sorted Sorting.item_lt (Commit.file_diffs c))
      as [items|] eqn:E; [|discriminate].
    cbn [bind] in H. rewrite scan_files_spec in H. cbn [app List.length] in H.
    injection H as <- <-.
    destruct (sorted_ok_sorted _ _ E) as [Hperm Hsorted].
    exists items. repeat split; try assumption.
    + apply candidates_have_left.
    + intros k m Hk Hlast.
      exact (number_from_label 0 _ hl0 k m Hk Hlast).
  - unfold Spec.is_candidate. rewrite file_diff_line_eq_refl.
    cbn [negb]. now rewrite andb_false_r.
Qed.

Lemma candidates_of_change_set_witness :
  let reference := FileDiffLine.make (Some "b.txt") None (Some 7%Z) "total = count + 1" in
  let moved := FileDiffLine.make (Some "a.txt") (Some 3%Z) None "total = count + 2" in
  let added := FileDiffLine.make (Some "a.txt") None (Some 4%Z) "total = count + 1" in
  let kept := FileDiffLine.make (Some "b.txt") (Some 6%Z) (Some 6%Z) "total = count + 1" in
  let c := Commit.make "0a1b2c" None None
             [(Some "b.txt", FileDiff.make [kept; reference] (Some "b.txt"));
              (Some "a.txt", FileDiff.make [moved; added] (Some "a.txt"))] "" in
  scan_commit [] c reference ([], [])
  = Ok ([(Some "a.txt", Some 3%Z, None); (Some "b.txt", Some 6%Z, Some 6%Z)],
        [((Some "a.txt", Some 3%Z, None), "1");
         ((Some "b.txt", Some 6%Z, Some 6%Z), "2")]).
Proof.
  intros reference moved added kept c.
  destruct (proj1 (candidates_of_change_set c reference [] []))
    as [found E].
  - repeat constructor.
  - repeat constructor; cbn; intuition discriminate.
  - etransitivity; [exact E|]. vm_compute in E. injection E as <-. reflexivity.
Defined.

(* ------------------------------------------------------------------ *)
(** ** The choice of a match by its number *)

(** The input loop accepts a number within the candidate count ... *)
Lemma choose_number (c : Commit.t) (hl : @Dict.t match_key string)
      (n : nat) (s : string) (rest : list string) (out : list event) (k : Z) :
  Str.isdigit s = true -> Str.int s = Ok k ->
  (1 <= k <= Z.of_nat n)%Z ->
  choose c hl n (s :: rest) out
  = (Ok (Chosen (ChoiceInt k)), mk_console rest (out ++ [WritePrompt n])).
Proof.
  intros Hd Hi Hk. cbn [choose]. rewrite Hd, Hi.
  destruct (Z.ltb_spec k 1); [lia|].
  destruct (Z.ltb_spec (Z.of_nat n) k); [lia|]. reflexivity.
Qed.

(** ... and a [path:number] choice is turned into the next file and
    line. *)
Lemma select_tuple (all_matches : list match_key) (fn : string) (line : Z) :
  select all_matches (ChoiceTuple fn line) = Ok (Some fn, Some line).
Proof. reflexivity. Qed.

(** C1 (the script falls short of it). The name [long] is bound neither
    in the module nor among the builtins of Python 3, so the statement
    that would take the chosen match, [isinstance(choice, (int, long))],
    raises [NameError] for every numeric choice.  In the scenario below
    the revision shown has one candidate, (a.txt, 5); the input [1] is
    accepted by the input loop, and the turn then ends in [NameError]
    where the specification has the cursor (a.txt, 5, 7d3e9f^).  The same
    candidate entered as [a.txt:5] does give that cursor. *)
Theorem numeric_choice_raises_name_error :
  Names.bound "long" = false
  /\ (forall all_matches k,
         select all_matches (ChoiceInt k) = Raise (NameError "long"))
  /\ (let old_line := FileDiffLine.make (Some "a.txt") (Some 5%Z) None
                        "x = compute(a, b, 1)" in
      let new_line := FileDiffLine.make (Some "a.txt") None (Some 5%Z)
                        "x = compute(a, b, 2)" in
      let r2 := Commit.make "7d3e9f" (Some "A") (Some "D")
                  [(Some "a.txt", FileDiff.make [old_line; new_line] (Some "a.txt"))]
                  "change" in
      let file_blame := fun (_ : option string) (_ : string) =>
        Ok (FileBlame.make (Some "HEAD") "a.txt"
              [LineBlame.make "a.txt" 5 5 "7d3e9f" "x = compute(a, b, 2)"]) in
      let commit := fun (_ : string) => Ok r2 in
      let cur := mk_cursor (Some "a.txt") (Some 5%Z) "HEAD" in
      find_matches [] r2 (Some "a.txt") "a.txt" 5
      = Ok ([(Some "a.txt", Some 5%Z, None)],
            [((Some "a.txt", None, Some 5%Z), "target");
             ((Some "a.txt", Some 5%Z, None), "1")])
      /\ fst (choose r2 [] 1 ["1"] []) = Ok (Chosen (ChoiceInt 1))
      /\ fst (turn file_blame commit [] false cur (mk_console ["1"] []))
         = Raise (NameError "long")
      /\ fst (turn file_blame commit [] false cur (mk_console ["a.txt:5"] []))
         = Ok (inr (mk_cursor (Some "a.txt") (Some 5%Z) "7d3e9f^"))).
Proof.
  split; [reflexivity|]. split; [reflexivity|].
  cbv zeta. repeat split; vm_compute; reflexivity.
Qed.

(* ------------------------------------------------------------------ *)
(** ** The outer loop

    Every turn of [while True] that does not end the run reads at least
    one string from standard input, so a run is never cut short by [fuel]
    that exceeds the number of strings to read. *)

Lemma choose_consumes (c : Commit.t) (hl : @Dict.t match_key string)
      (n : nat) (inputs : list string) (out : list event)
      (ex : loop_exit) (con' : console) :
  choose c hl n inputs out = (Ok ex, con') ->
  (List.length (stdin con') < List.length inputs)%nat.
Proof.
  revert out. induction inputs as [|s rest IH]; intros out H.
  - cbn in H. discriminate.
  - cbn [choose] in H. cbn [List.length].
    repeat match type of H with
    | context [if ?b then _ else _] => destruct b
    | context [match Str.int ?x with _ => _ end] => destruct (Str.int x)
    | context [match Commit.print_stream ?a ?b ?c with _ => _ end] =>
        destruct (Commit.print_stream a b c)
    | context [match Str.split ?a ?b with _ => _ end] =>
        destruct (Str.split a b) as [|? [|? [|? ?]]]
    end;
    try discriminate;
    try (injection H as _ <-; cbn; lia);
    try (apply IH in H; lia).
Qed.

Lemma consumes_ret {A} (a : A) : Spec.consumes 0 (ret a).
Proof. intros con x con' [= _ <-]. lia. Qed.

Lemma consumes_lift {A} (r : result A) : Spec.consumes 0 (lift r).
Proof. intros con x con' [= _ <-]. lia. Qed.

Lemma consumes_write (evs : list event) : Spec.consumes 0 (write evs).
Proof. intros con x con' [= _ <-]. cbn. lia. Qed.

Lemma consumes_bind {A B} (k1 k2 : nat) (m : io A) (f : A -> io B) :
  Spec.consumes k1 m -> (forall a, Spec.consumes k2 (f a)) ->
  Spec.consumes (k1 + k2) (io_bind m f).
Proof.
  intros Hm Hf con b con' H. unfold io_bind in H.
  destruct (m con) as [[a|e] con1] eqn:E; [|discriminate].
  specialize (Hm _ _ _ E). specialize (Hf a _ _ _ H). lia.
Qed.

Lemma turn_consumes file_blame commit params full_diffs cur :
  Spec.consumes 1 (turn file_blame commit params full_diffs cur).
Proof.
  unfold turn.
  apply (consumes_bind 0 1); [apply consumes_write|intros _].
  apply (consumes_bind 0 1); [apply consumes_lift|intros b].
  apply (consumes_bind 0 1).
  { destruct (truthy (target_line_num cur)); [|apply consumes_ret].
    destruct (target_line_num cur); [|apply consumes_ret].
    apply (consumes_bind 0 0); [apply consumes_lift|intros; apply consumes_ret]. }
  intros blame_target_line.
  apply (consumes_bind 0 1); [apply consumes_write|intros _].
  apply (consumes_bind 0 1); [apply consumes_lift|intros c].
  apply (consumes_bind 0 1); [apply consumes_lift|intros [all_matches hl]].
  apply (consumes_bind 0 1); [apply consumes_lift|intros evs].
  apply (consumes_bind 0 1); [apply consumes_write|intros _].
  apply (consumes_bind 0 1); [apply consumes_lift|intros _].
  apply (consumes_bind 1 0).
  { intros con ex con' H. apply choose_consumes in H. lia. }
  intros [choice|code]; [|apply consumes_ret].
  apply (consumes_bind 0 0); [apply consumes_lift|intros sel].
  apply (consumes_bind 0 0); [apply consumes_write|intros _].
  apply consumes_ret.
Qed.

Lemma enough_fuel file_blame commit params full_diffs fuel cur con :
  (List.length (stdin con) < fuel)%nat ->
  exists r con',
    iterative_blame_interactive file_blame commit params full_diffs fuel cur con
    = Some (r, con').
Proof.
  revert cur con. induction fuel as [|fuel IH]; intros cur con Hf; [lia|].
  cbn [iterative_blame_interactive].
  destruct (turn file_blame commit params full_diffs cur con) as [[[code|cur']|e] con1] eqn:E.
  - now eexists _, _.
  - apply IH. apply turn_consumes in E. lia.
  - now eexists _, _.
Qed.

(* ================================================================== *)
(** * Further properties

    Properties of the parsers, of the input loop, of the display and of
    the entry point that the code shows beyond the statements above. *)

Local Open Scope string_scope.

(* ------------------------------------------------------------------ *)
(** ** Decimal numerals

    [int] reads back what [str] prints for a natural number. *)

Lemma string_app_assoc (a b c : string) : (a ++ b) ++ c = a ++ (b ++ c).
Proof. induction a as [|x a IH]; [reflexivity|]. cbn [append]. now rewrite IH. Qed.

Lemma string_app_nil_r (a : string) : a ++ EmptyString = a.
Proof. induction a as [|x a IH]; [reflexivity|]. cbn [append]. now rewrite IH. Qed.

Lemma string_app_length (a b : string) :
  String.length (a ++ b) = (String.length a + String.length b)%nat.
Proof. induction a as [|x a IH]; [reflexivity|]. cbn [append String.length]. now rewrite IH. Qed.

Lemma digit_char_spec (n : Z) : (0 <= n < 10)%Z ->
  let d := ascii_of_N (Z.to_N n + 48) in
  Str.is_ascii_digit d = true /\ Str.digit_value d = n.
Proof.
  intros Hn d. unfold Str.is_ascii_digit, Str.digit_value, Str.code, d.
  rewrite N_ascii_embedding by lia.
  split.
  - apply andb_true_iff. split; apply N.leb_le; lia.
  - lia.
Qed.

Lemma digits_fuel_app (fuel : nat) (n : Z) (acc : string) :
  Str.digits_of_pos_fuel fuel n acc
  = Str.digits_of_pos_fuel fuel n EmptyString ++ acc.
Proof.
  revert n acc. induction fuel as [|fuel IH]; intros n acc; [reflexivity|].
  cbn [Str.digits_of_pos_fuel]. destruct (n <? 10)%Z; [reflexivity|].
  rewrite (IH _ (String _ acc)), (IH _ (String _ EmptyString)).
  now rewrite string_app_assoc.
Qed.

Lemma forallb_app (p : ascii -> bool) (a b : string) :
  Str.forallb p (a ++ b) = Str.forallb p a && Str.forallb p b.
Proof.
  induction a as [|c a IH]; [reflexivity|].
  cbn [append Str.forallb]. now rewrite IH, andb_assoc.
Qed.

Lemma int_acc_app (a : Z) (s t : string) :
  Str.int_acc a (s ++ t) = Str.int_acc (Str.int_acc a s) t.
Proof. revert a. induction s as [|c s IH]; intros a; [reflexivity|]. apply IH. Qed.

Lemma digits_fuel_spec (fuel : nat) (n : Z) :
  (0 <= n < Z.of_nat fuel)%Z ->
  let s := Str.digits_of_pos_fuel fuel n EmptyString in
  s <> EmptyString
  /\ Str.forallb Str.is_ascii_digit s = true
  /\ Str.int_of_digits s = n.
Proof.
  revert n. induction fuel as [|fuel IH]; intros n Hn; [lia|].
  cbn [Str.digits_of_pos_fuel]. cbv zeta.
  destruct (Z.ltb_spec n 10) as [Hlt|Hge].
  - destruct (digit_char_spec n ltac:(lia)) as [Hd Hv].
    rewrite Z.mod_small by lia.
    split; [discriminate|]. split.
    + cbn [Str.forallb]. now rewrite Hd.
    + unfold Str.int_of_digits. cbn [Str.int_acc]. rewrite Hv. lia.
  - rewrite digits_fuel_app.
    assert (Hq : (0 <= n / 10 < Z.of_nat fuel)%Z).
    { split; [apply Z.div_pos; lia|].
      apply Z.div_lt_upper_bound; lia. }
    destruct (IH _ Hq) as (Hne & Hall & Hval). cbv zeta in *.
    destruct (digit_char_spec (n mod 10) (Z.mod_pos_bound n 10 ltac:(lia))) as [Hd Hv].
    split; [|split].
    + destruct (Str.digits_of_pos_fuel fuel (n / 10) EmptyString); [contradiction|discriminate].
    + rewrite forallb_app, Hall. cbn [Str.forallb]. now rewrite Hd.
    + unfold Str.int_of_digits in *. rewrite int_acc_app, Hval.
      cbn [Str.int_acc]. rewrite Hv. pose proof (Z.div_mod n 10 ltac:(lia)). lia.
Qed.

Lemma of_nat_digits (n : nat) :
  Str.of_nat n <> EmptyString
  /\ Str.forallb Str.is_ascii_digit (Str.of_nat n) = true
  /\ Str.int_of_digits (Str.of_nat n) = Z.of_nat n.
Proof. apply (digits_fuel_spec (S n) (Z.of_nat n)). lia. Qed.

(** White space and digits. *)
Lemma digit_not_space (c : ascii) : Str.is_ascii_digit c = true -> Str.isspace c = false.
Proof.
  unfold Str.is_ascii_digit, Str.isspace. intros H.
  apply andb_true_iff in H as [H1 H2]. apply N.leb_le in H1, H2.
  repeat match goal with
  | |- context [(?a <=? ?b)%N] => destruct (N.leb_spec a b)
  | |- context [(?a =? ?b)%N] => destruct (N.eqb_spec a b)
  end; cbn; try reflexivity; lia.
Qed.

Lemma lstrip_id (s : string) :
  (forall c r, s = String c r -> Str.isspace c = false) -> Str.lstrip s = s.
Proof. destruct s as [|c r]; [reflexivity|]. intros H. cbn. now rewrite (H c r eq_refl). Qed.

Lemma rstrip_no_space (s : string) :
  Str.forallb (fun c => negb (Str.isspace c)) s = true -> Str.rstrip s = s.
Proof.
  induction s as [|c s IH]; [reflexivity|].
  cbn [Str.forallb Str.rstrip]. intros H. apply andb_true_iff in H as [Hc Hs].
  rewrite (IH Hs). apply negb_true_iff in Hc. rewrite Hc. now destruct s.
Qed.

Lemma strip_no_space (s : string) :
  Str.forallb (fun c => negb (Str.isspace c)) s = true -> Str.strip s = s.
Proof.
  intros H. unfold Str.strip. rewrite lstrip_id.
  - now apply rstrip_no_space.
  - intros c r ->. cbn [Str.forallb] in H. apply andb_true_iff in H as [Hc _].
    now apply negb_true_iff.
Qed.

Lemma forallb_impl (p q : ascii -> bool) (s : string) :
  (forall c, p c = true -> q c = true) ->
  Str.forallb p s = true -> Str.forallb q s = true.
Proof.
  intros Hpq. induction s as [|c s IH]; [reflexivity|].
  cbn [Str.forallb]. intros H. apply andb_true_iff in H as [Hc Hs].
  now rewrite (Hpq c Hc), (IH Hs).
Qed.

Lemma literal_digits_all (s : string) (b : bool) :
  s <> EmptyString -> Str.forallb Str.is_ascii_digit s = true ->
  Str.literal_digits b s = Some s.
Proof.
  revert b. induction s as [|c s IH]; intros b Hne H; [contradiction|].
  cbn [Str.forallb] in H. apply andb_true_iff in H as [Hc Hs].
  cbn [Str.literal_digits]. rewrite Hc.
  destruct s as [|d s]; [reflexivity|].
  now rewrite (IH true ltac:(discriminate) Hs).
Qed.

(** [int] reads a string of ASCII digits as its decimal value. *)
Lemma int_of_digit_string (s : string) :
  s <> EmptyString -> Str.forallb Str.is_ascii_digit s = true ->
  Str.int s = Ok (Str.int_of_digits s).
Proof.
  intros Hne H. unfold Str.int.
  rewrite strip_no_space.
  2:{ eapply forallb_impl; [|exact H]. intros c Hc. now rewrite digit_not_space. }
  destruct s as [|c r]; [contradiction|].
  assert (Hc : Str.is_ascii_digit c = true).
  { cbn [Str.forallb] in H. now apply andb_true_iff in H. }
  assert (Hsign : c <> "-"%char /\ c <> "+"%char).
  { split; intros ->; discriminate. }
  destruct Hsign as [Hm Hp].
  assert (E : (let '(neg, body) :=
                 match String c r with
                 | String "-" r0 => (true, r0)
                 | String "+" r0 => (false, r0)
                 | _ => (false, String c r)
                 end in
               match Str.literal_digits false body with
               | Some d => Ok (if neg then (- Str.int_of_digits d)%Z else Str.int_of_digits d)
               | None => Raise ValueError
               end)
              = match Str.literal_digits false (String c r) with
                | Some d => Ok (Str.int_of_digits d)
                | None => Raise ValueError
                end).
  { destruct c as [[] [] [] [] [] [] [] []]; try reflexivity; congruence. }
  rewrite E, literal_digits_all by assumption. reflexivity.
Qed.

Lemma int_of_nat (n : nat) : Str.int (Str.of_nat n) = Ok (Z.of_nat n).
Proof.
  destruct (of_nat_digits n) as (Hne & Hall & Hval).
  now rewrite int_of_digit_string, Hval.
Qed.


(* ------------------------------------------------------------------ *)
(** ** The input loop *)


Lemma isdigit_char_not_colon (c : ascii) : Str.isdigit_char c = true -> c <> ":"%char.
Proof. intros H ->. discriminate. Qed.

Lemma contains_app (c : ascii) (a b : string) :
  Str.contains c (a ++ b) = Str.contains c a || Str.contains c b.
Proof.
  induction a as [|x a IH]; [reflexivity|].
  cbn [append Str.contains]. now rewrite IH, orb_assoc.
Qed.

Lemma contains_forallb (c : ascii) (p : ascii -> bool) (s : string) :
  Str.contains c s = true -> p c = false -> Str.forallb p s = false.
Proof.
  intros H Hp. induction s as [|x s IH]; [discriminate|].
  cbn [Str.contains Str.forallb] in *.
  destruct (Ascii.eqb_spec c x) as [<-|_]; [now rewrite Hp|].
  cbn in H. rewrite (IH H). apply andb_false_r.
Qed.

Lemma isdigit_false_of_contains (c : ascii) (s : string) :
  Str.contains c s = true -> Str.isdigit_char c = false -> Str.isdigit s = false.
Proof.
  intros H Hp. unfold Str.isdigit. destruct s; [reflexivity|].
  now apply (contains_forallb c).
Qed.

Lemma digits_no_char (c : ascii) (s : string) :
  Str.is_ascii_digit c = false ->
  Str.forallb Str.is_ascii_digit s = true -> Str.contains c s = false.
Proof.
  intros Hc. induction s as [|x s IH]; [reflexivity|].
  cbn [Str.forallb Str.contains]. intros H. apply andb_true_iff in H as [Hx Hs].
  rewrite (IH Hs). destruct (Ascii.eqb_spec c x) as [<-|]; [congruence|reflexivity].
Qed.

Lemma split_none (c : ascii) (s : string) :
  Str.contains c s = false -> Str.split c s = [s].
Proof.
  induction s as [|x s IH]; [reflexivity|].
  cbn [Str.contains Str.split]. intros H. apply orb_false_iff in H as [Hx Hs].
  now rewrite Hx, (IH Hs).
Qed.

Lemma split_app (c : ascii) (a b : string) :
  Str.contains c a = false ->
  Str.split c (a ++ String c b) = a :: Str.split c b.
Proof.
  induction a as [|x a IH]; intros H.
  - cbn [append Str.split]. now rewrite ascii_eqb_refl.
  - cbn [Str.contains] in H. apply orb_false_iff in H as [Hx Ha].
    cbn [append Str.split]. now rewrite Hx, (IH Ha).
Qed.



(** X3. Entries that are neither digits, nor [q], nor [f], nor contain a
    colon are passed over, one prompt for each: followed by [q] the loop
    returns 0 and leaves the rest of the input unread; followed by nothing
    it ends in [EOFError]. *)
Theorem choose_skips_unrecognised (c : Commit.t) (hl : @Dict.t match_key string)
        (n : nat) (junk rest : list string) (out : list event)
        (Hjunk : Forall unrecognised junk) :
  choose c hl n (junk ++ "q" :: rest) out
  = (Ok (Return 0),
     mk_console rest (out ++ repeat (WritePrompt n) (S (List.length junk))))
  /\ choose c hl n junk out
     = (Raise EOFError,
        mk_console [] (out ++ repeat (WritePrompt n) (S (List.length junk)))).
Proof.
  revert out. induction Hjunk as [|s junk (Hd & Hq & Hf & Hc) _ IH]; intros out.
  - split; reflexivity.
  - cbn [app choose List.length]. rewrite Hd, Hc.
    apply String.eqb_neq in Hq, Hf. rewrite Hq, Hf.
    destruct (IH (out ++ [WritePrompt n])%list) as [IH1 IH2].
    rewrite IH1, IH2, <- !app_assoc. split; reflexivity.
Qed.

Lemma choose_skips_unrecognised_witness :
  choose Sample.commit [] 2 ["help"; ""; "q"; "1"] []
  = (Ok (Return 0),
     mk_console ["1"] [WritePrompt 2; WritePrompt 2; WritePrompt 2])
  /\ choose Sample.commit [] 2 ["help"; ""] []
     = (Raise EOFError,
        mk_console [] [WritePrompt 2; WritePrompt 2; WritePrompt 2]).
Proof.
  refine (choose_skips_unrecognised Sample.commit [] 2 ["help"; ""] ["1"] [] _).
  repeat constructor; discriminate.
Defined.





(* ------------------------------------------------------------------ *)
(** ** What the parser of a file diff keeps true *)

Lemma step_invariant (st st' : FileDiff.state) (line : string) :
  parser_invariant st -> FileDiff.step st line = Ok st' -> parser_invariant st'.
Proof.
  destruct st as [ls0 f0 cs0]. unfold parser_invariant. cbn [FileDiff.st_lines
    FileDiff.st_filename FileDiff.counters].
  intros [Hall Hnone] H. unfold FileDiff.step, FileDiff.parsing_contents in H.
  cbn [FileDiff.st_lines FileDiff.st_filename FileDiff.counters] in H.
  destruct (Str.startswith line "diff").
  { destruct (assert _ _); [|discriminate]. cbn in H. injection H as <-. now split. }
  destruct (Str.startswith line "index").
  { destruct (assert _ _); [|discriminate]. cbn in H. injection H as <-. now split. }
  destruct ((Str.startswith line "--- a/" || Str.startswith line "+++ b/")
            && negb (match cs0 with Some _ => true | None => false end)) eqn:Em.
  { apply andb_true_iff in Em as [_ Ep]. apply negb_true_iff in Ep.
    destruct cs0; [discriminate|].
    destruct f0.
    - destruct (assert _ _); [|discriminate]. cbn in H. injection H as <-. now split.
    - injection H as <-. cbn. rewrite (Hnone eq_refl). split; [constructor|reflexivity]. }
  unfold FileDiff.step_body in H.
  cbn [FileDiff.st_lines FileDiff.st_filename FileDiff.counters] in H.
  destruct (FileDiff.position_match line) as [[a b]|].
  { injection H as <-. cbn. split; [exact Hall|discriminate]. }
  destruct cs0 as [[l r]|].
  2:{ injection H as <-. now split. }
  assert (A : forall ol or' text cs,
             FileDiffPrint.margin_ok (FileDiffLine.make f0 ol or' text) = true ->
             let st1 := FileDiff.append (FileDiff.mk_state ls0 f0 (Some (l, r))) ol or' text cs in
             Forall (fun l => FileDiffLine.filename l = FileDiff.st_filename st1
                              /\ FileDiffPrint.margin_ok l = true) (FileDiff.st_lines st1)
             /\ (FileDiff.counters st1 = None -> FileDiff.st_lines st1 = [])).
  { intros ol or' text cs Hm. unfold FileDiff.append. split; cbn; [|discriminate].
    apply Forall_app. split; [exact Hall|]. constructor; [|constructor]. now split. }
  destruct (Str.startswith line " "); [injection H as <-; now apply A|].
  destruct (Str.startswith line "-"); [injection H as <-; now apply A|].
  destruct (Str.startswith line "+"); [injection H as <-; now apply A|].
  discriminate.
Qed.

Lemma run_invariant (ls : list string) (st st' : FileDiff.state) :
  parser_invariant st -> FileDiff.run st ls = Ok st' -> parser_invariant st'.
Proof.
  revert st. induction ls as [|line ls IH]; intros st Hinv H.
  - cbn in H. now injection H as <-.
  - cbn [FileDiff.run] in H.
    destruct (FileDiff.step st line) as [st1|] eqn:E; [|discriminate].
    cbn [bind] in H. eapply IH; [|exact H]. eapply step_invariant; eassumption.
Qed.

Lemma init_invariant (ls : list string) (d : FileDiff.t) :
  FileDiff.init ls = Ok d ->
  Forall (fun l => FileDiffLine.filename l = FileDiff.filename d
                   /\ FileDiffPrint.margin_ok l = true) (FileDiff.lines d).
Proof.
  unfold FileDiff.init. intros H.
  destruct (FileDiff.run FileDiff.init_state ls) as [st|] eqn:E; [|discriminate].
  cbn [bind] in H. injection H as <-. cbn.
  apply (run_invariant ls FileDiff.init_state st); [|exact E].
  split; [constructor|reflexivity].
Qed.

(** X5. Every line of a parsed file diff carries the file name of the
    diff. *)
Theorem parsed_lines_carry_filename (ls : list string) (d : FileDiff.t)
        (Hparse : FileDiff.init ls = Ok d) :
  Forall (fun l => FileDiffLine.filename l = FileDiff.filename d)
         (FileDiff.lines d).
Proof.
  eapply Forall_impl; [|exact (init_invariant ls d Hparse)]. now intros l [H _].
Qed.

Lemma parsed_lines_carry_filename_witness :
  Forall (fun l => FileDiffLine.filename l = Some "a.txt") Sample.diff_lines.
Proof.
  exact (parsed_lines_carry_filename Sample.diff_text Sample.diff eq_refl).
Defined.

(** X6. Every line of a parsed file diff has a pre-image or a
    post-image number, so printing the diff never raises, whatever the
    highlights and the context distance. *)
Theorem parsed_diff_prints (ls : list string) (d : FileDiff.t)
        (Hparse : FileDiff.init ls = Ok d) :
  Forall (fun l => FileDiffLine.left_line_num l <> None
                   \/ FileDiffLine.right_line_num l <> None) (FileDiff.lines d)
  /\ forall hl ctx, exists evs, FileDiffPrint.print_stream d hl ctx = Ok evs.
Proof.
  pose proof (init_invariant ls d Hparse) as Hinv. split.
  - eapply Forall_impl; [|exact Hinv]. intros l [_ H].
    unfold FileDiffPrint.margin_ok in H.
    destruct (FileDiffLine.left_line_num l); [left; discriminate|].
    destruct (FileDiffLine.right_line_num l); [right; discriminate|discriminate].
  - intros hl ctx. unfold FileDiffPrint.print_stream.
    destruct (FileDiff.lines d) as [|x xs] eqn:E; [now eexists|].
    assert (Hm : forallb FileDiffPrint.margin_ok (x :: xs) = true).
    { apply forallb_forall. intros l Hl. rewrite Forall_forall in Hinv.
      now apply Hinv. }
    rewrite Hm. now eexists.
Qed.

Lemma parsed_diff_prints_witness :
  Forall (fun l => FileDiffLine.left_line_num l <> None
                   \/ FileDiffLine.right_line_num l <> None) Sample.diff_lines
  /\ forall hl ctx, exists evs,
       FileDiffPrint.print_stream Sample.diff hl ctx = Ok evs.
Proof.
  exact (parsed_diff_prints Sample.diff_text Sample.diff eq_refl).
Defined.

Lemma step_no_header (st st' : FileDiff.state) (line : string) :
  FileDiff.counters st = None -> FileDiff.position_match line = None ->
  FileDiff.step st line = Ok st' -> FileDiff.counters st' = None.
Proof.
  intros Hc Hp H. unfold FileDiff.step in H.
  destruct (Str.startswith line "diff").
  { destruct (assert _ _); [|discriminate]. cbn in H. now injection H as <-. }
  destruct (Str.startswith line "index").
  { destruct (assert _ _); [|discriminate]. cbn in H. now injection H as <-. }
  destruct ((Str.startswith line "--- a/" || Str.startswith line "+++ b/")
            && negb (FileDiff.parsing_contents st)).
  { destruct (FileDiff.st_filename st).
    - destruct (assert _ _); [|discriminate]. cbn in H. now injection H as <-.
    - now injection H as <-. }
  unfold FileDiff.step_body in H. rewrite Hp, Hc in H. now injection H as <-.
Qed.

Lemma short_header_unmatched (d1 d3 rest : string) :
  d1 <> EmptyString -> Str.forallb Str.is_ascii_digit d1 = true ->
  FileDiff.position_match ("@@ -" ++ d1 ++ " +" ++ d3 ++ " @@" ++ rest) = None.
Proof.
  intros N1 D1. unfold FileDiff.position_match.
  rewrite expect_app.
  rewrite (number_app d1) by (try assumption; intros c r [= <- _]; reflexivity).
  reflexivity.
Qed.

(** Without a hunk header no line is kept. *)
Lemma no_header_no_lines (ls : list string) (d : FileDiff.t)
        (Hnone : Forall (fun line => FileDiff.position_match line = None) ls)
        (Hparse : FileDiff.init ls = Ok d) :
  FileDiff.lines d = [].
Proof.
  unfold FileDiff.init in Hparse.
  destruct (FileDiff.run FileDiff.init_state ls) as [st|] eqn:E; [|discriminate].
  cbn [bind] in Hparse. injection Hparse as <-. cbn.
  assert (G : forall st0, FileDiff.counters st0 = None ->
                          FileDiff.run st0 ls = Ok st -> FileDiff.counters st = None).
  { clear E. induction Hnone as [|line ls Hp _ IH]; intros st0 Hc H.
    - cbn in H. now injection H as <-.
    - cbn [FileDiff.run] in H.
      destruct (FileDiff.step st0 line) as [st1|] eqn:E1; [|discriminate].
      cbn [bind] in H. eapply IH; [|exact H]. eapply step_no_header; eassumption. }
  assert (Hinv : parser_invariant st).
  { apply (run_invariant ls FileDiff.init_state st); [|exact E].
    split; [constructor|reflexivity]. }
  apply Hinv. now apply (G FileDiff.init_state).
Qed.

(** X7. A file diff in which no line is a hunk header (that of a binary
    file, for one) is parsed to a diff without lines, and it is printed as
    the notice that the diff is blank. *)
Theorem diff_without_hunk_is_blank (ls : list string) (d : FileDiff.t)
        (Hnone : Forall (fun line => FileDiff.position_match line = None) ls)
        (Hparse : FileDiff.init ls = Ok d) :
  FileDiff.lines d = []
  /\ forall hl ctx, FileDiffPrint.print_stream d hl ctx = Ok [WriteBlankDiff].
Proof.
  pose proof (no_header_no_lines ls d Hnone Hparse) as E.
  split; [exact E|]. intros hl ctx. unfold FileDiffPrint.print_stream.
  now rewrite E.
Qed.

Lemma diff_without_hunk_is_blank_witness :
  FileDiff.lines Sample.binary_diff = []
  /\ forall hl ctx,
       FileDiffPrint.print_stream Sample.binary_diff hl ctx = Ok [WriteBlankDiff].
Proof.
  refine (diff_without_hunk_is_blank Sample.binary_text Sample.binary_diff _ eq_refl).
  repeat constructor.
Defined.

Lemma startswith_first (m p : string) (x : ascii) :
  Str.startswith m (String x p) = true -> exists r, m = String x r.
Proof.
  destruct m as [|c r]; [discriminate|]. rewrite startswith_head.
  destruct (Ascii.eqb_spec x c) as [->|]; [|discriminate]. intros _. now exists r.
Qed.

Lemma run_app (a b : list string) (st : FileDiff.state) :
  FileDiff.run st (a ++ b) = (st' <- FileDiff.run st a ;; FileDiff.run st' b).
Proof.
  revert st. induction a as [|x a IH]; intros st; [reflexivity|].
  cbn [app FileDiff.run]. destruct (FileDiff.step st x); [apply IH|reflexivity].
Qed.

(** X8. Before the first hunk the two path markers must name the same
    file: a [--- a/] or [+++ b/] line whose path differs from the one
    already read makes the constructor raise [AssertionError] (a renamed
    file is such a diff). *)
Theorem path_markers_must_agree (pre rest : list string) (st : FileDiff.state)
        (marker f : string)
        (Hpre : FileDiff.run FileDiff.init_state pre = Ok st)
        (Hhead : FileDiff.counters st = None)
        (Hname : FileDiff.st_filename st = Some f)
        (Hmarker : Str.startswith marker "--- a/" = true
                   \/ Str.startswith marker "+++ b/" = true)
        (Hdiff : Str.drop 6 marker <> f) :
  FileDiff.init (pre ++ marker :: rest) = Raise (AssertionError "").
Proof.
  unfold FileDiff.init. rewrite run_app, Hpre. cbn [bind FileDiff.run].
  assert (E : FileDiff.step st marker = Raise (AssertionError "")).
  { unfold FileDiff.step, FileDiff.parsing_contents. rewrite Hhead, Hname.
    assert (Hd : Str.startswith marker "diff" = false /\ Str.startswith marker "index" = false).
    { destruct Hmarker as [H|H]; apply startswith_first in H as [r ->];
        rewrite !startswith_head; now split. }
    destruct Hd as [-> ->].
    assert (Hm : Str.startswith marker "--- a/" || Str.startswith marker "+++ b/" = true)
      by (destruct Hmarker as [-> | ->]; [reflexivity|apply orb_true_r]).
    rewrite Hm. cbn [negb andb].
    apply String.eqb_neq in Hdiff. rewrite String.eqb_sym, Hdiff. reflexivity. }
  now rewrite E.
Qed.

Lemma path_markers_must_agree_witness :
  FileDiff.init ["diff --git a/a.txt b/b.txt"; "--- a/a.txt"; "+++ b/b.txt";
                 "@@ -1,1 +1,1 @@"; "-old"; "+new"]
  = Raise (AssertionError "").
Proof.
  refine (path_markers_must_agree
            ["diff --git a/a.txt b/b.txt"; "--- a/a.txt"]
            ["@@ -1,1 +1,1 @@"; "-old"; "+new"]
            (FileDiff.mk_state [] (Some "a.txt") None)
            "+++ b/b.txt" "a.txt" eq_refl eq_refl eq_refl (or_intror eq_refl) _).
  cbn. discriminate.
Defined.

(* ------------------------------------------------------------------ *)
(** ** Lookups in a file diff *)

Lemma find_line_some (ls : list FileDiffLine.t) (a b : option Z) (l : FileDiffLine.t) :
  FileDiff.find_line ls a b = Some l ->
  In l ls /\ FileDiffLine.left_line_num l = a /\ FileDiffLine.right_line_num l = b.
Proof.
  induction ls as [|x ls IH]; [discriminate|]. cbn [FileDiff.find_line].
  destruct (opt_eqb Z.eqb (FileDiffLine.left_line_num x) a
            && opt_eqb Z.eqb (FileDiffLine.right_line_num x) b) eqn:E.
  - intros [= <-]. apply andb_true_iff in E as [E1 E2].
    apply opt_Z_eqb_eq in E1, E2. repeat split; auto. now left.
  - intros H. destruct (IH H) as (Hin & Ha & Hb). repeat split; auto. now right.
Qed.

Lemma find_line_none (ls : list FileDiffLine.t) (a b : option Z) :
  FileDiff.find_line ls a b = None <->
  forall l, In l ls -> line_position l <> (a, b).
Proof.
  induction ls as [|x ls IH]; cbn [FileDiff.find_line].
  - split; [intros _ l []|reflexivity].
  - destruct (opt_eqb Z.eqb (FileDiffLine.left_line_num x) a
              && opt_eqb Z.eqb (FileDiffLine.right_line_num x) b) eqn:E.
    + split; [discriminate|]. intros H. exfalso.
      apply andb_true_iff in E as [E1 E2]. apply opt_Z_eqb_eq in E1, E2.
      apply (H x); [now left|]. unfold line_position. now rewrite E1, E2.
    + rewrite IH. split.
      * intros H l [<-|Hl]; [|now apply H].
        intros [= E1 E2]. rewrite E1, E2, !(proj2 (opt_Z_eqb_eq _ _) eq_refl) in E.
        discriminate.
      * intros H l Hl. apply H. now right.
Qed.

(** X9. [FileDiff.get_line] raises [KeyError] on the pair of numbers
    exactly when no line carries that pair; a line it returns is a line of
    the diff with that pair; and it raises nothing else. *)
Theorem get_line_spec (d : FileDiff.t) (a b : option Z) :
  (FileDiff.get_line d a b = Raise (KeyError (KPair a b)) <->
   forall l, In l (FileDiff.lines d) -> line_position l <> (a, b))
  /\ (forall l, FileDiff.get_line d a b = Ok l ->
                In l (FileDiff.lines d) /\ line_position l = (a, b))
  /\ (forall e, FileDiff.get_line d a b = Raise e -> e = KeyError (KPair a b)).
Proof.
  unfold FileDiff.get_line.
  destruct (FileDiff.find_line (FileDiff.lines d) a b) as [l|] eqn:E.
  - split; [|split].
    + split; [discriminate|]. intros H. apply find_line_none in H. congruence.
    + intros l' [= <-]. apply find_line_some in E as (Hin & Ha & Hb).
      split; [exact Hin|]. unfold line_position. now rewrite Ha, Hb.
    + discriminate.
  - split; [|split].
    + split; [intros _; now apply find_line_none|reflexivity].
    + discriminate.
    + now intros e [= <-].
Qed.

Lemma find_line_nodup (ls : list FileDiffLine.t) (x : FileDiffLine.t) :
  NoDup (map line_position ls) -> In x ls ->
  FileDiff.find_line ls (FileDiffLine.left_line_num x) (FileDiffLine.right_line_num x)
  = Some x.
Proof.
  induction ls as [|y ls IH]; intros Hnd Hin; [destruct Hin|].
  cbn [map] in Hnd. inversion Hnd as [|? ? Hnot Hnd']; subst.
  cbn [FileDiff.find_line].
  destruct Hin as [->|Hin].
  - now rewrite !(proj2 (opt_Z_eqb_eq _ _) eq_refl).
  - destruct (opt_eqb Z.eqb (FileDiffLine.left_line_num y) (FileDiffLine.left_line_num x)
              && opt_eqb Z.eqb (FileDiffLine.right_line_num y) (FileDiffLine.right_line_num x)) eqn:E.
    + exfalso. apply andb_true_iff in E as [E1 E2]. apply opt_Z_eqb_eq in E1, E2.
      apply Hnot. apply in_map_iff. exists x. split; [|exact Hin].
      unfold line_position. now rewrite E1, E2.
    + now apply IH.
Qed.

Lemma hunk_positions (body : list string) (st st' : FileDiff.state) (l r : Z) :
  FileDiff.counters st = Some (l, r) ->
  Forall (fun line => FileDiff.position_match line = None) body ->
  FileDiff.run st body = Ok st' ->
  exists new,
    FileDiff.st_lines st' = (FileDiff.st_lines st ++ new)%list
    /\ NoDup (map line_position new)
    /\ Forall (at_or_after l r) new.
Proof.
  intros Hc Hb. revert st l r Hc.
  induction Hb as [|line body Hp _ IH]; intros st l r Hc Hrun.
  - cbn in Hrun. injection Hrun as <-. exists []. rewrite app_nil_r.
    repeat split; constructor.
  - cbn [FileDiff.run] in Hrun.
    destruct (FileDiff.step st line) as [st1|] eqn:E1; [|discriminate].
    cbn [bind] in Hrun.
    assert (Hforms : exists ol or' text l' r',
               st1 = FileDiff.append st ol or' text (l', r')
               /\ ((ol = Some l /\ l' = (l + 1)%Z) \/ (ol = None /\ l' = l))
               /\ ((or' = Some r /\ r' = (r + 1)%Z) \/ (or' = None /\ r' = r))
               /\ (ol <> None \/ or' <> None)).
    { destruct (Spec.is_body_line line) eqn:Hbl.
      - unfold Spec.is_body_line in Hbl.
        apply orb_true_iff in Hbl as [Hbl|Hplus];
          [apply orb_true_iff in Hbl as [Hsp|Hmi]|].
        + rewrite (step_context st line l r Hc Hsp) in E1. injection E1 as <-.
          do 5 eexists. split; [reflexivity|]. repeat split; auto. left. discriminate.
        + rewrite (step_deletion st line l r Hc Hmi) in E1. injection E1 as <-.
          do 5 eexists. split; [reflexivity|]. repeat split; auto. left. discriminate.
        + rewrite (step_addition st line l r Hc Hplus) in E1. injection E1 as <-.
          do 5 eexists. split; [reflexivity|]. repeat split; auto. right. discriminate.
      - destruct (step_other st line l r Hc Hbl Hp) as [msg E]. congruence. }
    destruct Hforms as (ol & or' & text & l' & r' & -> & Hl & Hr & Hsome).
    destruct (IH (FileDiff.append st ol or' text (l', r')) l' r' eq_refl Hrun)
      as (new & Hlines & Hnd & Hall).
    exists (FileDiffLine.make (FileDiff.st_filename st) ol or' text :: new).
    split; [|split].
    + rewrite Hlines. unfold FileDiff.append. cbn. now rewrite <- app_assoc.
    + cbn [map]. constructor; [|exact Hnd].
      intros Hin. apply in_map_iff in Hin as [y [Hy Hin]].
      rewrite Forall_forall in Hall. destruct (Hall y Hin) as [Hya Hyb].
      unfold line_position in Hy. cbn in Hy. injection Hy as Ha Hb'.
      destruct Hl as [[-> ->]|[-> ->]].
      * specialize (Hya l Ha). lia.
      * destruct Hr as [[-> ->]|[-> ->]].
        -- specialize (Hyb r Hb'). lia.
        -- destruct Hsome; congruence.
    + constructor.
      * split; cbn; intros z Hz; subst.
        -- destruct Hl as [[E _]|[E _]]; [injection E as <-; lia|discriminate].
        -- destruct Hr as [[E _]|[E _]]; [injection E as <-; lia|discriminate].
      * eapply Forall_impl; [|exact Hall]. intros y [Hya Hyb].
        split; intros z Hz.
        -- specialize (Hya z Hz). destruct Hl as [[_ ->]|[_ ->]]; lia.
        -- specialize (Hyb z Hz). destruct Hr as [[_ ->]|[_ ->]]; lia.
Qed.

(** In a diff of one hunk, [get_line] returns each line for its own pair
    of numbers. *)
Lemma hunk_lines_found_by_position
        (st st' : FileDiff.state) (l r : Z) (body : list string)
        (x : FileDiffLine.t)
        (Hempty : FileDiff.st_lines st = [])
        (Hc : FileDiff.counters st = Some (l, r))
        (Hbody : Forall (fun line => FileDiff.position_match line = None) body)
        (Hrun : FileDiff.run st body = Ok st')
        (Hin : In x (FileDiff.st_lines st')) :
  FileDiff.get_line (FileDiff.make (FileDiff.st_lines st') (FileDiff.st_filename st'))
                    (FileDiffLine.left_line_num x) (FileDiffLine.right_line_num x)
  = Ok x.
Proof.
  destruct (hunk_positions body st st' l r Hc Hbody Hrun) as (new & Hl & Hnd & _).
  rewrite Hempty in Hl. cbn [app] in Hl.
  unfold FileDiff.get_line. cbn [FileDiff.lines].
  rewrite Hl in Hin |- *. now rewrite (find_line_nodup new x Hnd Hin).
Qed.

Lemma run_no_header (ls : list string) (st st' : FileDiff.state) :
  FileDiff.counters st = None ->
  Forall (fun line => FileDiff.position_match line = None) ls ->
  FileDiff.run st ls = Ok st' -> FileDiff.counters st' = None.
Proof.
  intros Hc Hall. revert st Hc. induction Hall as [|x ls Hx _ IH]; intros st Hc H.
  - cbn in H. now injection H as <-.
  - cbn [FileDiff.run] in H.
    destruct (FileDiff.step st x) as [st1|] eqn:E; [|discriminate].
    cbn [bind] in H. apply (IH st1); [|exact H].
    exact (step_no_header st st1 x Hc Hx E).
Qed.

(** X10. In a parsed file diff with a single hunk no two lines carry
    the same pair of numbers: [get_line] on the numbers of any line of the
    diff returns that very line. *)
Theorem single_hunk_lines_found
        (pre body : list string) (header : string) (d : FileDiff.t)
        (x : FileDiffLine.t)
        (Hpre : Forall (fun line => FileDiff.position_match line = None) pre)
        (Hheader : FileDiff.position_match header <> None)
        (Hbody : Forall (fun line => FileDiff.position_match line = None) body)
        (Hparse : FileDiff.init (pre ++ header :: body) = Ok d)
        (Hin : In x (FileDiff.lines d)) :
  FileDiff.get_line d (FileDiffLine.left_line_num x)
                    (FileDiffLine.right_line_num x) = Ok x.
Proof.
  unfold FileDiff.init in Hparse. rewrite run_app in Hparse.
  destruct (FileDiff.run FileDiff.init_state pre) as [st0|] eqn:E0; [|discriminate].
  cbn [bind FileDiff.run] in Hparse.
  destruct (FileDiff.position_match header) as [[a b]|] eqn:Eh; [|congruence].
  assert (Hc0 : FileDiff.counters st0 = None)
    by exact (run_no_header pre FileDiff.init_state st0 eq_refl Hpre E0).
  assert (Hl0 : FileDiff.st_lines st0 = []).
  { apply (run_invariant pre FileDiff.init_state st0); [|exact E0|exact Hc0].
    split; [constructor|reflexivity]. }
  rewrite (step_header st0 header a b) in Hparse by assumption.
  cbn [bind] in Hparse.
  destruct (FileDiff.run _ body) as [st'|] eqn:E1; [|discriminate].
  cbn [bind] in Hparse. injection Hparse as <-.
  exact (hunk_lines_found_by_position
           (FileDiff.mk_state (FileDiff.st_lines st0) (FileDiff.st_filename st0)
                              (Some (a, b)))
           st' a b body x Hl0 eq_refl Hbody E1 Hin).
Qed.

Lemma single_hunk_lines_found_witness :
  FileDiff.get_line Sample.diff (Some 5%Z) None
  = Ok (FileDiffLine.make (Some "a.txt") (Some 5%Z) None "old").
Proof.
  refine (single_hunk_lines_found
            ["diff --git a/a.txt b/a.txt"; "index 83db48f..bf269f4 100644";
             "--- a/a.txt"; "+++ b/a.txt"]
            [" one"; "-old"; "+new"]
            "@@ -4,2 +4,2 @@ def f():" Sample.diff
            (FileDiffLine.make (Some "a.txt") (Some 5%Z) None "old")
            _ _ _ eq_refl (or_intror (or_introl eq_refl))).
  - repeat constructor.
  - vm_compute. discriminate.
  - repeat constructor.
Defined.

(* ------------------------------------------------------------------ *)
(** ** The file diffs of a change-set *)

(** Sorting raises nothing but [TypeError]. *)
Lemma insert_raises {V : Type} (x : option string * V) (l : list (option string * V)) (e : exn) :
  Sorting.insert Sorting.item_lt x l = Raise e -> e = TypeError.
Proof.
  induction l as [|y l IH]; [discriminate|]. cbn [Sorting.insert].
  destruct (Sorting.item_lt x y) as [b|e'] eqn:E; cbn [bind].
  - destruct b; [discriminate|].
    destruct (Sorting.insert Sorting.item_lt x l) as [r|e'']; cbn [bind];
      [discriminate|]. intros [= <-]. now apply IH.
  - intros [= <-]. unfold Sorting.item_lt in E.
    destruct (fst x), (fst y); try (now injection E as <-).
    destruct (String.eqb _ _); [now injection E as <-|discriminate].
Qed.

Lemma sorted_raises {V : Type} (l : list (option string * V)) (e : exn) :
  Sorting.sorted Sorting.item_lt l = Raise e -> e = TypeError.
Proof.
  induction l as [|x l IH]; [discriminate|]. cbn [Sorting.sorted].
  destruct (Sorting.sorted Sorting.item_lt l) as [s|e']; cbn [bind].
  - apply insert_raises.
  - intros [= <-]. now apply IH.
Qed.

Lemma sorted_all_named {V : Type} (items : list (option string * V)) :
  Sorted Spec.name_before items -> (2 <= List.length items)%nat ->
  Forall (fun y => fst y <> None) items.
Proof.
  induction 1 as [|x items Hs IH Hhd]; intros Hlen; [constructor|].
  inversion Hhd as [|y items' Hxy]; subst; [cbn in Hlen; lia|].
  unfold Spec.name_before in Hxy.
  destruct (fst x) eqn:Ex; [|contradiction].
  destruct (fst y) eqn:Ey; [|contradiction].
  constructor; [congruence|].
  destruct items' as [|z items''].
  - constructor; [congruence|constructor].
  - apply IH. cbn. lia.
Qed.

Lemma sorted_unnamed_raises {V : Type} (l : list (option string * V)) (v : V) :
  In (None, v) l -> (2 <= List.length l)%nat ->
  Sorting.sorted Sorting.item_lt l = Raise TypeError.
Proof.
  intros Hin Hlen.
  destruct (Sorting.sorted Sorting.item_lt l) as [items|e] eqn:E.
  - exfalso. destruct (sorted_ok_sorted l items E) as [Hperm Hs].
    assert (Hall := sorted_all_named items Hs).
    rewrite <- (Permutation_length Hperm) in Hall. specialize (Hall Hlen).
    rewrite Forall_forall in Hall.
    apply (Hall (None, v)); [|reflexivity].
    now apply (Permutation_in _ Hperm).
  - now rewrite (sorted_raises l e E).
Qed.

(** X11. A change-set that holds a file diff without a name (no path
    marker was read, as for a binary file) beside another file diff cannot
    be printed: sorting the file diffs compares the absent name and raises
    [TypeError]. *)
Theorem unnamed_diff_breaks_sorting (c : Commit.t) (d : FileDiff.t)
        (hl : @Dict.t match_key string) (ctx : option Z)
        (Hin : In (None, d) (Commit.file_diffs c))
        (Htwo : (2 <= List.length (Commit.file_diffs c))%nat) :
  Commit.print_stream c hl ctx = Raise TypeError.
Proof.
  unfold Commit.print_stream.
  now rewrite (sorted_unnamed_raises (Commit.file_diffs c) d Hin Htwo).
Qed.

Lemma unnamed_diff_breaks_sorting_witness :
  Commit.print_stream
    (Commit.make "7d3e9f" None None
       [(None, Sample.binary_diff); (Some "a.txt", Sample.diff)] "")
    [] None
  = Raise TypeError.
Proof.
  exact (unnamed_diff_breaks_sorting
           (Commit.make "7d3e9f" None None
              [(None, Sample.binary_diff); (Some "a.txt", Sample.diff)] "")
           Sample.binary_diff [] None (or_introl eq_refl) (le_n 2)).
Defined.

(** The dictionary built by [Commit.__init__]. *)

Lemma dict_set_well_keyed (ds : @Dict.t (option string) FileDiff.t) (d : FileDiff.t) :
  well_keyed ds ->
  Forall (fun l => FileDiffLine.filename l = FileDiff.filename d
                   /\ FileDiffPrint.margin_ok l = true) (FileDiff.lines d) ->
  well_keyed (Dict.set (opt_eqb String.eqb) ds (FileDiff.filename d) d).
Proof.
  intros [Hnd Hall] Hd. unfold well_keyed, Dict.keys in *.
  induction ds as [|[k v] ds IH]; cbn [Dict.set map].
  - split; [constructor; [intros []|constructor]|].
    constructor; [|constructor]. cbn [fst snd]. now split.
  - inversion Hnd as [|? ? Hnot Hnd']; subst.
    inversion Hall as [|? ? Hkv Hall']; subst.
    destruct (opt_eqb String.eqb (FileDiff.filename d) k) eqn:E.
    + apply opt_string_eqb_eq in E. subst k. cbn [map fst]. split.
      * now constructor.
      * constructor; [|exact Hall']. cbn [fst snd]. now split.
    + destruct (IH Hnd' Hall') as [Hnd1 Hall1]. cbn [map fst]. split.
      * constructor; [|exact Hnd1]. intros Hin.
        apply (dict_set_keys (opt_eqb String.eqb)) in Hin as [Hin|Hin];
          [now apply Hnot|].
        subst k. rewrite (proj2 (opt_string_eqb_eq _ _) eq_refl) in E. discriminate.
      * now constructor.
Qed.

Lemma collect_well_keyed (cs : list (list string))
      (acc ds : @Dict.t (option string) FileDiff.t) :
  well_keyed acc -> Commit.collect cs acc = Ok ds -> well_keyed ds.
Proof.
  revert acc. induction cs as [|c cs IH]; intros acc Hacc H.
  - cbn in H. now injection H as <-.
  - cbn [Commit.collect] in H.
    destruct (FileDiff.init c) as [d|] eqn:E; [|discriminate]. cbn [bind] in H.
    apply (IH _ (dict_set_well_keyed acc d Hacc (init_invariant c d E)) H).
Qed.

Lemma init_well_keyed (h : string) (show_lines : list string) (c : Commit.t) :
  Commit.init h show_lines = Ok c -> Commit.hash c = h /\ well_keyed (Commit.file_diffs c).
Proof.
  unfold Commit.init. intros H.
  destruct (Commit.run h _ show_lines) as [st|]; [|discriminate]. cbn [bind] in H.
  destruct (Commit.collect _ []) as [ds|] eqn:E; [|discriminate]. cbn [bind] in H.
  injection H as <-. cbn. split; [reflexivity|].
  apply (collect_well_keyed (Commit.file_diff_contents st) [] ds); [|exact E].
  split; constructor.
Qed.

(** X12. In a parsed change-set the hash is the one asked for, the
    file diffs are stored under pairwise different names, each one can be
    looked up under the name it carries, and every line of it carries that
    name. *)
Theorem commit_file_diffs_keyed (h : string) (show_lines : list string)
        (c : Commit.t) (Hparse : Commit.init h show_lines = Ok c) :
  Commit.hash c = h
  /\ NoDup (Dict.keys (Commit.file_diffs c))
  /\ forall k d, In (k, d) (Commit.file_diffs c) ->
       FileDiff.filename d = k
       /\ Dict.get (opt_eqb String.eqb) (Commit.file_diffs c) k = Some d
       /\ forall l, In l (FileDiff.lines d) -> FileDiffLine.filename l = k.
Proof.
  destruct (init_well_keyed h show_lines c Hparse) as [Hh [Hnd Hall]].
  split; [exact Hh|]. split; [exact Hnd|].
  intros k d Hin. rewrite Forall_forall in Hall.
  destruct (Hall _ Hin) as [Hk Hlines]. cbn [fst snd] in *.
  split; [now symmetry|]. split.
  - clear Hall Hk Hlines. unfold Dict.keys in Hnd.
    induction (Commit.file_diffs c) as [|[k' v'] ds IH]; [destruct Hin|].
    cbn [map fst] in Hnd. inversion Hnd as [|? ? Hnot Hnd']; subst.
    cbn [Dict.get]. destruct Hin as [[= -> ->]|Hin].
    + now rewrite (proj2 (opt_string_eqb_eq _ _) eq_refl).
    + destruct (opt_eqb String.eqb k k') eqn:E; [|now apply IH].
      apply opt_string_eqb_eq in E. subst k'. exfalso. apply Hnot.
      apply in_map_iff. now exists (k, d).
  - rewrite Forall_forall in Hlines. intros l Hl. now apply Hlines.
Qed.

Lemma commit_file_diffs_keyed_witness :
  Commit.hash Sample.commit = "7d3e9f"
  /\ NoDup (Dict.keys (Commit.file_diffs Sample.commit))
  /\ forall k d, In (k, d) (Commit.file_diffs Sample.commit) ->
       FileDiff.filename d = k
       /\ Dict.get (opt_eqb String.eqb) (Commit.file_diffs Sample.commit) k = Some d
       /\ forall l, In l (FileDiff.lines d) -> FileDiffLine.filename l = k.
Proof.
  exact (commit_file_diffs_keyed "7d3e9f" Sample.show_text Sample.commit eq_refl).
Defined.

(** Printing a parsed change-set. *)

Lemma print_files_ok (items : list (option string * FileDiff.t))
      (hl : @Dict.t match_key string) (ctx : option Z) :
  Forall (fun kd : option string * FileDiff.t =>
            Forall (fun l => FileDiffPrint.margin_ok l = true)
                   (FileDiff.lines (snd kd))) items ->
  exists evs, Commit.print_files items hl ctx = Ok evs.
Proof.
  induction 1 as [|[k d] items Hd _ [more IH]]; [now exists []|].
  cbn [Commit.print_files]. unfold Commit.print_file.
  destruct (is_some ctx && is_empty_list _).
  - cbn [bind]. rewrite IH. cbn [bind]. now eexists.
  - unfold FileDiffPrint.print_stream. cbn [snd] in Hd.
    destruct (FileDiff.lines d) as [|l ls] eqn:El.
    + cbn [bind]. rewrite IH. cbn [bind]. now eexists.
    + rewrite (proj2 (forallb_forall _ _)).
      * cbn [bind]. rewrite IH. cbn [bind]. now eexists.
      * rewrite Forall_forall in Hd. exact Hd.
Qed.

(** X13. A parsed change-set in which every file diff has a name is
    printed without an exception, whatever the highlights and the context
    distance, and the first thing written is its header. *)
Theorem parsed_commit_prints (h : string) (show_lines : list string)
        (c : Commit.t) (hl : @Dict.t match_key string) (ctx : option Z)
        (Hparse : Commit.init h show_lines = Ok c)
        (Hnamed : Forall (fun k => k <> None) (Dict.keys (Commit.file_diffs c))) :
  exists evs,
    Commit.print_stream c hl ctx
    = Ok (WriteHeader h (Commit.author c) (Commit.date c)
                      (Commit.commit_message c) :: evs).
Proof.
  destruct (init_well_keyed h show_lines c Hparse) as [Hh [Hnd Hall]].
  unfold Commit.print_stream.
  destruct (sorted_items_ok (Commit.file_diffs c)) as (items & -> & Hperm & _).
  - unfold Dict.keys in Hnamed. rewrite Forall_map in Hnamed.
    eapply Forall_impl; [|exact Hnamed]. intros [[k|] d] Hk; [reflexivity|].
    now contradiction Hk.
  - exact Hnd.
  - cbn [bind].
    destruct (print_files_ok items hl ctx) as [evs ->].
    + apply Forall_forall. intros kd Hkd.
      apply (Permutation_in _ (Permutation_sym Hperm)) in Hkd.
      rewrite Forall_forall in Hall. destruct (Hall kd Hkd) as [_ Hl].
      eapply Forall_impl; [|exact Hl]. now intros l [_ Hm].
    + cbn [bind]. rewrite Hh. now exists evs.
Qed.

Lemma parsed_commit_prints_witness :
  exists evs,
    Commit.print_stream Sample.commit [] None
    = Ok (WriteHeader "7d3e9f" (Commit.author Sample.commit)
            (Commit.date Sample.commit) (Commit.commit_message Sample.commit)
          :: evs).
Proof.
  refine (parsed_commit_prints "7d3e9f" Sample.show_text Sample.commit [] None
            eq_refl _).
  repeat constructor; discriminate.
Defined.

(* ------------------------------------------------------------------ *)
(** ** Reading the output of [git show] *)

Lemma append_last_snoc (cs : list (list string)) (c : list string) (line : string) :
  Commit.append_last (cs ++ [c])%list line = (cs ++ [c ++ [line]])%list.
Proof.
  induction cs as [|x cs IH]; [reflexivity|].
  cbn [app Commit.append_last]. rewrite IH.
  destruct cs; reflexivity.
Qed.

Lemma diff_start_not_header (line : string) :
  Str.startswith line "diff" = true ->
  is_empty line = false
  /\ Str.startswith line "commit" = false
  /\ Str.startswith line "Author:" = false
  /\ Str.startswith line "Date:" = false.
Proof.
  intros H. destruct (startswith_first line "iff" "d" H) as [r ->].
  repeat split; rewrite ?startswith_head; reflexivity.
Qed.

Lemma step_diff_start (h : string) (st : Commit.state) (line : string) :
  Str.startswith line "diff" = true ->
  Commit.step h st line
  = Ok (Commit.mk_state (Commit.st_author st) (Commit.st_date st)
          (Commit.st_message st) (Commit.file_diff_contents st ++ [[line]])%list).
Proof.
  intros H. destruct (diff_start_not_header line H) as (H0 & H1 & H2 & H3).
  unfold Commit.step. rewrite H0, H1, H2, H3, H.
  pose proof (append_last_snoc (Commit.file_diff_contents st) [] line) as E.
  destruct (Commit.file_diff_contents st ++ [[]])%list eqn:Ecs.
  - now destruct (Commit.file_diff_contents st).
  - now rewrite E.
Qed.

Lemma commit_run_app (h : string) (a b : list string) (st : Commit.state) :
  Commit.run h st (a ++ b)%list = (st' <- Commit.run h st a ;; Commit.run h st' b).
Proof.
  revert st. induction a as [|x a IH]; intros st; [reflexivity|].
  cbn [app Commit.run]. destruct (Commit.step h st x); [apply IH|reflexivity].
Qed.

Lemma step_continuation (h : string) (st : Commit.state) (line : string)
      (cs : list (list string)) (c : list string) :
  continuation line = true ->
  Commit.file_diff_contents st = (cs ++ [c])%list ->
  Commit.step h st line
  = Ok (Commit.mk_state (Commit.st_author st) (Commit.st_date st)
          (Commit.st_message st) (cs ++ [c ++ [line]])%list).
Proof.
  unfold continuation. intros H Hcs.
  repeat (apply andb_true_iff in H as [H ?]).
  unfold Commit.step.
  repeat match goal with
  | Hn : negb ?b = true |- _ => apply negb_true_iff in Hn; rewrite Hn
  end.
  rewrite Hcs. rewrite <- append_last_snoc.
  now destruct (cs ++ [c])%list eqn:E; [destruct cs|].
Qed.

Lemma run_body (h : string) (body : list string) (st : Commit.state)
      (cs : list (list string)) (c : list string) :
  Forall (fun line => continuation line = true) body ->
  Commit.file_diff_contents st = (cs ++ [c])%list ->
  Commit.run h st body
  = Ok (Commit.mk_state (Commit.st_author st) (Commit.st_date st)
          (Commit.st_message st) (cs ++ [c ++ body])%list).
Proof.
  intros Hb. revert st c. induction Hb as [|line body Hl _ IH]; intros st c Hcs.
  - cbn. rewrite app_nil_r, <- Hcs. now destruct st.
  - cbn [Commit.run]. rewrite (step_continuation h st line cs c Hl Hcs).
    cbn [bind]. erewrite IH; [|reflexivity]. cbn.
    now rewrite <- app_assoc.
Qed.

Lemma run_chunks (h : string) (chunks : list (list string)) (st : Commit.state) :
  Forall chunk_ok chunks ->
  Commit.run h st (List.concat chunks)
  = Ok (Commit.mk_state (Commit.st_author st) (Commit.st_date st)
          (Commit.st_message st) (Commit.file_diff_contents st ++ chunks)%list).
Proof.
  intros Hc. revert st. induction Hc as [|chunk chunks Hk _ IH]; intros st.
  - cbn. rewrite app_nil_r. now destruct st.
  - destruct chunk as [|first body]; [destruct Hk|]. destruct Hk as [Hf Hb].
    cbn [List.concat app Commit.run]. rewrite (step_diff_start h st first Hf).
    cbn [bind]. rewrite commit_run_app.
    erewrite (run_body h body _ (Commit.file_diff_contents st) [first] Hb); [|reflexivity].
    cbn [bind]. rewrite IH. cbn. now rewrite <- app_assoc.
Qed.

Lemma step_indent (h : string) (st : Commit.state) (m : string) :
  Commit.file_diff_contents st = [] ->
  Commit.step h st (indent m)
  = Ok (Commit.mk_state (Commit.st_author st) (Commit.st_date st)
          (Commit.st_message st ++ [m])%list []).
Proof.
  intros Hcs. unfold Commit.step, indent. cbn [append is_empty].
  rewrite !startswith_head. cbv [Ascii.eqb Bool.eqb]. cbn [andb].
  rewrite Hcs. reflexivity.
Qed.

Lemma run_message (h : string) (msg : list string) (st : Commit.state) :
  Commit.file_diff_contents st = [] ->
  Commit.run h st (map indent msg)
  = Ok (Commit.mk_state (Commit.st_author st) (Commit.st_date st)
          (Commit.st_message st ++ msg)%list []).
Proof.
  revert st. induction msg as [|m msg IH]; intros st Hcs.
  - cbn. rewrite app_nil_r, <- Hcs. now destruct st.
  - cbn [map Commit.run]. rewrite (step_indent h st m Hcs). cbn [bind].
    rewrite IH by reflexivity. cbn. now rewrite <- app_assoc.
Qed.

(** X14. The output of [git show] is read as follows: the hash line is
    checked, the author and the date are trimmed, the message lines lose
    their four characters of indentation and are joined with newlines, and
    the rest is cut into one list of lines for each file diff at the lines
    that begin with [diff]. *)
Theorem show_output_layout (h a d : string) (msg : list string)
        (chunks : list (list string))
        (Hchunks : Forall chunk_ok chunks) :
  Commit.init h
    (("commit " ++ h)%string :: ("Author: " ++ a)%string
       :: ("Date:   " ++ d)%string :: ""
       :: map indent msg ++ "" :: List.concat chunks)%list
  = (ds <- Commit.collect chunks [] ;;
     Ok (Commit.make h (Some (Str.strip a)) (Some (Str.strip d)) ds
           (String.concat Commit.newline msg))).
Proof.
  unfold Commit.init. cbn [Commit.run].
  assert (E1 : forall st, Commit.step h st ("commit " ++ h) = Ok st).
  { intros st. unfold Commit.step. cbn [append is_empty].
    rewrite !startswith_head. cbv [Ascii.eqb Bool.eqb]. cbn [andb].
    rewrite startswith_nil. cbn [Str.drop]. now rewrite String.eqb_refl. }
  rewrite E1. cbn [bind].
  assert (E2 : forall st, Commit.step h st ("Author: " ++ a)
                = Ok (Commit.mk_state (Some (Str.strip a)) (Commit.st_date st)
                        (Commit.st_message st) (Commit.file_diff_contents st))).
  { intros st. unfold Commit.step. cbn [append is_empty].
    rewrite !startswith_head. cbv [Ascii.eqb Bool.eqb]. cbn [andb].
    rewrite startswith_nil. reflexivity. }
  rewrite E2. cbn [bind].
  assert (E3 : forall st, Commit.step h st ("Date:   " ++ d)
                = Ok (Commit.mk_state (Commit.st_author st) (Some (Str.strip d))
                        (Commit.st_message st) (Commit.file_diff_contents st))).
  { intros st. unfold Commit.step. cbn [append is_empty].
    rewrite !startswith_head. cbv [Ascii.eqb Bool.eqb]. cbn [andb].
    rewrite startswith_nil. reflexivity. }
  rewrite E3. cbn [bind].
  change (Commit.step h ?st "") with (Ok st). cbn [bind].
  rewrite commit_run_app, run_message by reflexivity. cbn [bind Commit.run].
  change (Commit.step h ?st "") with (Ok st). cbn [bind].
  rewrite (run_chunks h chunks _ Hchunks). cbn.
  reflexivity.
Qed.

Lemma show_output_layout_witness :
  Commit.init "7d3e9f" Sample.show_text = Ok Sample.commit.
Proof.
  refine (show_output_layout "7d3e9f" "A. Hacker <a@example.org>"
            "Mon Jan 1 00:00:00 2024 +0000" ["change one line"]
            [Sample.diff_text] _).
  repeat constructor.
Defined.

(* ------------------------------------------------------------------ *)
(** ** Reading the output of [git blame] *)

Lemma split_ws_cons (c : ascii) (r : string) :
  Text.split_ws (String c r)
  = if Str.isspace c then Text.split_ws r
    else match r with
         | EmptyString => [String c EmptyString]
         | String d _ =>
             if Str.isspace d then String c EmptyString :: Text.split_ws r
             else match Text.split_ws r with
                  | [] => [String c EmptyString]
                  | f :: fs => String c f :: fs
                  end
         end.
Proof. destruct r; reflexivity. Qed.

Lemma split_ws_lstrip (s : string) : Text.split_ws (Str.lstrip s) = Text.split_ws s.
Proof.
  induction s as [|c r IH]; [reflexivity|].
  cbn [Str.lstrip]. rewrite (split_ws_cons c r).
  destruct (Str.isspace c) eqn:E; [exact IH|].
  now rewrite split_ws_cons, E.
Qed.

Lemma rstrip_head (d : ascii) (r : string) (d' : ascii) (r' : string) :
  Str.rstrip (String d r) = String d' r' -> d = d'.
Proof.
  cbn [Str.rstrip]. destruct (Str.rstrip r).
  - destruct (Str.isspace d); [discriminate|]. now intros [= -> _].
  - now intros [= -> _].
Qed.

Lemma split_ws_rstrip (s : string) : Text.split_ws (Str.rstrip s) = Text.split_ws s.
Proof.
  induction s as [|c r IH]; [reflexivity|].
  cbn [Str.rstrip]. rewrite (split_ws_cons c r).
  destruct (Str.rstrip r) as [|d' r'] eqn:Er.
  - change (Text.split_ws EmptyString) with (@nil string) in IH.
    destruct (Str.isspace c) eqn:Ec; [now rewrite <- IH|].
    rewrite split_ws_cons, Ec. rewrite <- IH.
    destruct r as [|d r0]; [reflexivity|]. now destruct (Str.isspace d).
  - destruct r as [|d r0]; [discriminate|].
    pose proof (rstrip_head d r0 d' r' Er) as <-.
    rewrite (split_ws_cons c (String d r')).
    destruct (Str.isspace c); [exact IH|].
    destruct (Str.isspace d); now rewrite IH.
Qed.

Lemma split_ws_strip (s : string) : Text.split_ws (Str.strip s) = Text.split_ws s.
Proof. unfold Str.strip. now rewrite split_ws_rstrip, split_ws_lstrip. Qed.

Lemma split_ws_blank (b rest : string) :
  Str.forallb Str.isspace b = true -> Text.split_ws (b ++ rest) = Text.split_ws rest.
Proof.
  induction b as [|c b IH]; [reflexivity|].
  cbn [Str.forallb append]. intros H.
  apply andb_true_iff in H as [Hc Hb]. rewrite split_ws_cons, Hc. now apply IH.
Qed.

Lemma split_ws_field_space (w : string) (sp : ascii) (rest : string) :
  w <> EmptyString ->
  Str.forallb (fun c => negb (Str.isspace c)) w = true ->
  Str.isspace sp = true ->
  Text.split_ws (w ++ String sp rest) = w :: Text.split_ws rest.
Proof.
  intros Hne Hw Hsp. induction w as [|c w IH]; [contradiction|].
  cbn [Str.forallb] in Hw. apply andb_true_iff in Hw as [Hc Hw].
  apply negb_true_iff in Hc.
  cbn [append]. rewrite split_ws_cons, Hc.
  destruct w as [|d w'].
  - cbn [append]. rewrite Hsp. now rewrite (split_ws_cons sp rest), Hsp.
  - assert (Hd : Str.isspace d = false).
    { cbn [Str.forallb] in Hw. apply andb_true_iff in Hw as [Hd _].
      now apply negb_true_iff in Hd. }
    cbn [append]. rewrite Hd.
    change (String d (w' ++ String sp rest)) with (String d w' ++ String sp rest).
    rewrite IH by (try discriminate; assumption). reflexivity.
Qed.

Lemma split_ws_field (w : string) :
  w <> EmptyString ->
  Str.forallb (fun c => negb (Str.isspace c)) w = true ->
  Text.split_ws w = [w].
Proof.
  intros Hne Hw. induction w as [|c w IH]; [contradiction|].
  cbn [Str.forallb] in Hw. apply andb_true_iff in Hw as [Hc Hw].
  apply negb_true_iff in Hc. rewrite split_ws_cons, Hc.
  destruct w as [|d w']; [reflexivity|].
  assert (Hd : Str.isspace d = false).
  { cbn [Str.forallb] in Hw. apply andb_true_iff in Hw as [Hd _].
    now apply negb_true_iff in Hd. }
  rewrite Hd, IH by (try discriminate; assumption). reflexivity.
Qed.

Lemma split_ws_field_blank (w b rest : string) :
  w <> EmptyString ->
  Str.forallb (fun c => negb (Str.isspace c)) w = true ->
  b <> EmptyString -> Str.forallb Str.isspace b = true ->
  Text.split_ws (w ++ b ++ rest) = w :: Text.split_ws rest.
Proof.
  intros Hne Hw Hb Hbs. destruct b as [|sp b]; [contradiction|].
  cbn [Str.forallb] in Hbs. apply andb_true_iff in Hbs as [Hsp Hbs].
  cbn [append]. rewrite split_ws_field_space by assumption.
  now rewrite split_ws_blank.
Qed.

Lemma find_from_app (c : ascii) (pre rest : string) (i : Z) :
  Str.contains c pre = false ->
  Text.find_from c (pre ++ String c rest) i = (i + Z.of_nat (String.length pre))%Z.
Proof.
  revert i. induction pre as [|x pre IH]; intros i H.
  - cbn [append Text.find_from String.length]. rewrite ascii_eqb_refl. cbn. lia.
  - cbn [Str.contains] in H. apply orb_false_iff in H as [Hx Hp].
    cbn [append Text.find_from]. rewrite Hx, IH by assumption.
    cbn [String.length]. lia.
Qed.

Lemma take_app (pre rest : string) :
  Text.take (String.length pre) (pre ++ rest) = pre.
Proof. induction pre as [|x pre IH]; [now destruct rest|]. cbn. now rewrite IH. Qed.

Lemma drop_app (pre rest : string) :
  Str.drop (String.length pre) (pre ++ rest) = rest.
Proof. induction pre as [|x pre IH]; [reflexivity|]. exact IH. Qed.

Lemma slice_to_app (pre rest : string) :
  Text.slice_to (pre ++ rest) (Z.of_nat (String.length pre)) = pre.
Proof.
  unfold Text.slice_to. destruct (Z.ltb_spec (Z.of_nat (String.length pre)) 0); [lia|].
  now rewrite Nat2Z.id, take_app.
Qed.

Lemma slice_from_app (pre rest : string) (k : nat) :
  Text.slice_from (pre ++ rest) (Z.of_nat (String.length pre) + Z.of_nat k)
  = Str.drop k rest.
Proof.
  unfold Text.slice_from.
  destruct (Z.ltb_spec (Z.of_nat (String.length pre) + Z.of_nat k) 0); [lia|].
  rewrite <- Nat2Z.inj_add, Nat2Z.id. clear H.
  induction pre as [|x pre IH]; [reflexivity|]. exact IH.
Qed.

Lemma space_not_paren (c : ascii) : Str.isspace c = true -> Ascii.eqb ")" c = false.
Proof.
  intros H. destruct (Ascii.eqb_spec ")" c) as [<-|]; [discriminate|reflexivity].
Qed.

Lemma blank_no_paren (b : string) :
  Str.forallb Str.isspace b = true -> Str.contains ")" b = false.
Proof.
  induction b as [|c b IH]; [reflexivity|]. cbn [Str.forallb Str.contains].
  intros H. apply andb_true_iff in H as [Hc Hb].
  now rewrite (space_not_paren c Hc), IH.
Qed.

Lemma of_nat_field (n : nat) : field (Str.of_nat n).
Proof.
  destruct (of_nat_digits n) as (Hne & Hall & _). split; [exact Hne|]. split.
  - eapply forallb_impl; [|exact Hall]. intros c Hc.
    now rewrite (digit_not_space c Hc).
  - now apply digits_no_char.
Qed.

(** Where the fields of a line of [git blame] end, what they are, and the
    text after them. *)
Lemma blame_line_split (h f o c s1 s2 s3 text : string) :
  field h -> field f -> field o -> field c ->
  blank s1 -> blank s2 -> blank s3 ->
  let line := h ++ s1 ++ f ++ s2 ++ o ++ s3 ++ c ++ ") " ++ text in
  Text.split_ws (Str.strip (Text.slice_to line (Text.find ")" line)))
  = [h; f; o; c]
  /\ Text.slice_from line (Text.find ")" line + 2) = text.
Proof.
  intros (Hh1 & Hh2 & Hh3) (Hf1 & Hf2 & Hf3) (Ho1 & Ho2 & Ho3) (Hc1 & Hc2 & Hc3).
  intros [N1 B1] [N2 B2] [N3 B3] line.
  set (pre := h ++ s1 ++ f ++ s2 ++ o ++ s3 ++ c).
  assert (Eline : line = pre ++ String ")" (" " ++ text)).
  { unfold line, pre. now rewrite !string_app_assoc. }
  rewrite Eline. clear Eline line.
  assert (Hpre : Str.contains ")" pre = false).
  { unfold pre. rewrite !contains_app, Hh3, Hf3, Ho3, Hc3.
    now rewrite !blank_no_paren by assumption. }
  unfold Text.find.
  rewrite (find_from_app ")" pre _ 0 Hpre). rewrite Z.add_0_l. split.
  - rewrite slice_to_app, split_ws_strip. unfold pre.
    now rewrite (split_ws_field_blank h s1), (split_ws_field_blank f s2),
      (split_ws_field_blank o s3), (split_ws_field c) by assumption.
  - change 2%Z with (Z.of_nat 2). now rewrite slice_from_app.
Qed.

(** X15. A line of [git blame -slfn] is read back field by field:
    hash, file name, original and current line number, separated by any
    white space, up to the first closing parenthesis; the text after
    the parenthesis and one more character is kept as it is. *)
Theorem blame_line_fields (h f s1 s2 s3 text : string) (o c : nat)
        (Hh : field h) (Hf : field f)
        (H1 : blank s1) (H2 : blank s2) (H3 : blank s3) :
  FileBlameInit.parse_line
    (h ++ s1 ++ f ++ s2 ++ Str.of_nat o ++ s3 ++ Str.of_nat c ++ ") " ++ text)
  = Ok (LineBlame.make f (Z.of_nat o) (Z.of_nat c) h text).
Proof.
  destruct (blame_line_split h f (Str.of_nat o) (Str.of_nat c) s1 s2 s3 text)
    as [Efields Etext]; try assumption; try apply of_nat_field.
  unfold FileBlameInit.parse_line. cbv zeta in *.
  rewrite Efields, Etext, !int_of_nat. reflexivity.
Qed.

Lemma blame_line_fields_witness :
  FileBlameInit.parse_line "7d3e9f1a src/a.py  5  7) x = compute(a, b)"
  = Ok (LineBlame.make "src/a.py" 5 7 "7d3e9f1a" "x = compute(a, b)").
Proof.
  refine (blame_line_fields "7d3e9f1a" "src/a.py" " " "  " "  "
            "x = compute(a, b)" 5 7 _ _ _ _ _);
    repeat split; (discriminate || reflexivity).
Defined.

(** X16. A file name with a space in it gives five fields where four
    are unpacked: the constructor raises [ValueError]. *)
Theorem blame_line_name_with_space (h f1 f2 s1 s2 s3 text : string) (o c : nat)
        (Hh : field h) (Hf1 : field f1) (Hf2 : field f2)
        (H1 : blank s1) (H2 : blank s2) (H3 : blank s3) :
  FileBlameInit.parse_line
    (h ++ s1 ++ (f1 ++ " " ++ f2) ++ s2 ++ Str.of_nat o ++ s3 ++ Str.of_nat c
       ++ ") " ++ text)
  = Raise ValueError.
Proof.
  destruct Hh as (Hh1 & Hh2 & Hh3), Hf1 as (Hf1 & Hf1' & Hf1'').
  destruct Hf2 as (Hf2 & Hf2' & Hf2'').
  destruct H1 as [N1 B1], H2 as [N2 B2], H3 as [N3 B3].
  destruct (of_nat_field o) as (Ho1 & Ho2 & Ho3).
  destruct (of_nat_field c) as (Hc1 & Hc2 & Hc3).
  set (pre := h ++ s1 ++ f1 ++ " " ++ f2 ++ s2 ++ Str.of_nat o ++ s3 ++ Str.of_nat c).
  assert (Eline : h ++ s1 ++ (f1 ++ " " ++ f2) ++ s2 ++ Str.of_nat o ++ s3
                    ++ Str.of_nat c ++ ") " ++ text
                  = pre ++ String ")" (" " ++ text)).
  { unfold pre. now rewrite !string_app_assoc. }
  rewrite Eline. clear Eline.
  assert (Hpre : Str.contains ")" pre = false).
  { unfold pre. rewrite !contains_app, Hh3, Hf1'', Hf2'', Ho3, Hc3.
    now rewrite !blank_no_paren by (assumption || reflexivity). }
  unfold FileBlameInit.parse_line, Text.find.
  rewrite (find_from_app ")" pre _ 0 Hpre). rewrite Z.add_0_l.
  rewrite slice_to_app, split_ws_strip.
  unfold pre.
  rewrite (split_ws_field_blank h s1), (split_ws_field_blank f1 " "),
    (split_ws_field_blank f2 s2),
    (split_ws_field_blank (Str.of_nat o) s3), (split_ws_field (Str.of_nat c))
    by (assumption || discriminate || reflexivity).
  reflexivity.
Qed.

Lemma blame_line_name_with_space_witness :
  FileBlameInit.parse_line "7d3e9f1a my file.py 5 7) x = 1" = Raise ValueError.
Proof.
  refine (blame_line_name_with_space "7d3e9f1a" "my" "file.py" " " " " " "
            "x = 1" 5 7 _ _ _ _ _ _);
    repeat split; (discriminate || reflexivity).
Defined.

(* ------------------------------------------------------------------ *)
(** ** The completer and the entry point *)

Lemma py_index_nat {A : Type} (l : list A) (i : nat) :
  py_index l (Z.of_nat i)
  = match nth_error l i with Some a => Ok a | None => Raise IndexError end.
Proof.
  unfold py_index. destruct (Z.ltb_spec (Z.of_nat i) 0); [lia|].
  destruct (Z.ltb_spec (Z.of_nat i) 0); [lia|].
  now rewrite Nat2Z.id.
Qed.

(** X17. The completer offers only names that begin with the typed
    text, each with the suffix; every such name is offered at some state;
    and from the number of such names on it returns [None]. *)
Theorem complete_filenames_enumerates (text suffix : string) (filenames : list string) :
  (forall state m,
      complete_filenames text state filenames suffix = Some m ->
      exists s, In s filenames /\ Str.startswith s text = true /\ m = s ++ suffix)
  /\ (forall s, In s filenames -> Str.startswith s text = true ->
        exists i : nat,
          complete_filenames text (Z.of_nat i) filenames suffix = Some (s ++ suffix))
  /\ (forall i : nat,
        (List.length (filter (fun s => Str.startswith s text) filenames) <= i)%nat ->
        complete_filenames text (Z.of_nat i) filenames suffix = None).
Proof.
  unfold complete_filenames.
  set (matching := filter (fun s => Str.startswith s text) filenames).
  split; [|split].
  - intros state m H.
    destruct (py_index _ state) as [x|] eqn:E; [|discriminate]. injection H as <-.
    unfold py_index in E.
    destruct (_ <? 0)%Z; [discriminate|].
    destruct (nth_error _ _) as [y|] eqn:En; [|discriminate]. injection E as <-.
    apply nth_error_In, in_map_iff in En as (s & <- & Hs).
    apply filter_In in Hs as [Hin Hst]. now exists s.
  - intros s Hin Hst.
    assert (Hm : In s matching) by (apply filter_In; now split).
    apply In_nth_error in Hm as [i Hi]. exists i.
    rewrite py_index_nat, nth_error_map, Hi. reflexivity.
  - intros i Hi. rewrite py_index_nat, nth_error_map.
    now rewrite (proj2 (nth_error_None matching i) Hi).
Qed.

(** [os.path.join] and the entry point. *)

Lemma startswith_app (a b : string) : Str.startswith (a ++ b) a = true.
Proof.
  induction a as [|x a IH]; [apply startswith_nil|].
  cbn [append]. now rewrite startswith_head, ascii_eqb_refl.
Qed.

Lemma join_step_empty (b : string) : Text.join_step EmptyString b = b.
Proof. unfold Text.join_step. now destruct (Str.startswith b "/"). Qed.

Lemma join_all_snoc (parts : list string) (b : string) :
  Main.join_all (parts ++ [b])%list
  = match parts with
    | [] => b
    | _ => Text.join_step (Main.join_all parts) b
    end.
Proof.
  destruct parts as [|a p]; [reflexivity|].
  cbn [app Main.join_all]. unfold Text.join. now rewrite fold_left_app.
Qed.

Lemma join_all_absolute (parts : list string) (b : string) :
  Str.startswith b "/" = true -> Main.join_all (parts ++ [b])%list = b.
Proof.
  intros H. rewrite join_all_snoc. destruct parts; [reflexivity|].
  unfold Text.join_step. now rewrite H.
Qed.

(** X18. Run from the top of the repository, the entry point hands on
    the file and line as they were given. *)
Theorem target_at_top_level (base_dir target_position : string) :
  Main.target base_dir base_dir target_position
  = Main.parse_target_position target_position.
Proof.
  unfold Main.target, Main.extra_dirs.
  pose proof (startswith_app base_dir EmptyString) as H.
  rewrite string_app_nil_r in H. rewrite H. cbn [assert bind].
  pose proof (drop_app base_dir EmptyString) as D.
  rewrite string_app_nil_r in D. rewrite D.
  cbn [Text.strip_char Text.lstrip_char Text.rstrip_char Str.split app].
  destruct (Main.parse_target_position target_position) as [[fn n]|e];
    [|reflexivity].
  cbn [bind fst snd Main.join_all]. unfold Text.join. cbn [fold_left].
  now rewrite join_step_empty.
Qed.

(** X19. A file name that begins with [/] is handed on unchanged,
    whatever the working directory below the top of the repository:
    [os.path.join] drops what precedes such a component. *)
Theorem target_absolute_name (base_dir current_dir target_position fn : string)
        (n : option Z)
        (Hinside : Str.startswith current_dir base_dir = true)
        (Hparse : Main.parse_target_position target_position = Ok (fn, n))
        (Habs : Str.startswith fn "/" = true) :
  Main.target base_dir current_dir target_position = Ok (fn, n).
Proof.
  unfold Main.target. rewrite Hinside, Hparse. cbn [assert bind fst snd].
  now rewrite join_all_absolute.
Qed.

Lemma target_absolute_name_witness :
  Main.target "/repo" "/repo/src" "/etc/hosts:3" = Ok ("/etc/hosts", Some 3%Z).
Proof.
  exact (target_absolute_name "/repo" "/repo/src" "/etc/hosts:3" "/etc/hosts"
           (Some 3%Z) eq_refl eq_refl eq_refl).
Defined.

Lemma rstrip_char_free (c : ascii) (w : string) :
  Str.contains c w = false -> Text.rstrip_char c w = w.
Proof.
  induction w as [|x w IH]; [reflexivity|].
  cbn [Str.contains Text.rstrip_char]. intros H.
  apply orb_false_iff in H as [Hx Hw]. rewrite (IH Hw), Hx. now destruct w.
Qed.

Lemma rstrip_char_app (c : ascii) (a w : string) :
  w <> EmptyString -> Str.contains c w = false ->
  Text.rstrip_char c (a ++ w) = a ++ w.
Proof.
  intros Hne Hw. induction a as [|x a IH]; [now apply rstrip_char_free|].
  cbn [append Text.rstrip_char]. rewrite IH.
  destruct (a ++ w) eqn:E; [|reflexivity].
  destruct a; [cbn in E; contradiction|discriminate].
Qed.

Lemma endswith_char_free (c : ascii) (w : string) :
  Str.contains c w = false -> Text.endswith_char w c = false.
Proof.
  induction w as [|x w IH]; [reflexivity|].
  cbn [Str.contains]. intros H. apply orb_false_iff in H as [Hx Hw].
  cbn [Text.endswith_char]. destruct w; [exact Hx|now apply IH].
Qed.

Lemma endswith_char_app (c : ascii) (a w : string) :
  w <> EmptyString -> Str.contains c w = false ->
  Text.endswith_char (a ++ w) c = false.
Proof.
  intros Hne Hw. induction a as [|x a IH]; [now apply endswith_char_free|].
  cbn [append Text.endswith_char]. destruct (a ++ w) eqn:E; [|exact IH].
  destruct a; [cbn in E; contradiction|discriminate].
Qed.

(** [sep.join(parts)] ends with its last part. *)
Lemma concat_last (sep : string) (parts : list string) (w : string) :
  exists a, String.concat sep (parts ++ [w])%list = a ++ w.
Proof.
  induction parts as [|x parts [a IH]]; [now exists EmptyString|].
  cbn [app]. destruct parts as [|y parts].
  - exists (x ++ sep). cbn. now rewrite string_app_assoc.
  - exists (x ++ sep ++ a).
    change (String.concat sep (x :: (y :: parts) ++ [w])%list)
      with (x ++ sep ++ String.concat sep ((y :: parts) ++ [w])%list).
    rewrite IH. now rewrite !string_app_assoc.
Qed.

Lemma concat_snoc (sep : string) (parts : list string) (w : string) :
  parts <> [] ->
  String.concat sep (parts ++ [w])%list = String.concat sep parts ++ sep ++ w.
Proof.
  induction parts as [|x parts IH]; [contradiction|]. intros _.
  destruct parts as [|y parts]; [reflexivity|].
  change (String.concat sep ((x :: y :: parts) ++ [w])%list)
    with (x ++ sep ++ String.concat sep ((y :: parts) ++ [w])%list).
  rewrite IH by discriminate.
  change (String.concat sep (x :: y :: parts))
    with (x ++ sep ++ String.concat sep (y :: parts)).
  now rewrite !string_app_assoc.
Qed.

Lemma split_concat (dirs : list string) :
  dirs <> [] -> Forall component dirs ->
  Str.split "/" (String.concat "/" dirs) = dirs.
Proof.
  intros Hne Hall. induction Hall as [|d dirs [Hd1 Hd2] Hall IH]; [contradiction|].
  destruct dirs as [|e dirs]; [now apply split_none|].
  change (String.concat "/" (d :: e :: dirs))
    with (d ++ String "/" (String.concat "/" (e :: dirs))).
  rewrite split_app by assumption. now rewrite IH.
Qed.

Lemma join_concat (dirs : list string) :
  dirs <> [] -> Forall component dirs ->
  Main.join_all dirs = String.concat "/" dirs.
Proof.
  intros Hne Hall.
  induction dirs as [|d dirs IH] using rev_ind; [contradiction|].
  apply Forall_app in Hall as [Hall Hd]. inversion Hd as [|? ? [Hd1 Hd2] _]; subst.
  rewrite join_all_snoc. destruct dirs as [|e dirs]; [reflexivity|].
  rewrite IH by (try discriminate; assumption).
  rewrite concat_snoc by discriminate.
  unfold Text.join_step.
  assert (Hs : Str.startswith d "/" = false).
  { destruct d as [|x d]; [contradiction|]. rewrite startswith_head.
    cbn [Str.contains] in Hd2. apply orb_false_iff in Hd2 as [-> _]. reflexivity. }
  rewrite Hs.
  destruct (@exists_last _ (e :: dirs)) as (front & w & E); [discriminate|].
  rewrite E in *. apply Forall_app in Hall as [_ Hw].
  inversion Hw as [|? ? [Hw1 Hw2] _]; subst.
  destruct (concat_last "/" front w) as [a Ea]. rewrite Ea.
  rewrite (endswith_char_app "/" a w Hw1 Hw2).
  destruct (a ++ w) eqn:Eaw; [|reflexivity].
  destruct a; [cbn in Eaw; contradiction|discriminate].
Qed.

Lemma join_step_relative (path b : string) (a w : string) :
  path = a ++ w -> w <> EmptyString -> Str.contains "/" w = false ->
  Str.startswith b "/" = false ->
  Text.join_step path b = path ++ "/" ++ b.
Proof.
  intros -> Hw1 Hw2 Hb. unfold Text.join_step. rewrite Hb.
  rewrite (endswith_char_app "/" a w Hw1 Hw2).
  destruct (a ++ w) eqn:Eaw; [|reflexivity].
  destruct a; [cbn in Eaw; contradiction|discriminate].
Qed.

Lemma below_concat (d : string) (dirs : list string) :
  String.concat "" (map (fun d => "/" ++ d) (d :: dirs))
  = "/" ++ String.concat "/" (d :: dirs).
Proof.
  revert d. induction dirs as [|e dirs IH]; intros d; [reflexivity|].
  change (String.concat "" (map (fun d => "/" ++ d) (d :: e :: dirs)))
    with (("/" ++ d) ++ "" ++ String.concat "" (map (fun d => "/" ++ d) (e :: dirs))).
  rewrite IH.
  change (String.concat "/" (d :: e :: dirs))
    with (d ++ "/" ++ String.concat "/" (e :: dirs)).
  cbn [append]. now rewrite ?string_app_assoc.
Qed.

(** X20. Run from a directory below the top of the repository, the
    entry point puts the directories on the way, joined with [/], in front
    of a relative file name. *)
Theorem target_below_top_level (base_dir target_position fn : string)
        (dirs : list string) (n : option Z)
        (Hdirs : Forall component dirs) (Hsome : dirs <> [])
        (Hparse : Main.parse_target_position target_position = Ok (fn, n))
        (Hrel : Str.startswith fn "/" = false) :
  Main.target base_dir (below base_dir dirs) target_position
  = Ok (String.concat "/" (dirs ++ [fn]), n).
Proof.
  unfold Main.target, below. rewrite startswith_app, Hparse.
  cbn [assert bind fst snd]. unfold Main.extra_dirs. rewrite drop_app.
  destruct dirs as [|d dirs]; [contradiction|].
  rewrite below_concat.
  assert (Es : Text.strip_char "/" ("/" ++ String.concat "/" (d :: dirs))
               = String.concat "/" (d :: dirs)).
  { unfold Text.strip_char.
    destruct (@exists_last _ (d :: dirs)) as (front & w & E); [discriminate|].
    rewrite E in *. apply Forall_app in Hdirs as [Hfront Hw].
    inversion Hw as [|? ? [Hw1 Hw2] _]; subst.
    assert (Hnoslash : forall s, component s -> Text.lstrip_char "/" s = s).
    { intros s [Hs1 Hs2]. destruct s as [|x s]; [contradiction|].
      cbn [Str.contains] in Hs2. apply orb_false_iff in Hs2 as [Hx _].
      cbn [Text.lstrip_char]. now rewrite Hx. }
    assert (El : Text.lstrip_char "/" ("/" ++ String.concat "/" (front ++ [w])%list)
                 = String.concat "/" (front ++ [w])%list).
    { cbn [append Text.lstrip_char]. rewrite ascii_eqb_refl.
      destruct front as [|f front].
      - cbn [app String.concat]. now apply Hnoslash.
      - inversion Hfront as [|? ? [Hf1 Hf2] _]; subst.
        destruct f as [|x f]; [contradiction|].
        cbn [Str.contains] in Hf2. apply orb_false_iff in Hf2 as [Hx _].
        destruct (front ++ [w])%list eqn:Efw; [now destruct front|].
        change (String.concat "/" ((String x f :: front) ++ [w])%list)
          with (String.concat "/" (String x f :: (front ++ [w]))%list).
        rewrite Efw. cbn [String.concat append Text.lstrip_char]. now rewrite Hx. }
    rewrite El. destruct (concat_last "/" front w) as [a ->].
    now apply rstrip_char_app. }
  rewrite Es, split_concat by (try discriminate; assumption).
  rewrite join_all_snoc.
  rewrite join_concat by (try discriminate; assumption).
  destruct (@exists_last _ (d :: dirs)) as (front & w & E); [discriminate|].
  rewrite concat_snoc by discriminate.
  rewrite E in *. apply Forall_app in Hdirs as [_ Hw].
  inversion Hw as [|? ? [Hw1 Hw2] _]; subst.
  destruct (concat_last "/" front w) as [a Ea].
  rewrite (join_step_relative _ fn a w Ea Hw1 Hw2 Hrel).
  now destruct (front ++ [w])%list eqn:Efw; [destruct front|].
Qed.

Lemma target_below_top_level_witness :
  Main.target "/repo" "/repo/src/lib" "a.py:10" = Ok ("src/lib/a.py", Some 10%Z).
Proof.
  refine (target_below_top_level "/repo" "a.py:10" "a.py" ["src"; "lib"]
            (Some 10%Z) _ _ eq_refl eq_refl).
  - repeat constructor; discriminate.
  - discriminate.
Defined.

Lemma split_not_nil (c : ascii) (s : string) : Str.split c s <> [].
Proof.
  destruct s as [|x s]; [discriminate|]. cbn [Str.split].
  destruct (Ascii.eqb c x); [discriminate|]. now destruct (Str.split c s).
Qed.

(** X21. A target with two colons gives three fields where two are
    unpacked: the entry point raises [ValueError]. *)
Theorem target_two_colons (base_dir current_dir a b c : string)
        (Hinside : Str.startswith current_dir base_dir = true)
        (Ha : Str.contains ":" a = false) (Hb : Str.contains ":" b = false) :
  Main.target base_dir current_dir (a ++ ":" ++ b ++ ":" ++ c) = Raise ValueError.
Proof.
  unfold Main.target. rewrite Hinside. cbn [assert bind].
  unfold Main.parse_target_position.
  rewrite contains_app. cbn [append Str.contains]. rewrite ascii_eqb_refl.
  cbn [orb]. rewrite orb_true_r.
  rewrite (split_app ":" a) by assumption.
  rewrite (split_app ":" b) by assumption.
  destruct (Str.split ":" c) as [|x xs] eqn:E; [|reflexivity].
  now destruct (split_not_nil ":" c).
Qed.

Lemma target_two_colons_witness :
  Main.target "/repo" "/repo" "a.py:10:2" = Raise ValueError.
Proof.
  exact (target_two_colons "/repo" "/repo" "a.py" "10" "2" eq_refl eq_refl eq_refl).
Defined.

(* ------------------------------------------------------------------ *)
(** ** Highlighted lines under clipping *)

Section DictLemmas.
Context {K V : Type}.
Variable eqb : K -> K -> bool.
Hypothesis eqb_eq : forall a b, eqb a b = true <-> a = b.

Lemma get_set_same (d : @Dict.t K V) (k : K) (v : V) :
  Dict.get eqb (Dict.set eqb d k v) k = Some v.
Proof.
  induction d as [|[k' v'] d IH]; cbn [Dict.set Dict.get].
  - now rewrite (proj2 (eqb_eq k k) eq_refl).
  - destruct (eqb k k') eqn:E; cbn [Dict.get]; rewrite E; [reflexivity|exact IH].
Qed.

Lemma get_set_other (d : @Dict.t K V) (k k0 : K) (v : V) :
  k0 <> k -> Dict.get eqb (Dict.set eqb d k v) k0 = Dict.get eqb d k0.
Proof.
  intros Hne. induction d as [|[k' v'] d IH]; cbn [Dict.set Dict.get].
  - destruct (eqb k0 k) eqn:E; [apply eqb_eq in E; contradiction|reflexivity].
  - destruct (eqb k k') eqn:E; cbn [Dict.get].
    + apply eqb_eq in E. subst k'.
      destruct (eqb k0 k) eqn:E0; [apply eqb_eq in E0; contradiction|reflexivity].
    + destruct (eqb k0 k'); [reflexivity|exact IH].
Qed.

Lemma get_none (d : @Dict.t K V) (k : K) :
  ~ In k (Dict.keys d) -> Dict.get eqb d k = None.
Proof.
  induction d as [|[k' v'] d IH]; [reflexivity|]. cbn. intros H.
  destruct (eqb k k') eqn:E.
  - apply eqb_eq in E. subst. exfalso. apply H. now left.
  - apply IH. intros Hin. apply H. now right.
Qed.

Lemma get_some_in (d : @Dict.t K V) (k : K) (v : V) :
  Dict.get eqb d k = Some v -> In k (Dict.keys d).
Proof.
  induction d as [|[k' v'] d IH]; [discriminate|]. cbn.
  destruct (eqb k k') eqn:E.
  - apply eqb_eq in E. subst. now left.
  - intros H. right. now apply IH.
Qed.

End DictLemmas.

Lemma this_file_get_acc (d : FileDiff.t) (hl : @Dict.t match_key string)
      (acc : @Dict.t pos_key string) (a b : option Z) :
  NoDup (Dict.keys hl) ->
  Dict.get pos_eqb
    (fold_left
       (fun this (entry : match_key * string) =>
          let '((filename, left_num, right_num), highlight_char) := entry in
          if opt_eqb String.eqb filename (FileDiff.filename d)
          then Dict.set pos_eqb this (left_num, right_num) highlight_char
          else this)
       hl acc) (a, b)
  = match Dict.get match_eqb hl (FileDiff.filename d, a, b) with
    | Some s => Some s
    | None => Dict.get pos_eqb acc (a, b)
    end.
Proof.
  revert acc. induction hl as [|[[[f a'] b'] v] hl IH]; intros acc Hnd; [reflexivity|].
  cbn [Dict.keys map fst] in Hnd. inversion Hnd as [|? ? Hnot Hnd']; subst.
  cbn [fold_left]. rewrite (IH _ Hnd'). cbn [Dict.get].
  destruct (match_eqb (FileDiff.filename d, a, b) (f, a', b')) eqn:E.
  - apply match_eqb_eq in E. injection E as <- <- <-.
    rewrite (get_none match_eqb match_eqb_eq hl _ Hnot).
    rewrite (proj2 (opt_string_eqb_eq _ _) eq_refl).
    apply (get_set_same pos_eqb pos_eqb_eq).
  - destruct (Dict.get match_eqb hl (FileDiff.filename d, a, b)); [reflexivity|].
    destruct (opt_eqb String.eqb f (FileDiff.filename d)) eqn:Ef; [|reflexivity].
    apply opt_string_eqb_eq in Ef. subst f.
    apply (get_set_other pos_eqb pos_eqb_eq). intros [= -> ->].
    rewrite (proj2 (match_eqb_eq _ _) eq_refl) in E. discriminate.
Qed.

Lemma this_file_get (d : FileDiff.t) (hl : @Dict.t match_key string)
      (a b : option Z) (s : string) :
  NoDup (Dict.keys hl) ->
  Dict.get match_eqb hl (FileDiff.filename d, a, b) = Some s ->
  Dict.get pos_eqb (Commit.this_file_highlight_lines d hl) (a, b) = Some s.
Proof.
  intros Hnd H. unfold Commit.this_file_highlight_lines.
  now rewrite this_file_get_acc, H.
Qed.

Lemma near_self (n : Z) (a : option Z) :
  (0 < n)%Z -> a <> None -> FileDiffPrint.near n a a = true.
Proof.
  intros Hn Ha. destruct a as [x|]; [|contradiction]. cbn.
  rewrite Z.sub_diag. now apply Z.ltb_lt.
Qed.

Lemma highlighted_shown_in_file (d : FileDiff.t) (hl : @Dict.t pos_key string)
      (n : Z) (l : FileDiffLine.t) (s : string) (evs : list event) :
  (0 < n)%Z -> In l (FileDiff.lines d) ->
  Dict.get pos_eqb hl (line_position l) = Some s ->
  FileDiffPrint.print_stream d hl (Some n) = Ok evs ->
  In (WriteLine (if is_empty s then None else Some s) l) evs.
Proof.
  intros Hn Hin Hget H. unfold FileDiffPrint.print_stream in H.
  destruct (FileDiff.lines d) as [|x ls] eqn:El; [destruct Hin|].
  destruct (forallb FileDiffPrint.margin_ok (x :: ls)) eqn:Em; [|discriminate].
  remember (flat_map _ (x :: ls)) as shown eqn:Eshown in H.
  injection H as <-. rewrite Eshown.
  apply in_flat_map. exists l. split; [exact Hin|].
  assert (Hshow : FileDiffPrint.should_show_line (Some n) hl l = true).
  { rewrite should_show_line_spec. apply existsb_exists.
    exists (line_position l, s). split.
    - clear -Hget. induction hl as [|[k v] hl IH]; [discriminate|].
      cbn [Dict.get] in Hget. destruct (pos_eqb (line_position l) k) eqn:E.
      + apply pos_eqb_eq in E. injection Hget as ->. subst k. now left.
      + right. now apply IH.
    - cbn [fst snd line_position].
      rewrite forallb_forall in Em. specialize (Em l Hin).
      unfold FileDiffPrint.margin_ok in Em. apply orb_true_iff in Em as [Em|Em].
      + rewrite near_self; [reflexivity|exact Hn|].
        destruct (FileDiffLine.left_line_num l); [discriminate|discriminate].
      + rewrite (near_self n (FileDiffLine.right_line_num l)); [apply orb_true_r|exact Hn|].
        destruct (FileDiffLine.right_line_num l); [discriminate|discriminate]. }
  rewrite Hshow. left. unfold FileDiffPrint.label_of.
  unfold line_position in Hget. now rewrite Hget.
Qed.

Lemma forall2_in_left {A B : Type} (R : A -> B -> Prop) (la : list A) (lb : list B) (a : A) :
  Forall2 R la lb -> In a la -> exists b, In b lb /\ R a b.
Proof.
  induction 1 as [|x y la lb Hxy _ IH]; [intros []|].
  intros [<-|Hin].
  - exists y. split; [now left|exact Hxy].
  - destruct (IH Hin) as [b [Hb Hr]]. exists b. split; [now right|exact Hr].
Qed.

(** X22. Under clipping with a positive context distance every
    highlighted line of the change-set is written, with its label. *)
Theorem highlighted_lines_are_shown (c : Commit.t) (hl : @Dict.t match_key string)
        (n : Z) (k : option string) (d : FileDiff.t) (l : FileDiffLine.t)
        (s : string) (evs : list event)
        (Hn : (0 < n)%Z)
        (Hkeys : NoDup (Dict.keys hl))
        (Hd : In (k, d) (Commit.file_diffs c))
        (Hl : In l (FileDiff.lines d))
        (Hget : Dict.get match_eqb hl
                  (FileDiff.filename d, FileDiffLine.left_line_num l,
                   FileDiffLine.right_line_num l) = Some s)
        (Hprint : Commit.print_stream c hl (Some n) = Ok evs) :
  In (WriteLine (if is_empty s then None else Some s) l) evs.
Proof.
  unfold Commit.print_stream in Hprint.
  destruct (Sorting.sorted Sorting.item_lt (Commit.file_diffs c)) as [items|] eqn:Es;
    [|discriminate].
  cbn [bind] in Hprint.
  destruct (Commit.print_files items hl (Some n)) as [body|] eqn:Eb; [|discriminate].
  cbn [bind] in Hprint. injection Hprint as <-. right.
  destruct (sorted_ok_sorted _ _ Es) as [Hperm _].
  apply (Permutation_in _ Hperm) in Hd.
  destruct (print_files_parts items hl (Some n) body Eb) as (parts & -> & F).
  destruct (forall2_in_left _ items parts (k, d) F Hd) as (part & Hpart & Hp).
  cbn [snd] in Hp. apply in_concat. exists part. split; [exact Hpart|].
  unfold Commit.print_file in Hp.
  pose proof (this_file_get d hl _ _ s Hkeys Hget) as Hthis.
  destruct (Commit.this_file_highlight_lines d hl) as [|e this] eqn:Et;
    [discriminate|].
  cbn [is_some is_empty_list andb] in Hp.
  destruct (FileDiffPrint.print_stream d (e :: this) (Some n)) as [evs0|] eqn:E0;
    [|discriminate].
  cbn [bind] in Hp. injection Hp as <-. apply in_or_app. left.
  exact (highlighted_shown_in_file d (e :: this) n l s evs0 Hn Hl Hthis E0).
Qed.

Lemma highlighted_lines_are_shown_witness :
  let old := FileDiffLine.make (Some "a.txt") (Some 5%Z) None "old" in
  let hl : @Dict.t match_key string := [((Some "a.txt", Some 5%Z, None), "1")] in
  exists evs,
    Commit.print_stream Sample.commit hl (Some 10%Z) = Ok evs
    /\ In (WriteLine (Some "1") old) evs.
Proof.
  intros old hl. eexists. split; [vm_compute; reflexivity|].
  refine (highlighted_lines_are_shown Sample.commit hl 10 (Some "a.txt")
            Sample.diff old "1" _ eq_refl _ (or_introl eq_refl)
            (or_intror (or_introl eq_refl)) eq_refl eq_refl).
  repeat constructor. intros [].
Defined.

(* ------------------------------------------------------------------ *)
(** ** Lines with the same text *)

Lemma div_self_one (m : positive) (e : Z) : PyFloat.normal (Zpos m) ->
  SFdiv prec emax (S754_finite false m e) (S754_finite false m e) = PyFloat.lit_1_0.
Proof.
  intros Hn. unfold PyFloat.normal in Hn. unfold SFdiv, SFdiv_core_binary.
  rewrite (Zdigits2_unique (Zpos m) 53) by (change (53 - 1)%Z with 52%Z; lia).
  rewrite fexp_eq.
  replace (53 + e - (53 + e) - 53)%Z with (-53)%Z by lia.
  replace (e - e)%Z with 0%Z by lia.
  change (Z.min (Z.max (-53) (-1074)) 0) with (-53)%Z.
  change (0 - -53)%Z with 53%Z.
  rewrite (core_shift (Zpos m) 53) by lia.
  destruct (Z.div_eucl (Z.pos m * 2 ^ 53) (Z.pos m)) as [q r] eqn:E.
  apply div_eucl_eq in E. destruct E as [Eq Er].
  rewrite Z.mul_comm in Eq, Er. rewrite Z.div_mul in Eq by lia.
  rewrite Z.mod_mul in Er by lia.
  subst q r. rewrite new_location_0. reflexivity.
Qed.

Lemma of_int_finite (n : Z) : (0 < n < 2 ^ 1023)%Z ->
  exists m e, PyFloat.normal (Zpos m) /\ PyFloat.of_int n = S754_finite false m e.
Proof.
  intros [Hn Hlt]. rewrite of_int_pack by assumption.
  pose proof (int_pair_normal n Hn) as Hnorm.
  assert (He : (snd (PyFloat.int_pair n) <= 971)%Z).
  { unfold PyFloat.int_pair, PyFloat.final_pair, PyFloat.int_exponent.
    pose proof (Zdigits2_le_of_lt n 1023 ltac:(lia) ltac:(lia) Hlt).
    destruct (_ <? _)%Z; cbn [snd]; lia. }
  destruct (PyFloat.int_pair n) as [m e]. cbn [fst snd] in *.
  unfold PyFloat.pack. destruct (Z.leb_spec e 971); [|lia].
  destruct m as [|p|p]; try (unfold PyFloat.normal in Hnorm; lia).
  now exists p, e.
Qed.

Lemma lcp_refl (a : string) : Spec.longest_common_prefix a a = a.
Proof.
  induction a as [|c a IH]; [reflexivity|]. cbn. now rewrite ascii_eqb_refl, IH.
Qed.

(** X23. Two lines with the same text, white space at the ends apart,
    match at every threshold below 1.0, the default 0.8 among them (the
    text being shorter than 2^1023 characters, so that its length is a
    finite float). *)
Theorem same_text_matches (l1 l2 : FileDiffLine.t) (params : match_params)
        (Hsame : Str.strip (FileDiffLine.line_contents l1)
                 = Str.strip (FileDiffLine.line_contents l2))
        (Hlen : (Z.of_nat (String.length (Str.strip (FileDiffLine.line_contents l1)))
                 < 2 ^ 1023)%Z)
        (Hbelow : PyFloat.gt PyFloat.lit_1_0 (min_prefix_length params) = true) :
  lines_match l1 l2 params = Ok true.
Proof.
  rewrite lines_match_value. cbv zeta. rewrite <- Hsame.
  set (a := Str.strip (FileDiffLine.line_contents l1)) in *.
  destruct (is_empty a) eqn:Ea; [reflexivity|]. cbn [andb orb].
  rewrite lcp_refl. apply is_empty_false in Ea.
  assert (E : Spec.exceeds (String.length a) (String.length a)
                (min_prefix_length params) = true).
  { unfold Spec.exceeds.
    destruct (of_int_finite (Z.of_nat (String.length a))) as (m & e & Hm & ->);
      [lia|].
    rewrite (div_self_one m e Hm). exact Hbelow. }
  now rewrite E.
Qed.

Lemma same_text_matches_witness :
  lines_match (FileDiffLine.make (Some "a.txt") (Some 5%Z) None "  return x")
              (FileDiffLine.make (Some "a.txt") None (Some 9%Z) "return x  ")
              [] = Ok true.
Proof.
  exact (same_text_matches
           (FileDiffLine.make (Some "a.txt") (Some 5%Z) None "  return x")
           (FileDiffLine.make (Some "a.txt") None (Some 9%Z) "return x  ")
           [] eq_refl eq_refl eq_refl).
Defined.

(* ------------------------------------------------------------------ *)
(** ** Sessions *)

Lemma choose_exit (c : Commit.t) (hl : @Dict.t match_key string)
      (n : nat) (inputs : list string) (out : list event)
      (ex : loop_exit) (con' : console) :
  choose c hl n inputs out = (Ok ex, con') ->
  match ex with
  | Return code => code = 0%Z
  | Chosen (ChoiceInt k) => (1 <= k <= Z.of_nat n)%Z
  | Chosen (ChoiceTuple fn line) => True
  end.
Proof.
  revert out. induction inputs as [|s rest IH]; intros out H.
  - cbn in H. discriminate.
  - cbn [choose] in H.
    destruct (Str.isdigit s).
    { destruct (Str.int s) as [k|]; [|discriminate].
      destruct (Z.ltb_spec k 1); cbn [orb] in H; [now apply IH in H|].
      destruct (Z.ltb_spec (Z.of_nat n) k); [now apply IH in H|].
      injection H as <- _. lia. }
    destruct (String.eqb s "q"); [now injection H as <- _|].
    destruct (String.eqb s "f").
    { destruct (Commit.print_stream c hl None); [|discriminate]. now apply IH in H. }
    destruct (Str.contains ":" s); [|now apply IH in H].
    destruct (Str.split ":" s) as [|? [|? [|? ?]]]; try (now apply IH in H).
    destruct (Str.int _); [|now apply IH in H].
    now injection H as <- _.
Qed.

Section Session.
Variable file_blame : option string -> string -> result FileBlame.t.
Variable commit : string -> result Commit.t.
Variable params : match_params.
Variable full_diffs : bool.

(** What a turn can hand back. *)
Lemma turn_result (cur : cursor) (con con' : console) (x : Z + cursor) :
  turn file_blame commit params full_diffs cur con = (Ok x, con') ->
  x = inl 0%Z
  \/ exists h c fn n out,
       commit h = Ok c
       /\ x = inr (mk_cursor (Some fn) (Some n) (Commit.hash c ++ "^"))
       /\ stdout con' = (out ++ [WriteSeparator])%list.
Proof.
  unfold turn, io_bind, write, lift, ret. intros H.
  destruct (file_blame _ _) as [b|]; [|discriminate].
  destruct (if truthy (target_line_num cur) then _ else _) as [[blame|] con1] eqn:E1;
    [|discriminate].
  destruct (commit _) as [c|] eqn:Ec; [|discriminate].
  destruct (match blame with
            | Some l => find_matches _ _ _ _ _
            | None => Ok ([], [])
            end) as [[all_matches hl]|]; [|discriminate].
  destruct (Commit.print_stream c hl _) as [evs|]; [|discriminate].
  destruct (Sorting.sorted Sorting.name_lt _); [|discriminate].
  cbn [stdin stdout] in H.
  destruct (choose c hl _ _ _) as [[[choice|code]|] con2] eqn:Ech; [| |discriminate].
  - destruct choice as [k|fn line].
    + cbn in H. discriminate.
    + cbn in H. injection H as <- <-. right.
      eexists _, c, fn, line, _. split; [exact Ec|]. split; reflexivity.
  - apply choose_exit in Ech. subst code. injection H as <- _. now left.
Qed.

(** X24. A session on a finite input ends: it returns 0, the only
    value it ever returns, or it raises (at the latest [EOFError], when
    the input is used up). *)
Theorem session_ends (fuel : nat) (cur : cursor) (con : console)
        (Hfuel : (List.length (stdin con) < fuel)%nat) :
  exists r con',
    iterative_blame_interactive file_blame commit params full_diffs fuel cur con
    = Some (r, con')
    /\ (r = Ok 0%Z \/ exists e, r = Raise e).
Proof.
  revert cur con Hfuel. induction fuel as [|fuel IH]; intros cur con Hf; [lia|].
  cbn [iterative_blame_interactive].
  destruct (turn file_blame commit params full_diffs cur con)
    as [[[code|cur']|e] con1] eqn:E.
  - destruct (turn_result _ _ _ _ E) as [[= ->]|(h & c & fn & n & out & _ & Hx & _)];
      [|discriminate].
    eexists _, _. split; [reflexivity|now left].
  - apply IH. apply turn_consumes in E. lia.
  - eexists _, _. split; [reflexivity|]. right. now exists e.
Qed.


End Session.

Lemma session_ends_witness :
  exists r con',
    iterative_blame_interactive Sample.file_blame Sample.commit_of [] false 3
      (mk_cursor (Some "a.txt") (Some 5%Z) "HEAD") (mk_console ["f"; "q"] [])
    = Some (r, con')
    /\ (r = Ok 0%Z \/ exists e, r = Raise e).
Proof.
  exact (session_ends Sample.file_blame Sample.commit_of [] false 3
           (mk_cursor (Some "a.txt") (Some 5%Z) "HEAD")
           (mk_console ["f"; "q"] []) (le_n 3)).
Defined.


(* ------------------------------------------------------------------ *)
(** ** Entries with more than one colon *)

Lemma contains_not_eq (c : ascii) (s t : string) :
  Str.contains c s = true -> Str.contains c t = false -> String.eqb s t = false.
Proof.
  intros Hs Ht. apply String.eqb_neq. intros ->. congruence.
Qed.

(** X26. At the prompt an entry with two colons or more is passed over:
    the unpacking of its three fields raises [ValueError], which the loop
    catches, and it asks again. *)
Theorem choose_rejects_two_colons (c : Commit.t) (hl : @Dict.t match_key string)
        (n : nat) (a b r : string) (rest : list string) (out : list event)
        (Ha : Str.contains ":" a = false) (Hb : Str.contains ":" b = false) :
  choose c hl n ((a ++ ":" ++ b ++ ":" ++ r) :: rest) out
  = choose c hl n rest (out ++ [WritePrompt n])%list.
Proof.
  assert (Hc : Str.contains ":" (a ++ ":" ++ b ++ ":" ++ r) = true).
  { rewrite contains_app. cbn [append Str.contains]. rewrite ascii_eqb_refl.
    cbn [orb]. apply orb_true_r. }
  cbn [choose].
  rewrite (isdigit_false_of_contains ":" _ Hc eq_refl).
  rewrite (contains_not_eq ":" _ "q" Hc eq_refl).
  rewrite (contains_not_eq ":" _ "f" Hc eq_refl).
  rewrite Hc.
  change (a ++ ":" ++ b ++ ":" ++ r) with (a ++ String ":" (b ++ String ":" r)).
  rewrite (split_app ":" a) by assumption.
  rewrite (split_app ":" b) by assumption.
  destruct (Str.split ":" r) as [|x xs] eqn:E; [|reflexivity].
  now destruct (split_not_nil ":" r).
Qed.

Lemma choose_rejects_two_colons_witness :
  choose Sample.commit [] 1 ["a.txt:10:2"; "q"] []
  = choose Sample.commit [] 1 ["q"] [WritePrompt 1].
Proof.
  exact (choose_rejects_two_colons Sample.commit [] 1 "a.txt" "10" "2" ["q"] []
           eq_refl eq_refl).
Defined.

(* ------------------------------------------------------------------ *)
(** ** The whole output of [git blame] *)

Lemma parse_blame_text (b : LineBlame.t) :
  blame_ok b -> FileBlameInit.parse_line (blame_text b) = Ok b.
Proof.
  intros (Hh & Hf & Ho & Hc). unfold blame_text.
  destruct (blame_line_split (LineBlame.commit_hash b) (LineBlame.filename b)
              (Str.of_nat (Z.to_nat (LineBlame.orig_line_number b)))
              (Str.of_nat (Z.to_nat (LineBlame.current_line_number b)))
              " " " " " " (LineBlame.line_contents b))
    as [Efields Etext];
    try assumption; try apply of_nat_field;
    try (split; [discriminate|reflexivity]).
  unfold FileBlameInit.parse_line. cbv zeta in *.
  rewrite Efields, Etext, !int_of_nat, !Z2Nat.id by assumption.
  now destruct b.
Qed.

(** X27. [FileBlame] reads the output of [git blame -slfn] line by line
    and keeps the records in the order of the output: from the lines
    printed for well-formed records it builds those very records. *)
Theorem blame_output_round_trip (filename : string) (commit_hash : option string)
        (bs : list LineBlame.t) (Hok : Forall blame_ok bs) :
  FileBlameInit.init filename commit_hash (map blame_text bs)
  = Ok (FileBlame.make commit_hash filename bs).
Proof.
  unfold FileBlameInit.init.
  assert (E : FileBlameInit.parse_lines (map blame_text bs) = Ok bs).
  { induction Hok as [|b bs Hb _ IH]; [reflexivity|].
    cbn [map FileBlameInit.parse_lines].
    now rewrite (parse_blame_text b Hb), IH. }
  now rewrite E.
Qed.

Lemma blame_output_round_trip_witness :
  FileBlameInit.init "a.txt" (Some "HEAD")
    ["7d3e9f1a a.txt 4 4) one"; "1f2e3d4c a.txt 7 5) new"]
  = Ok (FileBlame.make (Some "HEAD") "a.txt"
          [LineBlame.make "a.txt" 4 4 "7d3e9f1a" "one";
           LineBlame.make "a.txt" 7 5 "1f2e3d4c" "new"]).
Proof.
  refine (blame_output_round_trip "a.txt" (Some "HEAD")
            [LineBlame.make "a.txt" 4 4 "7d3e9f1a" "one";
             LineBlame.make "a.txt" 7 5 "1f2e3d4c" "new"] _).
  repeat constructor; cbn; (discriminate || reflexivity || lia).
Defined.

(* ------------------------------------------------------------------ *)
(** ** The labels after the search for matches *)

Lemma number_from_labelled (n : nat) (ms : list match_key)
      (hl : @Dict.t match_key string) (m : match_key) :
  In m ms \/ (exists label, Dict.get match_eqb hl m = Some label) ->
  exists label, Dict.get match_eqb (Spec.number_from n ms hl) m = Some label.
Proof.
  revert n hl. induction ms as [|x ms IH]; intros n hl H.
  - destruct H as [[]|H]. exact H.
  - cbn [Spec.number_from]. apply IH.
    destruct (match_eqb m x) eqn:E.
    + apply match_eqb_eq in E. subst x. right.
      rewrite dict_get_set_same. now eexists.
    + destruct H as [[->|H]|H].
      * rewrite (proj2 (match_eqb_eq _ _) eq_refl) in E. discriminate.
      * now left.
      * right. rewrite dict_get_set_other; [exact H|].
        intros ->. rewrite (proj2 (match_eqb_eq _ _) eq_refl) in E. discriminate.
Qed.

(** X28. When the search for matches returns, the position of the
    target line is still labelled [target], every match has a pre-image
    number, and every match has a label. *)
Theorem target_keeps_its_label (params : match_params) (c : Commit.t)
        (target_filename_ : option string) (line_target_filename : string)
        (orig_line_number : Z) (all_matches : list match_key)
        (highlight_lines : @Dict.t match_key string)
        (Hfound : find_matches params c target_filename_ line_target_filename
                    orig_line_number = Ok (all_matches, highlight_lines)) :
  Dict.get match_eqb highlight_lines
    (Some line_target_filename, None, Some orig_line_number) = Some "target"
  /\ Forall (fun m : match_key => snd (fst m) <> None) all_matches
  /\ Forall (fun m : match_key =>
               exists label, Dict.get match_eqb highlight_lines m = Some label)
            all_matches.
Proof.
  unfold find_matches in Hfound.
  destruct (Dict.get _ (Commit.file_diffs c) target_filename_) as [d|]; [|discriminate].
  destruct (FileDiff.get_line d None (Some orig_line_number)) as [tl|]; [|discriminate].
  cbn [bind] in Hfound. unfold scan_commit in Hfound.
  destruct (Sorting.sorted Sorting.item_lt (Commit.file_diffs c)) as [items|];
    [|discriminate].
  cbn [bind] in Hfound. rewrite scan_files_spec in Hfound.
  cbn [app List.length] in Hfound. injection Hfound as <- <-.
  pose proof (candidates_have_left params tl items) as Hleft.
  split; [|split].
  - rewrite number_from_other.
    + cbn [Dict.get]. now rewrite (proj2 (match_eqb_eq _ _) eq_refl).
    + intros Hin. rewrite Forall_forall in Hleft. specialize (Hleft _ Hin).
      discriminate.
  - eapply Forall_impl; [|exact Hleft]. intros m Hm.
    cbv beta in *. destruct (snd (fst m)); cbn in *; [discriminate|discriminate].
  - apply Forall_forall. intros m Hm. apply number_from_labelled. now left.
Qed.

Lemma target_keeps_its_label_witness :
  exists all_matches highlight_lines,
    find_matches [] Sample.commit (Some "a.txt") "a.txt" 5
    = Ok (all_matches, highlight_lines)
    /\ Dict.get match_eqb highlight_lines (Some "a.txt", None, Some 5%Z)
       = Some "target"
    /\ Forall (fun m : match_key => snd (fst m) <> None) all_matches
    /\ Forall (fun m : match_key =>
                 exists label, Dict.get match_eqb highlight_lines m = Some label)
              all_matches.
Proof.
  eexists _, _. split; [vm_compute; reflexivity|].
  exact (target_keeps_its_label [] Sample.commit (Some "a.txt") "a.txt" 5 _ _
           eq_refl).
Defined.

(* ------------------------------------------------------------------ *)
(** ** A turn without a line number *)

(** X29. A turn whose line number is absent or 0 looks up no line and
    searches no match: it writes the two notices, shows the revision
    named by the cursor (without a leading [^]) in full whatever
    [full_diffs] says, and prompts with no match; on [q] it returns 0. *)
Theorem turn_without_line
        (file_blame : option string -> string -> result FileBlame.t)
        (commit : string -> result Commit.t)
        (params : match_params) (full_diffs : bool)
        (cur : cursor) (con : console) (b : FileBlame.t) (c : Commit.t)
        (evs : list event) (names : list (option string)) (rest : list string)
        (Hline : truthy (target_line_num cur) = false)
        (Hblame : file_blame (target_filename cur) (commit_hash cur) = Ok b)
        (Hcommit : commit (if Str.startswith (commit_hash cur) "^"
                           then Str.drop 1 (commit_hash cur)
                           else commit_hash cur) = Ok c)
        (Hprint : Commit.print_stream c [] None = Ok evs)
        (Hnames : Sorting.sorted Sorting.name_lt (Dict.keys (Commit.file_diffs c))
                  = Ok names)
        (Hquit : stdin con = "q" :: rest) :
  turn file_blame commit params full_diffs cur con
  = (Ok (inl 0%Z),
     mk_console rest
       (stdout con
        ++ [WriteBlame (commit_hash cur) (target_filename cur);
            WriteShow (if Str.startswith (commit_hash cur) "^"
                       then Str.drop 1 (commit_hash cur)
                       else commit_hash cur)]
        ++ evs ++ [WritePrompt 0])%list).
Proof.
  unfold turn, io_bind, write, lift, ret. rewrite Hblame, Hline.
  rewrite Hcommit.
  assert (Hctx : context_around_highlights full_diffs [] = None).
  { unfold context_around_highlights. cbn. now rewrite orb_true_r. }
  rewrite Hctx, Hprint, Hnames. cbn [stdin stdout List.length].
  rewrite Hquit. cbn [choose]. cbn.
  now rewrite <- !app_assoc.
Qed.

Lemma turn_without_line_witness :
  exists evs,
    turn Sample.file_blame Sample.commit_of [] false
      (mk_cursor (Some "a.txt") (Some 0%Z) "HEAD") (mk_console ["q"; "1"] [])
    = (Ok (inl 0%Z),
       mk_console ["1"]
         ([WriteBlame "HEAD" (Some "a.txt"); WriteShow "HEAD"]
          ++ evs ++ [WritePrompt 0])%list).
Proof.
  eexists.
  refine (turn_without_line Sample.file_blame Sample.commit_of [] false
            (mk_cursor (Some "a.txt") (Some 0%Z) "HEAD")
            (mk_console ["q"; "1"] []) _ Sample.commit _ _ ["1"]
            eq_refl eq_refl eq_refl _ _ eq_refl).
  - vm_compute. reflexivity.
  - vm_compute. reflexivity.
Defined.
